(** * Perplexity-AI: the search page of [app.py]

    A shallow embedding of [serper_search] and [main] of [app.py], the
    Streamlit page that sends a query to the Serper search API, hands the
    web results to a language-model agent and renders the result sections.

    - [Py]: the Python values that [response.json()] returns, and the
      Python operations [app.py] applies to them, with the exceptions they
      raise on values of the wrong type.
    - [Trace]: the effects of the page (HTTP posts, the agent call, the
      Streamlit and folium widgets), and the monad that records them.
    - [App]: the constants, [serper_search] and [main], over the external
      services and the library calls that can raise, taken as section
      variables.
    - [Obs], [Run]: what a trace shows (the posts, the prompt, what is
      drawn in each section), and [main] cut into its blocks.
    - [Shape]: the stages of a run, the shape of the responses the blocks
      can read, and what the grids show.
    - [Sample], [Cases]: services and responses to run the page on.
    - the properties of the page. *)

From Stdlib Require Import String Ascii List ZArith Bool Arith Lia.
From Stdlib Require Import PrimFloat DecimalString.
Import ListNotations.
Open Scope list_scope.
Open Scope string_scope.

(** ** Python values and operations *)

Module Py.

(** What [json.loads] builds: [None], [bool], [int], [float], [str],
    [list] and [dict].  A [str] is held as its UTF-8 bytes.  A [dict] is the
    list of its bindings in insertion order; a key is looked up at its first
    binding. *)
#[warnings="-register-all"]
Inductive value : Type :=
| VNone
| VBool (b : bool)
| VInt (z : Z)
| VFloat (f : float)
| VStr (s : string)
| VList (l : list value)
| VDict (d : list (string * value)).

(** The exceptions of the Python operations used, and [External] for one
    raised inside a library call (requests, json, the agent). *)
Inductive exn : Type :=
| TypeError
| AttributeError
| KeyError
| IndexError
| External (what : string).

(** A computation that returns or raises. *)
Definition result (A : Type) : Type := (exn + A)%type.

(** [bool(v)]. *)
Definition truthy (v : value) : bool :=
  match v with
  | VNone => false
  | VBool b => b
  | VInt z => negb (Z.eqb z 0)
  | VFloat f => negb (PrimFloat.eqb f 0%float)
  | VStr s => negb (String.eqb s "")
  | VList l => match l with [] => false | _ => true end
  | VDict d => match d with [] => false | _ => true end
  end.

(** Lookup in a dict's bindings. *)
Fixpoint lookup (k : string) (d : list (string * value)) : option value :=
  match d with
  | [] => None
  | (k', v) :: d' => if String.eqb k k' then Some v else lookup k d'
  end.

(** [v.get(k, default)]: only a dict has [get]. *)
Definition get (v : value) (k : string) (default : value) : result value :=
  match v with
  | VDict d => inr (match lookup k d with Some x => x | None => default end)
  | _ => inl AttributeError
  end.

(** [v[k]] for a string [k]. *)
Definition getitem (v : value) (k : string) : result value :=
  match v with
  | VDict d => match lookup k d with Some x => inr x | None => inl KeyError end
  | _ => inl TypeError
  end.

(** [sub in s] on two strings. *)
Fixpoint substring_of (sub s : string) : bool :=
  String.prefix sub s ||
  match s with
  | EmptyString => false
  | String _ s' => substring_of sub s'
  end.

Definition is_str (k : string) (v : value) : bool :=
  match v with VStr s => String.eqb k s | _ => false end.

(** [k in v] for a string [k]: a key of a dict, an element of a list, a
    substring of a str; other values are not iterable. *)
Definition contains (k : string) (v : value) : result bool :=
  match v with
  | VDict d => inr (match lookup k d with Some _ => true | None => false end)
  | VList l => inr (existsb (is_str k) l)
  | VStr s => inr (substring_of k s)
  | _ => inl TypeError
  end.

(** A byte [10xxxxxx] continues a UTF-8 character. *)
Definition is_continuation (c : ascii) : bool :=
  let n := nat_of_ascii c in Nat.leb 128 n && Nat.ltb n 192.

(** The characters of a str, each as a str. *)
Fixpoint chars (s : string) : list string :=
  match s with
  | EmptyString => []
  | String c s' =>
      match s' with
      | String c' _ =>
          if is_continuation c' then
            match chars s' with
            | h :: t => String c h :: t
            | [] => [String c EmptyString]
            end
          else String c EmptyString :: chars s'
      | EmptyString => [String c EmptyString]
      end
  end.

(** [len(v)]. *)
Definition len (v : value) : result nat :=
  match v with
  | VList l => inr (List.length l)
  | VDict d => inr (List.length d)
  | VStr s => inr (List.length (chars s))
  | _ => inl TypeError
  end.

(** [v[0]]: no dict built from JSON has the key [0]. *)
Definition first (v : value) : result value :=
  match v with
  | VList (x :: _) => inr x
  | VList [] => inl IndexError
  | VStr s => match chars s with c :: _ => inr (VStr c) | [] => inl IndexError end
  | VDict _ => inl KeyError
  | _ => inl TypeError
  end.

(** [v[:n]]: a slice is no key of a dict. *)
Definition slice_to (n : nat) (v : value) : result value :=
  match v with
  | VList l => inr (VList (firstn n l))
  | VStr s => inr (VStr (String.concat "" (firstn n (chars s))))
  | _ => inl TypeError
  end.

(** The elements [for x in v] goes through. *)
Definition iter (v : value) : result (list value) :=
  match v with
  | VList l => inr l
  | VStr s => inr (map VStr (chars s))
  | VDict d => inr (map (fun kv => VStr (fst kv)) d)
  | _ => inl TypeError
  end.

(** [v.items()]. *)
Definition items (v : value) : result (list (string * value)) :=
  match v with
  | VDict d => inr d
  | _ => inl AttributeError
  end.

(** *** str methods *)

(** The encodings of the characters [str.isspace] accepts. *)
Definition byte (n : nat) : string := String (ascii_of_nat n) EmptyString.
Definition bytes (l : list nat) : string :=
  fold_right (fun n s => String (ascii_of_nat n) s) EmptyString l.

Definition whitespace : list string :=
  map byte [9; 10; 11; 12; 13; 28; 29; 30; 31; 32]
  ++ [bytes [194; 133]; bytes [194; 160]; bytes [225; 154; 128]]
  ++ map (fun n => bytes [226; 128; n]) [128; 129; 130; 131; 132; 133; 134; 135; 136; 137; 138]
  ++ [bytes [226; 128; 168]; bytes [226; 128; 169]; bytes [226; 128; 175];
      bytes [226; 129; 159]; bytes [227; 128; 128]].

Definition is_space (c : string) : bool := existsb (String.eqb c) whitespace.

Fixpoint drop_spaces (l : list string) : list string :=
  match l with
  | c :: l' => if is_space c then drop_spaces l' else l
  | [] => []
  end.

(** [s.strip()]. *)
Definition strip (s : string) : string :=
  String.concat "" (rev (drop_spaces (rev (drop_spaces (chars s))))).

Definition lower_ascii (c : ascii) : ascii :=
  let n := nat_of_ascii c in
  if Nat.leb 65 n && Nat.leb n 90 then ascii_of_nat (n + 32) else c.

(** [s.lower()] on the ASCII letters; the bytes of other characters are
    kept: the page only compares the result with [youtube], and no
    character outside ASCII lowercases to one of its letters. *)
Fixpoint lower (s : string) : string :=
  match s with
  | EmptyString => EmptyString
  | String c s' => String (lower_ascii c) (lower s')
  end.

(** [s.split(sep)] for a non-empty [sep]: [skip] bytes of a separator are
    still to be passed, [cur] is the piece being read. *)
Fixpoint split_from (sep : string) (skip : nat) (cur : string) (s : string)
  : list string :=
  match s with
  | EmptyString => [cur]
  | String c s' =>
      match skip with
      | S k => split_from sep k cur s'
      | O =>
          if String.prefix sep s
          then cur :: split_from sep (String.length sep - 1) EmptyString s'
          else split_from sep 0 (cur ++ String c EmptyString) s'
      end
  end.

Definition split (sep s : string) : list string := split_from sep 0 EmptyString s.

(** The methods on a value: only a str has them. *)
Definition as_str (v : value) : result string :=
  match v with
  | VStr s => inr s
  | _ => inl AttributeError
  end.

(** *** Formatting *)

(** [str(v)], as an f-string field formats it.  [repr_other] stands for
    Python's printing of floats, lists and dicts. *)
Definition str (repr_other : value -> string) (v : value) : string :=
  match v with
  | VStr s => s
  | VNone => "None"
  | VBool true => "True"
  | VBool false => "False"
  | VInt z => NilZero.string_of_int (Z.to_int z)
  | _ => repr_other v
  end.

End Py.

(** ** Effects of the page *)

Module Trace.
Import Py.

(** Where a widget is drawn: the page, the sidebar, and the containers and
    columns that [main] creates, under the names [main] gives them ([cols]
    of the video and shopping blocks are [video_cols] and [shopping_cols]). *)
Inductive place : Type :=
| page
| sidebar
| progress_placeholder
| text_container
| sources_expander
| maps_container
| map_col
| info_col
| image_container
| image_cols (i : nat)
| video_container
| video_cols (i : nat)
| shopping_container
| shopping_cols (i : nat).

(** [folium.Marker(location=[lat, lng], popup=folium.Popup(text,
    max_width=300), tooltip=title)]. *)
Record marker : Type := Marker {
  marker_location : value * value;
  marker_popup : string;
  marker_max_width : Z;
  marker_tooltip : value
}.

(** [folium.Map(location=..., zoom_start=...)] with the markers added. *)
Record folium_map : Type := Map {
  map_location : value * value;
  map_zoom_start : Z;
  map_markers : list marker
}.

(** The Streamlit calls of [main]. *)
Inductive widget : Type :=
| Title (body : string)
| Write (body : string)
| Checkbox (label : string) (value disabled : bool) (help : option string)
| TextArea (label : string) (height : Z) (placeholder : string)
| Button (label key : string) (use_container_width : bool)
| Placeholder (p : place)                 (* [st.empty()] *)
| Cleared                                 (* [placeholder.empty()] *)
| Container (p : place)                   (* [st.container()] *)
| Spinner (shown : bool)                  (* entering and leaving [st.spinner()] *)
| Info (body : string)
| Markdown (body : string) (unsafe_allow_html : bool)
| Expander (label : string)
| Divider
| Columns (spec : value)
| Image (image : value) (use_container_width : bool) (caption : string)
| Video (data : string)
| FoliumStatic (m : folium_map) (width : Z).

(** What a run of the page does, in order. *)
Inductive event : Type :=
| Post (url : string) (headers : list (string * option string)) (data : string)
| Run (prompt : string)
| Ui (p : place) (w : widget).

(** A step of the page: the events so far, and a value or the exception
    that ended it. *)
Definition M (A : Type) : Type := (list event * result A)%type.

Definition ret {A} (a : A) : M A := ([], inr a).
Definition lift {A} (r : result A) : M A := ([], r).
Definition emit (p : place) (w : widget) : M unit := ([Ui p w], inr tt).

Definition bind {A B} (m : M A) (k : A -> M B) : M B :=
  match m with
  | (t, inl e) => (t, inl e)
  | (t, inr a) => let (t', r) := k a in ((t ++ t')%list, r)
  end.

(** The same for a computation without events. *)
Definition rbind {A B} (r : result A) (k : A -> result B) : result B :=
  match r with
  | inl e => inl e
  | inr a => k a
  end.

Definition events {A} (m : M A) : list event := fst m.
Definition outcome {A} (m : M A) : result A := snd m.

(** [for x in l: body]. *)
Fixpoint for_each {A} (l : list A) (body : A -> M unit) : M unit :=
  match l with
  | [] => ret tt
  | x :: l' => bind (body x) (fun _ => for_each l' body)
  end.

(** [enumerate(l, n)]. *)
Fixpoint enumerate {A} (n : nat) (l : list A) : list (nat * A) :=
  match l with
  | [] => []
  | x :: l' => (n, x) :: enumerate (S n) l'
  end.

(** The list a comprehension or an accumulating loop builds, or the first
    exception. *)
Fixpoint collect {A B} (f : A -> result B) (l : list A) : result (list B) :=
  match l with
  | [] => inr []
  | x :: l' =>
      match f x with
      | inl e => inl e
      | inr y => match collect f l' with inl e => inl e | inr ys => inr (y :: ys) end
      end
  end.

End Trace.

Declare Scope page_scope.
Delimit Scope page_scope with page.
Notation "x <- m ;; k" := (Trace.bind m (fun x => k))
  (at level 61, m at next level, right associativity) : page_scope.
Notation "m ;; k" := (Trace.bind m (fun _ => k))
  (at level 61, right associativity) : page_scope.
Notation "'let*' x := r 'in' k" := (Trace.rbind r (fun x => k))
  (at level 10, x name, r at level 100, k at level 200).

(** ** The page *)

Module App.
Import Py Trace.
Local Open Scope page_scope.

Definition nl : string := String (ascii_of_nat 10) EmptyString.
Definition dq : string := String (ascii_of_nat 34) EmptyString.

(** *** Serper API endpoints *)

Definition SHOPPING_SEARCH_URL : string := "https://google.serper.dev/shopping".
Definition VIDEO_SEARCH_URL : string := "https://google.serper.dev/videos".
Definition SEARCH_URL : string := "https://google.serper.dev/search".
Definition IMAGE_SEARCH_URL : string := "https://google.serper.dev/images".
Definition MAPS_SEARCH_URL : string := "https://google.serper.dev/maps".

(** What [requests.post] returns: [status_code], and what [.json()] gives
    (it raises on a body that is not JSON). *)
Record response : Type := Response {
  status_code : Z;
  json : result value
}.

(** The state of the widgets the user acts on. *)
Record inputs : Type := Inputs {
  show_maps : bool;
  show_images : bool;
  show_videos : bool;
  show_shopping : bool;
  query : string;
  search_button : bool
}.

(** The library calls of the page that check what they are given and
    raise on what they refuse: [folium.Map(location=..., zoom_start=...)]
    and [folium.Marker(location=..., popup=..., tooltip=...)], which validate
    the location, and [st.image(image, use_container_width=...,
    caption=...)], which loads the image. *)
Record library : Type := Library {
  folium_Map : value * value -> Z -> result unit;
  folium_Marker : marker -> result unit;
  st_image : value -> bool -> string -> result unit
}.

Section Page.

(** The environment and the services outside [app.py]. *)
Variable SERPER_API_KEY : option string.          (* [os.getenv] *)
Variable json_dumps : value -> string.            (* [json.dumps] *)
Variable requests_post :
  string -> list (string * option string) -> string -> result response.
Variable assistant_run : string -> result string. (* [assistant.run(p).content] *)
Variable repr_other : value -> string.
Variable lib : library.                           (* folium, [st.image] *)

(** A field of an f-string. *)
Definition fmt (v : value) : string := Py.str repr_other v.

(** *** API headers *)

Definition headers : list (string * option string) :=
  [("X-API-KEY", SERPER_API_KEY); ("Content-Type", Some "application/json")].

(** *** [serper_search] *)

Definition endpoint (search_type : string) : string :=
  if String.eqb search_type "shopping" then SHOPPING_SEARCH_URL
  else if String.eqb search_type "videos" then VIDEO_SEARCH_URL
  else if String.eqb search_type "images" then IMAGE_SEARCH_URL
  else if String.eqb search_type "maps" then MAPS_SEARCH_URL
  else SEARCH_URL.

Definition post (url : string) (data : string) : M response :=
  ([Post url headers data], requests_post url headers data).

Definition serper_search (query : string) (search_type : string) : M value :=
  let url := endpoint search_type in
  let payload := json_dumps (VDict [("q", VStr query)]) in
  response <- post url payload ;;
  if Z.eqb (status_code response) 200 then lift (json response)
  else ret VNone.

(** *** The blocks of [main] *)

(** [r and k in r]. *)
Definition has (k : string) (r : value) : result bool :=
  if truthy r then contains k r else inr false.

(** One round of the loop that fills [search_content]. *)
Definition search_entry (result : value) : Py.result string :=
  let* title := get result "title" (VStr "No title") in
  let* link := get result "link" (VStr "No link") in
  let* snippet := get result "snippet" (VStr "No snippet") in
  inr ("Title: " ++ fmt title ++ nl
       ++ "Link: " ++ fmt link ++ nl
       ++ "Snippet: " ++ fmt snippet ++ nl ++ nl).

(** [search_results["organic"][:5]], as the loops go through it. *)
Definition top_organic (search_results : value) : Py.result (list value) :=
  let* organic := getitem search_results "organic" in
  let* top := slice_to 5 organic in
  iter top.

Definition format_search_content (search_results : value) : Py.result string :=
  let* found := has "organic" search_results in
  if found then
    let* results := top_organic search_results in
    let* entries := collect search_entry results in
    inr (String.concat "" entries)
  else inr "".

Definition prompt_of (query search_content : string) : string :=
  nl
  ++ "            Based on the following search results and your knowledge, provide a comprehensive answer to the query: " ++ dq ++ query ++ dq ++ nl
  ++ "            " ++ nl
  ++ "            Search Results:" ++ nl
  ++ "            " ++ search_content ++ nl
  ++ "            " ++ nl
  ++ "            Provide a detailed, well-structured response that synthesizes information from the search results." ++ nl
  ++ "            Include relevant facts, examples, and explanations." ++ nl
  ++ "            ".

Definition nat_str (n : nat) : string := NilZero.string_of_uint (Nat.to_uint n).

(** One round of the loop of sources. *)
Definition source_entry (ir : nat * value) : M unit :=
  let (i, result) := ir in
  title <- lift (get result "title" (VStr "No title")) ;;
  link <- lift (get result "link" (VStr "#")) ;;
  emit sources_expander
    (Markdown ("**" ++ nat_str i ++ ". [" ++ fmt title ++ "](" ++ fmt link ++ ")**") false) ;;
  snippet <- lift (get result "snippet" (VStr "No snippet")) ;;
  emit sources_expander (Markdown ("_" ++ fmt snippet ++ "_") false) ;;
  emit sources_expander Divider.

(** [with text_container:] *)
Definition ai_answer (query : string) (search_results : value) : M unit :=
  emit text_container (Markdown "### 📝 AI Answer" false) ;;
  search_content <- lift (format_search_content search_results) ;;
  let prompt := prompt_of query search_content in
  content <- ([Run prompt], assistant_run prompt) ;;
  emit text_container (Markdown content false) ;;
  found <- lift (has "organic" search_results) ;;
  if found : bool then
    emit text_container (Expander "📚 Sources") ;;
    results <- lift (top_organic search_results) ;;
    for_each (enumerate 1 results) source_entry
  else ret tt.

(** [mr and "places" in mr and len(mr["places"]) > 0]. *)
Definition has_places (maps_results : value) : Py.result bool :=
  let* found := has "places" maps_results in
  if found then
    let* places := getitem maps_results "places" in
    let* n := len places in
    inr (Nat.ltb 0 n)
  else inr false.

Definition map_center (first_place : value) : Py.result (value * value) :=
  let* lat := get first_place "latitude" (VInt 0) in
  let* lng := get first_place "longitude" (VInt 0) in
  inr (lat, lng).

Definition popup_text (title address rating : value) : string :=
  nl
  ++ "                                <b>" ++ fmt title ++ "</b><br>" ++ nl
  ++ "                                " ++ fmt address ++ "<br>" ++ nl
  ++ "                                Rating: " ++ fmt rating ++ nl
  ++ "                                ".

(** One round of the marker loop: the marker it adds, if any, once
    [folium.Marker] has taken it. *)
Definition place_marker (place : value) : Py.result (option marker) :=
  let* lat := get place "latitude" VNone in
  let* lng := get place "longitude" VNone in
  let* title := get place "title" (VStr "Unknown Location") in
  let* address := get place "address" (VStr "No address available") in
  let* rating := get place "rating" (VStr "N/A") in
  if truthy lat && truthy lng then
    let added := Marker (lat, lng) (popup_text title address rating) 300 title in
    let* made := folium_Marker lib added in
    inr (Some added)
  else inr None.

Fixpoint somes {A} (l : list (option A)) : list A :=
  match l with
  | [] => []
  | Some x :: l' => x :: somes l'
  | None :: l' => somes l'
  end.

Definition hours_text_of (hours : value) : Py.result string :=
  if truthy hours then
    let* day_times := items hours in
    inr (String.concat "<br>"
           (map (fun dt => fst dt ++ ": " ++ fmt (snd dt)) day_times))
  else inr "Hours not available".

Definition place_card (place : value) : Py.result string :=
  let* title := get place "title" (VStr "Unknown Location") in
  let* address := get place "address" (VStr "No address available") in
  let* rating := get place "rating" (VStr "N/A") in
  let* rating_count := get place "ratingCount" (VStr "0") in
  let* phone := get place "phoneNumber" (VStr "Not available") in
  let* website := get place "website" (VStr "#") in
  let* place_type := get place "type" (VStr "Location") in
  let* hours := get place "openingHours" (VDict []) in
  let* hours_text := hours_text_of hours in
  inr (nl
  ++ "                                <div class=" ++ dq ++ "place-card" ++ dq ++ ">" ++ nl
  ++ "                                    <h3>" ++ fmt title ++ "</h3>" ++ nl
  ++ "                                    <p><b>📍 Address:</b> " ++ fmt address ++ "</p>" ++ nl
  ++ "                                    <p><b>⭐ Rating:</b> " ++ fmt rating ++ " (" ++ fmt rating_count ++ " reviews)</p>" ++ nl
  ++ "                                    <p><b>📞 Phone:</b> " ++ fmt phone ++ "</p>" ++ nl
  ++ "                                    <p><b>🏢 Type:</b> " ++ fmt place_type ++ "</p>" ++ nl
  ++ "                                    <p><b>🕒 Hours:</b><br>" ++ hours_text ++ "</p>" ++ nl
  ++ "                                    <p><a href=" ++ dq ++ fmt website ++ dq ++ " target=" ++ dq ++ "_blank" ++ dq ++ ">Visit Website</a></p>" ++ nl
  ++ "                                </div>" ++ nl
  ++ "                                ").

(** One round of the loop of place details. *)
Definition place_entry (place : value) : M unit :=
  card <- lift (place_card place) ;;
  emit info_col (Markdown card true).

(** [with maps_container:] *)
Definition maps_section (maps_results : value) : M unit :=
  emit maps_container (Markdown "### 🗺️ Map Results" false) ;;
  shown <- lift (has_places maps_results) ;;
  if shown : bool then
    places <- lift (getitem maps_results "places") ;;
    first_place <- lift (first places) ;;
    center <- lift (map_center first_place) ;;
    emit maps_container (Columns (VList [VInt 3; VInt 2])) ;;
    lift (folium_Map lib center 14) ;;
    all_places <- lift (iter places) ;;
    added <- lift (collect place_marker all_places) ;;
    emit map_col (FoliumStatic (Map center 14 (somes added)) 600) ;;
    top <- lift (slice_to 5 places) ;;
    listed <- lift (iter top) ;;
    for_each listed place_entry
  else emit maps_container (Info "No map results available for this query.").

(** The caption of an image: its title up to the first ["..."]. *)
Definition image_caption (img : value) : Py.result string :=
  let* title := get img "title" VNone in
  if truthy title then
    let* title := get img "title" (VStr "") in
    let* s := as_str title in
    inr (hd "" (split "..." s))
  else inr "".

(** One round of the loop of images. *)
Definition image_entry (i_img : nat * value) : M unit :=
  let (i, img) := i_img in
  image <- lift (get img "imageUrl" (VStr "")) ;;
  caption <- lift (image_caption img) ;;
  lift (st_image lib image true caption) ;;
  emit (image_cols (i mod 5)) (Image image true caption).

(** [with image_container:] *)
Definition images_section (image_results : value) : M unit :=
  emit image_container (Markdown "### 🖼️ Image Results" false) ;;
  found <- lift (has "images" image_results) ;;
  if found : bool then
    all_images <- lift (getitem image_results "images") ;;
    top <- lift (slice_to 10 all_images) ;;
    emit image_container (Columns (VInt 5)) ;;
    images <- lift (iter top) ;;
    for_each (enumerate 0 images) image_entry
  else emit image_container (Info "No image results available for this query.").

(** The test of the comprehension that builds [youtube_videos]. *)
Definition is_youtube (video : value) : Py.result bool :=
  let* source := get video "source" (VStr "") in
  let* s := as_str source in
  inr (String.eqb (lower (strip s)) "youtube").

(** The comprehension: the videos that pass the test, or its exception. *)
Fixpoint youtube_only (videos : list value) : Py.result (list value) :=
  match videos with
  | [] => inr []
  | video :: rest =>
      let* keep := is_youtube video in
      let* kept := youtube_only rest in
      inr (if keep : bool then video :: kept else kept)
  end.

(** [link.split("v=")[-1].split("&")[0]]. *)
Definition video_id_of (link : string) : string :=
  hd "" (split "&" (last (split "v=" link) "")).

(** The embed URL of a link, or nothing when the loop goes on to the next
    video. *)
Definition embed_url_of (link : value) : Py.result (option string) :=
  let* watch := contains "youtube.com/watch?v=" link in
  if watch : bool then
    let* s := as_str link in
    inr (Some ("https://www.youtube.com/embed/" ++ video_id_of s))
  else inr None.

(** One round of the loop of videos. *)
Definition video_entry (idx_video : nat * value) : M unit :=
  let (idx, video) := idx_video in
  title <- lift (get video "title" (VStr "Unknown Video")) ;;
  link <- lift (get video "link" (VStr "#")) ;;
  duration <- lift (get video "duration" (VStr "Unknown duration")) ;;
  channel <- lift (get video "channel" (VStr "Unknown Channel")) ;;
  embed <- lift (embed_url_of link) ;;
  match embed with
  | Some embed_url =>
      emit (video_cols (idx mod 3)) (Video embed_url) ;;
      emit (video_cols (idx mod 3))
        (Markdown ("**" ++ fmt title ++ "**" ++ nl ++ nl
                   ++ "📺 " ++ fmt channel ++ " | ⏱️ " ++ fmt duration) false)
  | None => ret tt
  end.

(** [with video_container:] *)
Definition videos_section (video_results : value) : M unit :=
  emit video_container (Markdown "### 📹 Related Videos" false) ;;
  found <- lift (has "videos" video_results) ;;
  if found : bool then
    all_videos <- lift (getitem video_results "videos") ;;
    videos <- lift (iter all_videos) ;;
    youtube_videos <- lift (youtube_only videos) ;;
    match youtube_videos with
    | _ :: _ =>
        emit video_container (Columns (VInt 3)) ;;
        for_each (enumerate 0 (firstn 6 youtube_videos)) video_entry
    | [] => emit video_container (Info "No relevant videos found for this query.")
    end
  else emit video_container (Info "No video results available.").

Definition product_card (product : value) : Py.result string :=
  let* title := get product "title" (VStr "Unknown Product") in
  let* link := get product "link" (VStr "#") in
  let* price := get product "price" (VStr "Price not available") in
  let* source := get product "source" (VStr "Unknown Source") in
  let* image_url := get product "imageUrl" (VStr "") in
  let* rating := get product "rating" (VStr "No rating") in
  inr (nl
  ++ "                                <div class=" ++ dq ++ "product-card" ++ dq ++ ">" ++ nl
  ++ "                                    <img src=" ++ dq ++ fmt image_url ++ dq ++ " style=" ++ dq ++ "width:100%; height:100px; object-fit:contain;" ++ dq ++ ">" ++ nl
  ++ "                                    <p style=" ++ dq ++ "font-size:12px; font-weight:bold; margin:5px 0; white-space:nowrap; " ++ nl
  ++ "                                    overflow:hidden; text-overflow:ellipsis;" ++ dq ++ ">" ++ nl
  ++ "                                        <a href=" ++ dq ++ fmt link ++ dq ++ " target=" ++ dq ++ "_blank" ++ dq ++ ">" ++ fmt title ++ "</a>" ++ nl
  ++ "                                    </p>" ++ nl
  ++ "                                    <p style=" ++ dq ++ "font-size:12px; margin:5px 0;" ++ dq ++ ">💲 <b>" ++ fmt price ++ "</b></p>" ++ nl
  ++ "                                    <p style=" ++ dq ++ "font-size:12px; margin:0;" ++ dq ++ ">⭐ " ++ fmt rating ++ " | 🏬 " ++ fmt source ++ "</p>" ++ nl
  ++ "                                </div>" ++ nl
  ++ "                                ").

(** One round of the loop of products. *)
Definition product_entry (idx_product : nat * value) : M unit :=
  let (idx, product) := idx_product in
  card <- lift (product_card product) ;;
  emit (shopping_cols (idx mod 5)) (Markdown card true).

(** [with shopping_container:] *)
Definition shopping_section (shopping_results : value) : M unit :=
  emit shopping_container (Markdown "### 🛒 Related Products" false) ;;
  found <- lift (has "shopping" shopping_results) ;;
  if found : bool then
    products <- lift (getitem shopping_results "shopping") ;;
    emit shopping_container (Columns (VInt 5)) ;;
    top <- lift (slice_to 10 products) ;;
    shown <- lift (iter top) ;;
    for_each (enumerate 0 shown) product_entry
  else emit shopping_container (Info "No shopping results available for this query.").

(** *** [main] *)

(** [st.container() if show else None]. *)
Definition container_if (show : bool) (p : place) : M (option place) :=
  if show then (emit page (Container p) ;; ret (Some p)) else ret None.

(** [serper_search(query, search_type=...) if show else None]. *)
Definition search_if (show : bool) (query search_type : string) : M value :=
  if show then serper_search query search_type else ret VNone.

(** [with st.spinner():] the spinner is taken down however the block ends. *)
Definition with_spinner {A} (m : M A) : M A :=
  ((Ui page (Spinner true) :: fst m) ++ [Ui page (Spinner false)], snd m)%list.

Definition is_some {A} (o : option A) : bool :=
  match o with Some _ => true | None => false end.

(** [if show and container: with container: ...]. *)
Definition section_if (show : bool) (container : option place) (block : M unit)
  : M unit :=
  if show && is_some container then block else ret tt.

(** The sidebar and the search box, drawn on every run. *)
Definition controls : M unit :=
  emit page (Title "🔍 Perplexity AI") ;;
  emit sidebar (Title "Content Sections") ;;
  emit sidebar (Write "Select which content sections to display in results:") ;;
  emit sidebar (Checkbox "📝 AI Answer" true true (Some "AI answer is always shown")) ;;
  emit sidebar (Checkbox "🗺️ Map Results" false false None) ;;
  emit sidebar (Checkbox "🖼️ Image Results" false false None) ;;
  emit sidebar (Checkbox "📹 Related Videos" false false None) ;;
  emit sidebar (Checkbox "🛒 Related Products" false false None) ;;
  emit page (TextArea "Ask me anything:" 68
    "Ask any question to search for information, images, videos, products, and places...") ;;
  emit page (Button "🔍 Search" "general_search" true).

(** The five results of the searches, in the order they are made. *)
Record results : Type := Results {
  search_results : value;
  maps_results : value;
  image_results : value;
  video_results : value;
  shopping_results : value
}.

Definition fetch (i : inputs) : M results :=
  with_spinner (
    search <- serper_search (query i) "search" ;;
    maps <- search_if (show_maps i) (query i) "maps" ;;
    images <- search_if (show_images i) (query i) "images" ;;
    videos <- search_if (show_videos i) (query i) "videos" ;;
    shopping <- search_if (show_shopping i) (query i) "shopping" ;;
    ret (Results search maps images videos shopping)).

Definition main (i : inputs) : M unit :=
  controls ;;
  if search_button i && truthy (VStr (query i)) then
    emit page (Placeholder progress_placeholder) ;;
    emit progress_placeholder (Info "🔍 Searching for information...") ;;
    emit page (Container text_container) ;;
    maps_box <- container_if (show_maps i) maps_container ;;
    image_box <- container_if (show_images i) image_container ;;
    video_box <- container_if (show_videos i) video_container ;;
    shopping_box <- container_if (show_shopping i) shopping_container ;;
    r <- fetch i ;;
    emit progress_placeholder Cleared ;;
    ai_answer (query i) (search_results r) ;;
    section_if (show_maps i) maps_box (maps_section (maps_results r)) ;;
    section_if (show_images i) image_box (images_section (image_results r)) ;;
    section_if (show_videos i) video_box (videos_section (video_results r)) ;;
    section_if (show_shopping i) shopping_box (shopping_section (shopping_results r))
  else ret tt.

End Page.

End App.

(** ** Vocabulary of the properties *)

Module Obs.
Import Py Trace App.

(** The five verticals of the search API. *)
Inductive vertical : Type := Search | Maps | Images | Videos | Shopping.

Definition verticals : list vertical := [Search; Maps; Images; Videos; Shopping].

(** The name [main] passes to [serper_search] for a vertical. *)
Definition search_type (v : vertical) : string :=
  match v with
  | Search => "search"
  | Maps => "maps"
  | Images => "images"
  | Videos => "videos"
  | Shopping => "shopping"
  end.

(** The endpoint of a vertical. *)
Definition url (v : vertical) : string :=
  match v with
  | Search => SEARCH_URL
  | Maps => MAPS_SEARCH_URL
  | Images => IMAGE_SEARCH_URL
  | Videos => VIDEO_SEARCH_URL
  | Shopping => SHOPPING_SEARCH_URL
  end.

(** The top-level key of a vertical's response. *)
Definition key (v : vertical) : string :=
  match v with
  | Search => "organic"
  | Maps => "places"
  | Images => "images"
  | Videos => "videos"
  | Shopping => "shopping"
  end.

(** The toggle of a vertical; the web search has none. *)
Definition enabled (i : inputs) (v : vertical) : bool :=
  match v with
  | Search => true
  | Maps => show_maps i
  | Images => show_images i
  | Videos => show_videos i
  | Shopping => show_shopping i
  end.

Definition payload (v : vertical) (r : results) : value :=
  match v with
  | Search => search_results r
  | Maps => maps_results r
  | Images => image_results r
  | Videos => video_results r
  | Shopping => shopping_results r
  end.

(** The container of a vertical's section, and its heading. *)
Definition container (v : vertical) : place :=
  match v with
  | Search => text_container
  | Maps => maps_container
  | Images => image_container
  | Videos => video_container
  | Shopping => shopping_container
  end.

Definition heading (v : vertical) : string :=
  match v with
  | Search => "### 📝 AI Answer"
  | Maps => "### 🗺️ Map Results"
  | Images => "### 🖼️ Image Results"
  | Videos => "### 📹 Related Videos"
  | Shopping => "### 🛒 Related Products"
  end.

(** The message of an optional section that has nothing to show. *)
Definition empty_message (v : vertical) : string :=
  match v with
  | Search => ""
  | Maps => "No map results available for this query."
  | Images => "No image results available for this query."
  | Videos => "No video results available."
  | Shopping => "No shopping results available for this query."
  end.

(** The section a place belongs to. *)
Definition section (p : place) : option vertical :=
  match p with
  | page | sidebar | progress_placeholder => None
  | text_container | sources_expander => Some Search
  | maps_container | map_col | info_col => Some Maps
  | image_container | image_cols _ => Some Images
  | video_container | video_cols _ => Some Videos
  | shopping_container | shopping_cols _ => Some Shopping
  end.

Definition same (v w : vertical) : bool :=
  match v, w with
  | Search, Search | Maps, Maps | Images, Images | Videos, Videos
  | Shopping, Shopping => true
  | _, _ => false
  end.

Definition in_section (v : vertical) (p : place) : bool :=
  match section p with Some w => same v w | None => false end.

(** What a run draws in the section of [v], in order. *)
Fixpoint drawn (v : vertical) (t : list event) : list (place * widget) :=
  match t with
  | [] => []
  | Ui p w :: t' => if in_section v p then (p, w) :: drawn v t' else drawn v t'
  | _ :: t' => drawn v t'
  end.

(** The endpoints a run posts to, in order. *)
Fixpoint posts (t : list event) : list string :=
  match t with
  | [] => []
  | Post u _ _ :: t' => u :: posts t'
  | _ :: t' => posts t'
  end.

(** How many times a run posts to the endpoint of [v]. *)
Definition calls (v : vertical) (t : list event) : nat :=
  List.length (filter (String.eqb (url v)) (posts t)).

(** The prompts a run passes to the agent. *)
Fixpoint prompts (t : list event) : list string :=
  match t with
  | [] => []
  | Run p :: t' => p :: prompts t'
  | _ :: t' => prompts t'
  end.

(** The messages a run shows with [st.info]. *)
Fixpoint infos (t : list event) : list (place * string) :=
  match t with
  | [] => []
  | Ui p (Info s) :: t' => (p, s) :: infos t'
  | _ :: t' => infos t'
  end.

(** The videos a run embeds. *)
Fixpoint videos (t : list event) : list string :=
  match t with
  | [] => []
  | Ui _ (Video u) :: t' => u :: videos t'
  | _ :: t' => videos t'
  end.

(** The cards a run writes in the column of place details. *)
Fixpoint cards (t : list event) : list string :=
  match t with
  | [] => []
  | Ui info_col (Markdown s _) :: t' => s :: cards t'
  | _ :: t' => cards t'
  end.

(** The maps a run draws. *)
Fixpoint maps (t : list event) : list folium_map :=
  match t with
  | [] => []
  | Ui _ (FoliumStatic m _) :: t' => m :: maps t'
  | _ :: t' => maps t'
  end.

(** A response cut down to one top-level key. *)
Definition only (k : string) (d : list (string * value)) : list (string * value) :=
  match lookup k d with
  | Some x => [(k, x)]
  | None => []
  end.

(** The value of a field, or a default. *)
Definition field (k : string) (default : value) (d : list (string * value)) : value :=
  match lookup k d with
  | Some x => x
  | None => default
  end.

Definition is_string (v : value) : bool :=
  match v with VStr _ => true | _ => false end.

Definition is_dict (v : value) : bool :=
  match v with VDict _ => true | _ => false end.

(** A field that is a str when it is there. *)
Definition str_or_absent (k : string) (d : list (string * value)) : bool :=
  match lookup k d with
  | Some x => is_string x
  | None => true
  end.

(** The entries of the [organic] array of a web response. *)
Definition organic_entries (search_results : value) : list value :=
  match search_results with
  | VDict d => match lookup "organic" d with Some (VList l) => l | _ => [] end
  | _ => []
  end.

(** What an entry of the web results adds to the prompt: its title, link
    and snippet, each with its default. *)
Definition entry_text (repr_other : value -> string) (entry : value) : string :=
  match entry with
  | VDict d =>
      ("Title: " ++ fmt repr_other (field "title" (VStr "No title") d) ++ nl
       ++ "Link: " ++ fmt repr_other (field "link" (VStr "No link") d) ++ nl
       ++ "Snippet: " ++ fmt repr_other (field "snippet" (VStr "No snippet") d)
       ++ nl ++ nl)%string
  | _ => ""
  end.

(** *** Defaults of the fields *)

(** The fields each loop reads from an item, each with the value it takes
    when the item lacks it. *)
Definition search_entry_defaults : list (string * value) :=
  [("title", VStr "No title"); ("link", VStr "No link");
   ("snippet", VStr "No snippet")].

Definition source_entry_defaults : list (string * value) :=
  [("title", VStr "No title"); ("link", VStr "#");
   ("snippet", VStr "No snippet")].

Definition map_center_defaults : list (string * value) :=
  [("latitude", VInt 0); ("longitude", VInt 0)].

Definition place_marker_defaults : list (string * value) :=
  [("latitude", VNone); ("longitude", VNone);
   ("title", VStr "Unknown Location");
   ("address", VStr "No address available"); ("rating", VStr "N/A")].

Definition place_card_defaults : list (string * value) :=
  [("title", VStr "Unknown Location");
   ("address", VStr "No address available"); ("rating", VStr "N/A");
   ("ratingCount", VStr "0"); ("phoneNumber", VStr "Not available");
   ("website", VStr "#"); ("type", VStr "Location");
   ("openingHours", VDict [])].

Definition image_entry_defaults : list (string * value) :=
  [("imageUrl", VStr ""); ("title", VNone)].

Definition is_youtube_defaults : list (string * value) :=
  [("source", VStr "")].

Definition video_entry_defaults : list (string * value) :=
  [("title", VStr "Unknown Video"); ("link", VStr "#");
   ("duration", VStr "Unknown duration"); ("channel", VStr "Unknown Channel")].

Definition product_card_defaults : list (string * value) :=
  [("title", VStr "Unknown Product"); ("link", VStr "#");
   ("price", VStr "Price not available"); ("source", VStr "Unknown Source");
   ("imageUrl", VStr ""); ("rating", VStr "No rating")].

(** The defaults that are strings. *)
Definition all_strings (defaults : list (string * value)) : bool :=
  forallb (fun kx => is_string (snd kx)) defaults.

(** An item without the field [k] is read like the item with [k] set to
    [x]. *)
Definition falls_back {R : Type} (read : value -> R) (k : string) (x : value)
  : Prop :=
  forall d, lookup k d = None -> read (VDict d) = read (VDict ((k, x) :: d)).

(** *** The map *)

(** The center of the map, from the first place. *)
Definition center_of (place : value) : value * value :=
  match place with
  | VDict d => (field "latitude" (VInt 0) d, field "longitude" (VInt 0) d)
  | _ => (VInt 0, VInt 0)
  end.

(** The marker of a place: one when both coordinates are truthy. *)
Definition marker_of (repr_other : value -> string) (place : value)
  : option marker :=
  match place with
  | VDict d =>
      let lat := field "latitude" VNone d in
      let lng := field "longitude" VNone d in
      let title := field "title" (VStr "Unknown Location") d in
      if truthy lat && truthy lng then
        Some (Marker (lat, lng)
                (popup_text repr_other title
                   (field "address" (VStr "No address available") d)
                   (field "rating" (VStr "N/A") d))
                300 title)
      else None
  | _ => None
  end.


(** *** The videos *)

(** The [source] of a video, stripped and lowercased, is [youtube]. *)
Definition source_is_youtube (video : value) : bool :=
  match video with
  | VDict d =>
      match field "source" (VStr "") d with
      | VStr s => String.eqb (lower (strip s)) "youtube"
      | _ => false
      end
  | _ => false
  end.

(** The [link] of a video, when it is a YouTube watch link. *)
Definition watch_link (video : value) : option string :=
  match video with
  | VDict d =>
      match field "link" (VStr "#") d with
      | VStr s => if substring_of "youtube.com/watch?v=" s then Some s else None
      | _ => None
      end
  | _ => None
  end.

(** The part of [s] before the first [sep] (all of [s] when there is none). *)
Fixpoint before_first (sep s : string) : string :=
  if String.prefix sep s then EmptyString
  else match s with
       | EmptyString => EmptyString
       | String c s' => String c (before_first sep s')
       end.

Fixpoint drop (n : nat) (s : string) : string :=
  match n, s with
  | S n', String _ s' => drop n' s'
  | _, _ => s
  end.

(** The part of [s] after the last [sep] (all of [s] when there is none). *)
Fixpoint after_last (sep s : string) : string :=
  match s with
  | EmptyString => EmptyString
  | String _ s' =>
      if substring_of sep s' then after_last sep s'
      else if String.prefix sep s then drop (String.length sep) s
      else s
  end.

(** The embed URL of a watch link, in the words of the claim. *)
Definition embed (link : string) : string :=
  ("https://www.youtube.com/embed/"
   ++ before_first "&" (after_last "v=" link))%string.

(** The embed URLs of the watch links among some videos. *)
Definition embeds (l : list value) : list string :=
  flat_map (fun video =>
              match watch_link video with
              | Some s => [embed s]
              | None => []
              end) l.

(** A video as the API documents it: [source] and [link] are strings when
    they are there. *)
Definition video_ok (video : value) : bool :=
  match video with
  | VDict d => str_or_absent "source" d && str_or_absent "link" d
  | _ => false
  end.

End Obs.

(** ** The run of [main], block by block *)

Module Run.
Import Py Trace App Obs.
Local Open Scope page_scope.

(** An event of the section of [v]: a widget drawn in it, and for the web
    search the call of the agent. *)
Definition confined (v : vertical) (e : event) : bool :=
  match e with
  | Ui p _ => in_section v p
  | Run _ => same v Search
  | Post _ _ _ => false
  end.

(** A widget other than an [st.info] message. *)
Definition quiet (e : event) : bool :=
  match e with
  | Ui _ (Info _) => false
  | Ui _ _ => true
  | _ => false
  end.

(** An event of a search: a post, or the spinner. *)
Definition searching (e : event) : bool :=
  match e with
  | Post _ _ _ => true
  | Ui page (Spinner _) => true
  | _ => false
  end.

Section Blocks.

Variable assistant_run : string -> result string.
Variable repr_other : value -> string.
Variable lib : library.

(** The block of [main] that renders a vertical. *)
Definition block (v : vertical) (query : string) (r : value) : M unit :=
  match v with
  | Search => ai_answer assistant_run repr_other query r
  | Maps => maps_section repr_other lib r
  | Images => images_section lib r
  | Videos => videos_section repr_other r
  | Shopping => shopping_section repr_other r
  end.

(** The end of the block of the answer: the list of sources. *)
Definition sources (search_results : value) : M unit :=
  found <- lift (has "organic" search_results) ;;
  if found : bool then
    emit text_container (Expander "📚 Sources") ;;
    results <- lift (top_organic search_results) ;;
    for_each (enumerate 1 results) (source_entry repr_other)
  else ret tt.

(** The block, when its toggle is on. *)
Definition gated (i : inputs) (r : results) (v : vertical) : M unit :=
  if enabled i v then block v (query i) (payload v r) else ret tt.

(** What [main] does once the searches are back. *)
Definition render (i : inputs) (r : results) : M unit :=
  emit progress_placeholder Cleared ;;
  gated i r Search ;;
  gated i r Maps ;;
  gated i r Images ;;
  gated i r Videos ;;
  gated i r Shopping.

End Blocks.

(** The heading of the answer. *)
Definition answer_heading : event :=
  Ui text_container (Markdown "### 📝 AI Answer" false).

(** What [main] draws before the searches. *)
Definition preamble (i : inputs) : list event :=
  (events controls
   ++ [Ui page (Placeholder progress_placeholder);
       Ui progress_placeholder (Info "🔍 Searching for information...");
       Ui page (Container text_container)]
   ++ map (fun v => Ui page (Container (container v)))
        (filter (enabled i) [Maps; Images; Videos; Shopping]))%list.

(** An event of the rendering for these inputs: the progress message is
    taken down, the rest belongs to a section whose toggle is on. *)
Definition allowed (i : inputs) (e : event) : bool :=
  match e with
  | Ui progress_placeholder Cleared => true
  | _ => existsb (fun v => enabled i v && confined v e) verticals
  end.

(** Two search services that answer alike on every vertical but [v]. *)
Definition agree_except (v : vertical)
  (post1 post2 :
     string -> list (string * option string) -> string -> result response)
  : Prop :=
  forall w, w <> v -> forall h d, post1 (url w) h d = post2 (url w) h d.

(** The button was pressed on a query that is not empty. *)
Definition searching_for (i : inputs) : Prop :=
  search_button i = true /\ query i <> "".

End Run.

(** ** The order of a run, the shape of the responses, the grids *)

Module Shape.
Import Py Trace App Obs Run.

(** *** Requests and stages *)

(** A request to the search API. *)
Definition is_post (e : event) : bool :=
  match e with Post _ _ _ => true | _ => false end.

(** The requests of a run, in order. *)
Definition requests (t : list event) : list event := filter is_post t.

(** What a run shows and asks the agent: its events but the requests. *)
Definition visible (t : list event) : list event :=
  filter (fun e => negb (is_post e)) t.

(** The place of the section of a vertical on the page, from the top. *)
Definition rank (v : vertical) : nat :=
  match v with
  | Search => 0
  | Maps => 1
  | Images => 2
  | Videos => 3
  | Shopping => 4
  end.

(** The sections a run draws in, widget after widget. *)
Fixpoint drawn_in (t : list event) : list vertical :=
  match t with
  | [] => []
  | Ui p _ :: t' =>
      match section p with
      | Some v => v :: drawn_in t'
      | None => drawn_in t'
      end
  | _ :: t' => drawn_in t'
  end.

(** An event of the section of some vertical. *)
Definition rendering (e : event) : bool :=
  existsb (fun v => confined v e) verticals.

(** *** What the blocks read *)

(** A response that is no object and yet passes the test [r and key in r]:
    a number or [True], on which [in] raises; a text that holds the key, a
    list that holds it, on which [r[key]] raises. *)
Definition misread (k : string) (r : value) : bool :=
  match r with
  | VBool b => b
  | VInt z => negb (Z.eqb z 0)
  | VFloat f => negb (PrimFloat.eqb f 0%float)
  | VStr s => substring_of k s
  | VList l => existsb (is_str k) l
  | VNone | VDict _ => false
  end.

(** How many entries of its array the block of a vertical goes through:
    the slices [[:5]] and [[:10]]; the markers and the test of the videos
    go through all of them. *)
Definition limit (v : vertical) : option nat :=
  match v with
  | Search => Some 5
  | Images | Shopping => Some 10
  | Maps | Videos => None
  end.

Definition read_part (v : vertical) (l : list value) : list value :=
  match limit v with
  | Some n => firstn n l
  | None => l
  end.

(** A field that is absent, falsy, or as [ok] wants it. *)
Definition falsy_or (ok : value -> bool) (k : string) (d : list (string * value))
  : bool :=
  match lookup k d with
  | Some x => negb (truthy x) || ok x
  | None => true
  end.

(** A place whose opening hours can be listed. *)
Definition place_ok (place : value) : bool :=
  match place with
  | VDict d => falsy_or is_dict "openingHours" d
  | _ => false
  end.

(** An image whose title can be cut. *)
Definition image_ok (img : value) : bool :=
  match img with
  | VDict d => falsy_or is_string "title" d
  | _ => false
  end.

(** A video whose [source] can be tested. *)
Definition source_ok (video : value) : bool :=
  match video with
  | VDict d => str_or_absent "source" d
  | _ => false
  end.

(** The items of its array the block of a vertical can read: the first
    five web results, the first ten images and products are objects (an image
    with a title that can be cut); the places are objects, the first five with
    opening hours that can be listed; the videos are objects with a text for
    source and link. *)
Definition items_ok (v : vertical) (l : list value) : bool :=
  match v with
  | Search => forallb is_dict (firstn 5 l)
  | Maps => forallb is_dict l && forallb place_ok (firstn 5 l)
  | Images => forallb image_ok (firstn 10 l)
  | Videos => forallb video_ok l
  | Shopping => forallb is_dict (firstn 10 l)
  end.

(** A response the block of [v] gets through: an object without the key of
    [v], or with an array of items the block can read; or nothing, as [None]
    is. *)
Definition well_formed (v : vertical) (r : value) : bool :=
  match r with
  | VDict d =>
      match lookup (key v) d with
      | None => true
      | Some (VList l) => items_ok v l
      | Some _ => false
      end
  | _ => negb (truthy r)
  end.

(** *** The prompt *)



(** *** What the grids show *)

(** The images a run shows, each with its column and its caption. *)
Fixpoint images (t : list event) : list (place * value * string) :=
  match t with
  | [] => []
  | Ui p (Image image _ caption) :: t' => (p, image, caption) :: images t'
  | _ :: t' => images t'
  end.

(** The cards of products a run writes, each with the number of its
    column. *)
Fixpoint products (t : list event) : list (nat * string) :=
  match t with
  | [] => []
  | Ui (shopping_cols c) (Markdown card _) :: t' => (c, card) :: products t'
  | _ :: t' => products t'
  end.

(** The videos a run embeds, each with the number of its column. *)
Fixpoint clips (t : list event) : list (nat * string) :=
  match t with
  | [] => []
  | Ui (video_cols c) (Video u) :: t' => (c, u) :: clips t'
  | _ :: t' => clips t'
  end.

(** What a run writes in the list of sources. *)
Fixpoint listed (t : list event) : list widget :=
  match t with
  | [] => []
  | Ui sources_expander w :: t' => w :: listed t'
  | _ :: t' => listed t'
  end.

(** The caption of an image: its title up to the first ["..."], nothing
    without a title. *)
Definition caption_of (img : value) : string :=
  match img with
  | VDict d =>
      match lookup "title" d with
      | Some (VStr s) => before_first "..." s
      | _ => ""
      end
  | _ => ""
  end.

Definition image_url (img : value) : value :=
  match img with
  | VDict d => field "imageUrl" (VStr "") d
  | _ => VStr ""
  end.

(** The image number [i], in its column. *)
Definition shown_image (i_img : nat * value) : place * value * string :=
  let (i, img) := i_img in (image_cols (i mod 5), image_url img, caption_of img).

(** The video number [idx] of the YouTube videos, in its column, when its
    link is a watch link. *)
Definition shown_clip (idx_video : nat * value) : list (nat * string) :=
  let (idx, video) := idx_video in
  match watch_link video with
  | Some s => [(idx mod 3, embed s)]
  | None => []
  end.

(** *** What the libraries are given *)

(** The library calls the block of a vertical makes on a response are all
    taken: for the map, the center, from the first place, and the marker of
    every place; for the images, each of the first ten under its caption.
    The other blocks make no such call. *)
Definition library_takes (lib : library) (repr_other : value -> string)
  (v : vertical) (r : value) : Prop :=
  match v, r with
  | Maps, VDict d =>
      match lookup "places" d with
      | Some (VList (p :: ps)) =>
          folium_Map lib (center_of p) 14 = inr tt
          /\ Forall (fun m => folium_Marker lib m = inr tt)
               (somes (map (marker_of repr_other) (p :: ps)))
      | _ => True
      end
  | Images, VDict d =>
      match lookup "images" d with
      | Some (VList l) =>
          Forall (fun img =>
                    st_image lib (image_url img) true (caption_of img) = inr tt)
            (firstn 10 l)
      | _ => True
      end
  | _, _ => True
  end.

(** The three lines of the source number [n]. *)
Definition source_lines (repr_other : value -> string) (n_entry : nat * value)
  : list widget :=
  let (n, entry) := n_entry in
  match entry with
  | VDict d =>
      [Markdown ("**" ++ nat_str n ++ ". ["
                 ++ fmt repr_other (field "title" (VStr "No title") d) ++ "]("
                 ++ fmt repr_other (field "link" (VStr "#") d) ++ ")**") false;
       Markdown ("_" ++ fmt repr_other (field "snippet" (VStr "No snippet") d) ++ "_")
         false;
       Divider]
  | _ => []
  end.

(** *** Fields that are written as text *)

(** The fields each loop writes into its text with an f-string. *)
Definition entry_texts : list string := ["title"; "link"; "snippet"].

Definition place_card_texts : list string :=
  ["title"; "address"; "rating"; "ratingCount"; "phoneNumber"; "website"; "type"].

Definition video_entry_texts : list string := ["title"; "duration"; "channel"].

Definition product_card_texts : list string :=
  ["title"; "link"; "price"; "source"; "imageUrl"; "rating"].

(** An item is read through the text of its field [k]: whatever the field
    holds, the item reads like the one that holds its text. *)
Definition reads_text {R : Type} (repr_other : value -> string)
  (read : value -> R) (k : string) : Prop :=
  forall d x,
    lookup k d = Some x ->
    read (VDict d) = read (VDict ((k, VStr (fmt repr_other x)) :: d)).

End Shape.

(** ** Sample services and responses *)

Module Sample.
Import Py Trace App Obs Run.

(** A stand-in for [json.dumps] on the body of a search (the queries of
    the samples need no escaping). *)
Definition dumps (v : value) : string :=
  match v with
  | VDict [(k, VStr q)] => "{" ++ dq ++ k ++ dq ++ ": " ++ dq ++ q ++ dq ++ "}"
  | _ => "null"
  end.

(** A stand-in for the printing of floats, lists and dicts. *)
Definition repr (v : value) : string :=
  match v with
  | VFloat _ => "<float>"
  | VList _ => "[...]"
  | VDict _ => "{...}"
  | _ => ""
  end.

Definition api_key : option string := Some "serper-key".

Definition web_response : value :=
  VDict [("organic",
          VList [VDict [("title", VStr "Rocq"); ("link", VStr "https://rocq-prover.org");
                        ("snippet", VStr "A proof assistant")];
                 VDict [("title", VStr "Untitled")]])].

Definition maps_response : value :=
  VDict [("places",
          VList [VDict [("title", VStr "Cafe"); ("latitude", VFloat 48.5);
                        ("longitude", VFloat 2.25);
                        ("openingHours", VDict [("Monday", VStr "9-17")])];
                 VDict [("title", VStr "Null Island"); ("latitude", VInt 0);
                        ("longitude", VInt 0)]])].

Definition watch : string := "https://www.youtube.com/watch?v=abc123&t=42".

Definition video_response : value :=
  VDict [("videos",
          VList [VDict [("title", VStr "Talk"); ("source", VStr " YouTube ");
                        ("link", VStr watch)];
                 VDict [("source", VStr "Vimeo"); ("link", VStr watch)];
                 VDict [("source", VStr "youtube");
                        ("link", VStr "https://youtu.be/abc123")]])].

(** A response of the video search with a [source] that is [null]. *)
Definition video_response_null_source : value :=
  VDict [("videos", VList [VDict [("title", VStr "Talk"); ("source", VNone)]])].

Definition ok (body : value) : result response := inr (Response 200 (inr body)).

(** The search service: every vertical answers; there are no images and no
    products. *)
Definition service (url : string) (headers : list (string * option string))
  (data : string) : result response :=
  if String.eqb url SEARCH_URL then ok web_response
  else if String.eqb url MAPS_SEARCH_URL then ok maps_response
  else if String.eqb url VIDEO_SEARCH_URL then ok video_response
  else if String.eqb url IMAGE_SEARCH_URL then ok (VDict [])
  else ok (VDict [("shopping", VList [])]).

(** The same service, with the null [source] in the video response. *)
Definition service_null_source (url : string)
  (headers : list (string * option string)) (data : string) : result response :=
  if String.eqb url VIDEO_SEARCH_URL then ok video_response_null_source
  else service url headers data.

(** The same service, with no [shopping] key in the shopping response. *)
Definition service_no_shopping (url : string)
  (headers : list (string * option string)) (data : string) : result response :=
  if String.eqb url SHOPPING_SEARCH_URL then ok (VDict [("credits", VInt 1)])
  else service url headers data.

(** A search service that is down: status 500, no JSON body. *)
Definition service_down (url : string) (headers : list (string * option string))
  (data : string) : result response :=
  inr (Response 500 (inl (External "JSONDecodeError"))).

Definition agent (prompt : string) : result string := inr "An answer.".

(** An agent whose call raises. *)
Definition agent_down (prompt : string) : result string :=
  inl (External "ResourceExhausted").

(** A stand-in for the checks of folium and of [st.image] on the samples:
    a location is taken when its two coordinates are numbers ([ValueError]
    otherwise, as on [None]), an image when it is a text that is not empty
    (the default of a missing [imageUrl] is refused). *)
Definition is_number (v : value) : bool :=
  match v with
  | VInt _ | VBool _ => true
  | VFloat f => negb (PrimFloat.is_nan f)
  | _ => false
  end.

Definition location_check (location : value * value) : result unit :=
  if is_number (fst location) && is_number (snd location) then inr tt
  else inl (External "ValueError").

Definition image_check (image : value) : result unit :=
  match image with
  | VStr "" => inl (External "MediaFileStorageError")
  | VStr _ => inr tt
  | _ => inl (External "RuntimeError")
  end.

Definition checks : library :=
  Library (fun location zoom_start => location_check location)
          (fun m => location_check (marker_location m))
          (fun image use_container_width caption => image_check image).

Definition everything : inputs := Inputs true true true true "rocq" true.
Definition videos_and_shopping : inputs := Inputs false false true true "rocq" true.
Definition answer_only : inputs := Inputs false false false false "rocq" true.

(** The page on the sample services. *)
Definition run (i : inputs) : M unit := main api_key dumps service agent repr checks i.
Definition run_null_source (i : inputs) : M unit :=
  main api_key dumps service_null_source agent repr checks i.
Definition run_no_shopping (i : inputs) : M unit :=
  main api_key dumps service_no_shopping agent repr checks i.
Definition run_down (i : inputs) : M unit := main api_key dumps service_down agent repr checks i.
Definition run_agent_down (i : inputs) : M unit :=
  main api_key dumps service agent_down repr checks i.

(** The prompt of the sample run. *)
Definition prompt : string :=
  prompt_of "rocq"
    (String.concat "" (map (entry_text repr) (firstn 5 (organic_entries web_response)))).

End Sample.

(** ** More sample services and responses *)

Module Cases.
Import Py Trace App Obs Run Sample.

(** The sample service, with a maps search that cannot connect. *)
Definition service_unreachable (url : string)
  (headers : list (string * option string)) (data : string) : result response :=
  if String.eqb url MAPS_SEARCH_URL then inl (External "ConnectTimeout")
  else service url headers data.

Definition run_unreachable (i : inputs) : M unit :=
  main api_key dumps service_unreachable agent repr checks i.

(** The page before the button is pressed. *)
Definition not_pressed : inputs := Inputs true true true true "rocq" false.

(** The results of the searches of the run with the null source. *)
Definition results_null_source : results :=
  Results web_response VNone VNone video_response_null_source
    (VDict [("shopping", VList [])]).

(** Seven images: the sixth and the seventh go to the first two columns. *)
Definition image_list : list value :=
  [VDict [("imageUrl", VStr "https://img.example/0.png");
          ("title", VStr "Rocq logo ... the rooster")];
   VDict [("imageUrl", VStr "https://img.example/1.png"); ("title", VStr "One")];
   VDict [("imageUrl", VStr "https://img.example/2.png")];
   VDict [("imageUrl", VStr "https://img.example/3.png"); ("title", VNone)];
   VDict [("imageUrl", VStr "https://img.example/4.png"); ("title", VStr "Four")];
   VDict [("imageUrl", VStr "https://img.example/5.png"); ("title", VStr "Five")];
   VDict [("imageUrl", VStr "https://img.example/6.png"); ("title", VStr "Six...")]].

Definition image_response : value := VDict [("images", VList image_list)].

(** Six products; the rating of the second is [null]. *)
Definition product_list : list value :=
  [VDict [("title", VStr "Book"); ("price", VStr "$10")];
   VDict [("title", VStr "Mug"); ("rating", VNone)];
   VDict [("title", VStr "Poster")];
   VDict [("title", VStr "Sticker")];
   VDict [("title", VStr "Shirt")];
   VDict [("title", VStr "Cap")]].

Definition shopping_response : value := VDict [("shopping", VList product_list)].

(** Three YouTube videos; the link of the second is no watch link. *)
Definition video_list : list value :=
  [VDict [("title", VStr "Talk"); ("source", VStr "YouTube"); ("link", VStr watch)];
   VDict [("title", VStr "Short"); ("source", VStr "YouTube");
          ("link", VStr "https://youtu.be/abc123")];
   VDict [("title", VStr "News"); ("source", VStr "BBC");
          ("link", VStr "https://www.bbc.com/news")];
   VDict [("title", VStr "Course"); ("source", VStr "YouTube");
          ("link", VStr "https://www.youtube.com/watch?v=xyz789")]].

Definition video_slots : value := VDict [("videos", VList video_list)].


(** An image without its URL. *)
Definition image_response_no_url : value :=
  VDict [("images", VList [VDict [("title", VStr "One")]])].

(** A place whose opening hours are a text. *)
Definition always_open : list (string * value) :=
  [("title", VStr "Kiosk"); ("openingHours", VStr "Open 24 hours")].

(** A place whose opening hours are [null]. *)
Definition hours_unknown : list (string * value) :=
  [("title", VStr "Kiosk"); ("openingHours", VNone)].

End Cases.

(** * Properties *)

Import Py Trace App Obs Run.
Local Open Scope list_scope.

(** ** The monad of the page *)

Section MonadFacts.
Context {A B : Type}.

Lemma events_bind (m : M A) (k : A -> M B) :
  events (bind m k)
  = (events m ++ match outcome m with inr a => events (k a) | inl _ => [] end).
Proof.
  destruct m as [t [e | a]]; simpl.
  - now rewrite app_nil_r.
  - now destruct (k a).
Qed.

Lemma outcome_bind (m : M A) (k : A -> M B) :
  outcome (bind m k)
  = match outcome m with inr a => outcome (k a) | inl e => inl e end.
Proof.
  destruct m as [t [e | a]]; simpl; [reflexivity | now destruct (k a)].
Qed.

Lemma run_eq (m : M A) : m = (events m, outcome m).
Proof. now destruct m. Qed.

Lemma bind_done t (a : A) (k : A -> M B) :
  bind (t, inr a) k = (t ++ events (k a), outcome (k a)).
Proof. simpl. now destruct (k a). Qed.

Lemma bind_lift (r : result A) (k : A -> M B) :
  bind (lift r) k = match r with inl e => ([], inl e) | inr a => k a end.
Proof. destruct r as [e | a]; simpl; [reflexivity | now destruct (k a)]. Qed.

Lemma bind_emit p w (k : unit -> M B) :
  bind (emit p w) k = (Ui p w :: events (k tt), outcome (k tt)).
Proof. simpl. now destruct (k tt). Qed.

End MonadFacts.

(** ** What a trace shows *)

Section Observations.

Lemma drawn_app v t t' : drawn v (t ++ t') = (drawn v t ++ drawn v t').
Proof.
  induction t as [| [u h d | p | p w] t IH]; simpl; auto.
  destruct (in_section v p); simpl; now rewrite IH.
Qed.

Lemma posts_app t t' : posts (t ++ t') = (posts t ++ posts t').
Proof. induction t as [| [u h d | p | p w] t IH]; simpl; auto. now rewrite IH. Qed.

Lemma prompts_app t t' : prompts (t ++ t') = (prompts t ++ prompts t').
Proof. induction t as [| [u h d | p | p w] t IH]; simpl; auto. now rewrite IH. Qed.

Lemma infos_app t t' : infos (t ++ t') = (infos t ++ infos t').
Proof.
  induction t as [| [u h d | p | p w] t IH]; simpl; auto.
  destruct w; simpl; auto. now rewrite IH.
Qed.

Lemma calls_app v t t' : calls v (t ++ t') = calls v t + calls v t'.
Proof. unfold calls. now rewrite posts_app, filter_app, length_app. Qed.

Lemma calls_none v t : posts t = [] -> calls v t = 0.
Proof. unfold calls. now intros ->. Qed.

Lemma same_eq v w : same v w = true <-> v = w.
Proof. destruct v, w; simpl; split; congruence. Qed.

Lemma prompts_In p t : In (Run p) t <-> In p (prompts t).
Proof.
  induction t as [| [u h d | p' | p' x] t IH]; simpl; try tauto.
  - rewrite <- IH. split; [intros [H | H]; [discriminate | auto] | auto].
  - rewrite <- IH. split; intros [H | H]; auto; left; congruence.
  - rewrite <- IH. split; [intros [H | H]; [discriminate | auto] | auto].
Qed.

Lemma confined_drawn v w t :
  forallb (confined v) t = true -> same w v = false -> drawn w t = [].
Proof.
  intros H N. induction t as [| [u h d | p | p x] t IH]; simpl in *; auto;
    try discriminate.
  - apply andb_prop in H as [_ H]. auto.
  - apply andb_prop in H as [H1 H]. rewrite (IH H).
    unfold in_section in *. destruct (section p) as [s |]; [| reflexivity].
    apply same_eq in H1. subst s. now rewrite N.
Qed.

Lemma confined_posts v t : forallb (confined v) t = true -> posts t = [].
Proof.
  induction t as [| [u h d | p | p x] t IH]; simpl; auto; try discriminate;
  intros H; apply andb_prop in H as [_ H]; auto.
Qed.

Lemma confined_prompts v t :
  forallb (confined v) t = true -> same v Search = false -> prompts t = [].
Proof.
  intros H N. induction t as [| [u h d | p | p x] t IH]; simpl in *; auto;
    try discriminate.
  - apply andb_prop in H as [H1 _]. congruence.
  - apply andb_prop in H as [_ H]. auto.
Qed.

Lemma searching_drawn v t : forallb searching t = true -> drawn v t = [].
Proof.
  induction t as [| [u h d | p | p x] t IH]; simpl; auto; try discriminate;
    intros H; apply andb_prop in H as [H1 H]; auto.
  destruct p; try discriminate. simpl. auto.
Qed.

Lemma searching_prompts t : forallb searching t = true -> prompts t = [].
Proof.
  induction t as [| [u h d | p | p x] t IH]; simpl; auto; try discriminate;
    intros H; apply andb_prop in H as [H1 H]; auto.
Qed.

Lemma searching_infos t : forallb searching t = true -> infos t = [].
Proof.
  induction t as [| [u h d | p | p x] t IH]; simpl; auto; try discriminate;
    intros H; apply andb_prop in H as [H1 H]; auto.
  destruct p; try discriminate. destruct x; try discriminate. auto.
Qed.

Lemma quiet_prompts t : forallb quiet t = true -> prompts t = [].
Proof.
  induction t as [| [u h d | p | p x] t IH]; simpl; auto; try discriminate.
  intros H. apply andb_prop in H as [_ H]. auto.
Qed.

Lemma quiet_infos t : forallb quiet t = true -> infos t = [].
Proof.
  induction t as [| [u h d | p | p x] t IH]; simpl; auto; try discriminate.
  intros H. apply andb_prop in H as [H1 H]. destruct x; auto; discriminate.
Qed.

Lemma allowed_drawn i w t :
  forallb (allowed i) t = true -> enabled i w = false -> drawn w t = [].
Proof.
  intros H N. induction t as [| e t IH]; simpl in *; auto.
  apply andb_prop in H as [H1 H]. rewrite (IH H).
  destruct e as [| | p x]; auto.
  destruct (in_section w p) eqn:S; auto. exfalso.
  unfold in_section in S. destruct (section p) as [u |] eqn:Sp; [| discriminate].
  apply same_eq in S. subst u.
  assert (X : existsb (fun v => enabled i v && confined v (Ui p x)) verticals = true).
  { destruct p; try discriminate; destruct x; auto. }
  apply existsb_exists in X as [v [_ X]]. apply andb_prop in X as [X1 X2].
  simpl in X2. unfold in_section in X2. rewrite Sp in X2. apply same_eq in X2.
  congruence.
Qed.

Lemma allowed_posts i t : forallb (allowed i) t = true -> posts t = [].
Proof.
  induction t as [| [u h d | p | p x] t IH]; simpl; auto; intros H;
    apply andb_prop in H as [H1 H]; auto.
  exfalso. clear - H1. destruct (enabled i Search && false); simpl in H1.
  all: repeat rewrite andb_false_r in H1; discriminate.
Qed.

Lemma preamble_drawn i v : drawn v (preamble i) = [].
Proof. destruct i as [[] [] [] [] q b]; reflexivity. Qed.

Lemma preamble_posts i : posts (preamble i) = [].
Proof. destruct i as [[] [] [] [] q b]; reflexivity. Qed.

Lemma preamble_prompts i : prompts (preamble i) = [].
Proof. destruct i as [[] [] [] [] q b]; reflexivity. Qed.

Lemma preamble_infos i :
  infos (preamble i) = [(progress_placeholder, "🔍 Searching for information...")].
Proof. destruct i as [[] [] [] [] q b]; reflexivity. Qed.

Lemma with_spinner_events {A} (m : M A) :
  events (with_spinner m)
  = Ui page (Spinner true) :: events m ++ [Ui page (Spinner false)].
Proof. reflexivity. Qed.

Lemma with_spinner_outcome {A} (m : M A) : outcome (with_spinner m) = outcome m.
Proof. reflexivity. Qed.

Lemma calls_bind {A B} v (m : M A) (k : A -> M B) :
  calls v (events (bind m k))
  = calls v (events m)
    + match outcome m with inr a => calls v (events (k a)) | inl _ => 0 end.
Proof. rewrite events_bind, calls_app. now destruct (outcome m). Qed.

Lemma prompts_bind {A B} (m : M A) (k : A -> M B) :
  prompts (events (bind m k))
  = prompts (events m)
    ++ match outcome m with inr a => prompts (events (k a)) | inl _ => [] end.
Proof. rewrite events_bind, prompts_app. now destruct (outcome m). Qed.

Lemma drawn_bind {A B} v (m : M A) (k : A -> M B) :
  drawn v (events (bind m k))
  = drawn v (events m)
    ++ match outcome m with inr a => drawn v (events (k a)) | inl _ => [] end.
Proof. rewrite events_bind, drawn_app. now destruct (outcome m). Qed.

Lemma outcome_ret {A} (a : A) : outcome (ret a) = inr a.
Proof. reflexivity. Qed.

Lemma events_ret {A} (a : A) : events (ret a) = [].
Proof. reflexivity. Qed.

Lemma searching_for_true i :
  searching_for i -> search_button i && truthy (VStr (query i)) = true.
Proof.
  intros [Hb Hq]. rewrite Hb. simpl. apply negb_true_iff, String.eqb_neq, Hq.
Qed.

Lemma searching_or_idle i :
  searching_for i \/ search_button i && truthy (VStr (query i)) = false.
Proof.
  unfold searching_for. destruct (search_button i); [| now right].
  simpl. destruct (String.eqb (query i) "") eqn:E; [now right | left].
  split; [reflexivity |]. now apply String.eqb_neq.
Qed.

Lemma endpoint_url v : endpoint (search_type v) = url v.
Proof. now destruct v. Qed.

Lemma endpoint_other st :
  st <> "shopping" -> st <> "videos" -> st <> "images" -> st <> "maps" ->
  endpoint st = SEARCH_URL.
Proof.
  intros H1 H2 H3 H4. unfold endpoint.
  apply String.eqb_neq in H1, H2, H3, H4. now rewrite H1, H2, H3, H4.
Qed.

Lemma lookup_only k d : lookup k (only k d) = lookup k d.
Proof.
  unfold only. destruct (lookup k d) eqn:E; simpl; [| reflexivity].
  now rewrite String.eqb_refl.
Qed.

Lemma has_dict k d :
  has k (VDict d) = inr (match lookup k d with Some _ => true | None => false end).
Proof.
  unfold has. destruct d as [| [k' x] d]; [reflexivity |]. reflexivity.
Qed.

Lemma has_only k d : has k (VDict d) = has k (VDict (only k d)).
Proof. now rewrite !has_dict, lookup_only. Qed.

Lemma getitem_only k d : getitem (VDict d) k = getitem (VDict (only k d)) k.
Proof. unfold getitem. now rewrite lookup_only. Qed.

Lemma has_found k sr :
  has k sr = inr true ->
  getitem sr k = inl TypeError
  \/ exists d x, sr = VDict d /\ lookup k d = Some x.
Proof.
  destruct sr as [| b | z | f | s | l | d]; try (left; reflexivity).
  rewrite has_dict. destruct (lookup k d) as [x |] eqn:L; [| discriminate].
  intros _. right. eauto.
Qed.




End Observations.

(** ** Texts put end to end *)

Section Texts.

Lemma append_assoc a b c : ((a ++ b) ++ c)%string = (a ++ b ++ c)%string.
Proof. induction a; simpl; congruence. Qed.




End Texts.

(** ** Events that stay in their section *)

Section Confinement.
Variable f : event -> bool.

Lemma all_bind {A B} (m : M A) (k : A -> M B) :
  forallb f (events m) = true ->
  (forall a, forallb f (events (k a)) = true) ->
  forallb f (events (bind m k)) = true.
Proof.
  intros Hm Hk. rewrite events_bind, forallb_app, Hm. simpl.
  destruct (outcome m); auto.
Qed.

Lemma all_lift {A} (r : result A) : forallb f (events (lift r)) = true.
Proof. reflexivity. Qed.

Lemma all_ret {A} (a : A) : forallb f (events (ret a)) = true.
Proof. reflexivity. Qed.

Lemma all_emit p w : f (Ui p w) = true -> forallb f (events (emit p w)) = true.
Proof. intros H. simpl. now rewrite H. Qed.

Lemma all_for_each {A} (l : list A) (body : A -> M unit) :
  (forall x, forallb f (events (body x)) = true) ->
  forallb f (events (for_each l body)) = true.
Proof.
  intros H. induction l as [| x l IH]; simpl; [reflexivity |].
  apply all_bind; auto.
Qed.

End Confinement.

Ltac confine :=
  repeat first
    [ apply all_lift
    | apply all_ret
    | match goal with |- forallb _ (events (_ :: _, _)) = true => reflexivity end
    | apply all_emit; reflexivity
    | apply all_bind; [| intros ]
    | apply all_for_each; intros
    | match goal with
      | |- forallb _ (events (let (_, _) := ?x in _)) = true => destruct x
      | |- forallb _ (events (if ?b then _ else _)) = true => destruct b
      | |- forallb _ (events (match ?x with _ => _ end)) = true => destruct x
      end ].

Ltac step_block :=
  let t := fresh "t" in let e := fresh "e" in
  intros [t [e | []]]; try solve [intros; cbn; rewrite <- ?app_assoc; reflexivity].



(** ** One run of the page *)

Section Page.

Variable SERPER_API_KEY : option string.
Variable json_dumps : value -> string.
Variable requests_post :
  string -> list (string * option string) -> string -> result response.
Variable assistant_run : string -> result string.
Variable repr_other : value -> string.
Variable lib : library.

Local Abbreviation page_main :=
  (main SERPER_API_KEY json_dumps requests_post assistant_run repr_other lib).
Local Abbreviation page_fetch := (fetch SERPER_API_KEY json_dumps requests_post).
Local Abbreviation search := (serper_search SERPER_API_KEY json_dumps requests_post).
Local Abbreviation page_search_if :=
  (search_if SERPER_API_KEY json_dumps requests_post).
Local Abbreviation page_render := (render assistant_run repr_other lib).
Local Abbreviation page_gated := (gated assistant_run repr_other lib).
Local Abbreviation page_block := (block assistant_run repr_other lib).
Local Abbreviation answer := (ai_answer assistant_run repr_other).
Local Abbreviation content_of := (format_search_content repr_other).
Local Abbreviation entry := (search_entry repr_other).
Local Abbreviation hdrs := (headers SERPER_API_KEY).
Local Abbreviation body q := (json_dumps (VDict [("q", VStr q)])).

Lemma main_idle i :
  search_button i && truthy (VStr (query i)) = false ->
  page_main i = (events controls, inr tt).
Proof. intros H. unfold main. rewrite H. reflexivity. Qed.

Lemma main_eq i :
  searching_for i ->
  page_main i
  = bind (preamble i, inr tt) (fun _ => bind (page_fetch i) (page_render i)).
Proof.
  intros H. unfold main. rewrite (searching_for_true i H).
  unfold preamble, render, gated, section_if, container_if.
  generalize (page_fetch i). intros [t [e | r]];
  destruct i as [[] [] [] [] q b]; try reflexivity;
  cbn [block enabled payload show_maps show_images show_videos show_shopping
       query andb is_some bind emit ret controls events fst app map filter container];
  generalize (shopping_section repr_other (shopping_results r));
  generalize (videos_section repr_other (video_results r));
  generalize (images_section lib (image_results r));
  generalize (maps_section repr_other lib (maps_results r));
  generalize (ai_answer assistant_run repr_other q (search_results r));
  do 5 step_block.
Qed.

Lemma block_confined v q r :
  forallb (confined v) (events (page_block v q r)) = true.
Proof.
  destruct v; simpl.
  - unfold ai_answer. confine. unfold source_entry. confine.
  - unfold maps_section. confine.
  - unfold images_section. confine. unfold image_entry. confine.
  - unfold videos_section. confine. unfold video_entry. confine.
  - unfold shopping_section. confine. unfold product_entry. confine.
Qed.

Lemma serper_search_events q st :
  events (search q st) = [Post (endpoint st) hdrs (body q)].
Proof.
  unfold serper_search, post. rewrite events_bind. simpl.
  destruct (requests_post _ _ _) as [e | r]; simpl; [reflexivity|].
  destruct (Z.eqb _ _); reflexivity.
Qed.

Lemma serper_search_outcome q st :
  outcome (search q st)
  = match requests_post (endpoint st) hdrs (body q) with
    | inl e => inl e
    | inr r => if Z.eqb (status_code r) 200 then json r else inr VNone
    end.
Proof.
  unfold serper_search, post. rewrite outcome_bind. simpl.
  destruct (requests_post _ _ _) as [e | r]; simpl; [reflexivity|].
  destruct (Z.eqb _ _); reflexivity.
Qed.

Lemma serper_search_run q st :
  search q st
  = ([Post (endpoint st) hdrs (body q)],
     match requests_post (endpoint st) hdrs (body q) with
     | inl e => inl e
     | inr r => if Z.eqb (status_code r) 200 then json r else inr VNone
     end).
Proof.
  rewrite <- serper_search_events, <- serper_search_outcome. apply run_eq.
Qed.

(** The searches of a run, as [fetch] makes them one after the other. *)
Lemma fetch_eq i :
  page_fetch i
  = with_spinner
      (bind (search (query i) "search") (fun s =>
       bind (page_search_if (show_maps i) (query i) "maps") (fun m =>
       bind (page_search_if (show_images i) (query i) "images") (fun im =>
       bind (page_search_if (show_videos i) (query i) "videos") (fun v =>
       bind (page_search_if (show_shopping i) (query i) "shopping") (fun sh =>
       ret (Results s m im v sh))))))).
Proof. reflexivity. Qed.

Lemma search_if_events b q st :
  events (page_search_if b q st)
  = if b then [Post (endpoint st) hdrs (body q)] else [].
Proof. destruct b; [apply serper_search_events | reflexivity]. Qed.

Lemma search_if_outcome b q st :
  outcome (page_search_if b q st)
  = if b then outcome (search q st) else inr VNone.
Proof. now destruct b. Qed.

Lemma fetch_outcome i :
  outcome (page_fetch i)
  = (let* s := outcome (search (query i) "search") in
     let* m := outcome (page_search_if (show_maps i) (query i) "maps") in
     let* im := outcome (page_search_if (show_images i) (query i) "images") in
     let* v := outcome (page_search_if (show_videos i) (query i) "videos") in
     let* sh := outcome (page_search_if (show_shopping i) (query i) "shopping") in
     inr (Results s m im v sh)).
Proof.
  rewrite fetch_eq, with_spinner_outcome.
  repeat (rewrite outcome_bind;
          match goal with
          | |- context [rbind (outcome ?m) _] => destruct (outcome m)
          end; cbn [rbind]; try reflexivity).
Qed.

Lemma fetch_searching i : forallb searching (events (page_fetch i)) = true.
Proof.
  rewrite fetch_eq, with_spinner_events. simpl.
  rewrite forallb_app. simpl. rewrite andb_true_r.
  repeat (apply all_bind; [| intros]);
    rewrite ?search_if_events, ?serper_search_events;
    repeat match goal with |- context [if ?b then _ else _] => destruct b end;
    reflexivity.
Qed.

Lemma calls_search v q st :
  calls v (events (search q st))
  = if String.eqb (url v) (endpoint st) then 1 else 0.
Proof.
  rewrite serper_search_events. unfold calls. simpl.
  now destruct (String.eqb _ _).
Qed.

Lemma calls_search_if v b q st :
  calls v (events (page_search_if b q st))
  = if b then if String.eqb (url v) (endpoint st) then 1 else 0 else 0.
Proof. destruct b; [apply calls_search | reflexivity]. Qed.

Lemma calls_with_spinner {A} v (m : M A) :
  calls v (events (with_spinner m)) = calls v (events m).
Proof.
  rewrite with_spinner_events. change (Ui page (Spinner true) :: events m ++ [Ui page (Spinner false)])
    with ([Ui page (Spinner true)] ++ events m ++ [Ui page (Spinner false)]).
  rewrite !calls_app. unfold calls at 1 3. simpl. lia.
Qed.

Lemma fetch_calls i v :
  calls v (events (page_fetch i)) <= (if enabled i v then 1 else 0)
  /\ calls Search (events (page_fetch i)) = 1
  /\ (forall r, outcome (page_fetch i) = inr r ->
      calls v (events (page_fetch i)) = if enabled i v then 1 else 0).
Proof.
  rewrite fetch_eq, !with_spinner_outcome, !calls_with_spinner.
  destruct i as [m im vd sh q b]. cbn [show_maps show_images show_videos show_shopping query].
  repeat (rewrite ?outcome_bind, ?calls_bind, ?calls_search, ?calls_search_if;
          try match goal with
              | |- context [match outcome ?m with _ => _ end] =>
                  destruct (outcome m) as [? | ?] eqn:?
              end).
  all: destruct v; cbn [url enabled show_maps show_images show_videos show_shopping];
    repeat split; intros; try discriminate;
    destruct m, im, vd, sh; cbn; try lia; try discriminate.
Qed.

Lemma fetch_payload i v r :
  outcome (page_fetch i) = inr r ->
  if enabled i v
  then outcome (search (query i) (search_type v)) = inr (payload v r)
  else payload v r = VNone.
Proof.
  rewrite fetch_eq, with_spinner_outcome.
  destruct i as [m im vd sh q b].
  cbn [show_maps show_images show_videos show_shopping query enabled].
  repeat (rewrite ?outcome_bind;
          try match goal with
              | |- context [match outcome ?m with _ => _ end] =>
                  destruct (outcome m) as [? | ?] eqn:?
              end);
  try discriminate.
  intros [= <-].
  rewrite search_if_outcome in *.
  destruct v; [assumption | destruct m | destruct im | destruct vd | destruct sh];
    simpl payload; simpl search_type; congruence.
Qed.

Lemma gated_confined i r v :
  forallb (confined v) (events (page_gated i r v)) = true.
Proof.
  unfold gated. destruct (enabled i v); [apply block_confined | reflexivity].
Qed.

Lemma gated_allowed i r v :
  forallb (allowed i) (events (page_gated i r v)) = true.
Proof.
  unfold gated. destruct (enabled i v) eqn:E; [| reflexivity].
  pose proof (block_confined v (query i) (payload v r)) as H.
  rewrite forallb_forall in *. intros e He. specialize (H e He).
  assert (X : existsb (fun w => enabled i w && confined w e) verticals = true).
  { apply existsb_exists. exists v. split; [destruct v; simpl; tauto | now rewrite E, H]. }
  unfold allowed. destruct e as [| | p w]; auto. destruct p; auto. destruct w; auto.
Qed.

Lemma render_allowed i r : forallb (allowed i) (events (page_render i r)) = true.
Proof.
  unfold render. apply all_bind; [reflexivity | intros].
  do 4 (apply (all_bind _ (page_gated i r _)); [apply gated_allowed | intros]).
  apply gated_allowed.
Qed.

(** A run of the rendering that ends well went through every block. *)
Lemma render_done i r :
  outcome (page_render i r) = inr tt ->
  events (page_render i r)
  = Ui progress_placeholder Cleared
    :: events (page_gated i r Search) ++ events (page_gated i r Maps)
    ++ events (page_gated i r Images) ++ events (page_gated i r Videos)
    ++ events (page_gated i r Shopping).
Proof.
  unfold render.
  repeat (rewrite ?outcome_bind, ?events_bind;
          try match goal with
              | |- context [match outcome ?m with _ => _ end] =>
                  destruct (outcome m) as [? | []] eqn:?
              end);
  try discriminate.
  intros _. simpl. now rewrite ?app_nil_r.
Qed.

Lemma drawn_gated_other i r v w :
  same w v = false -> drawn w (events (page_gated i r v)) = [].
Proof. intros. eapply confined_drawn; eauto using gated_confined. Qed.

Lemma render_done_drawn i r w :
  outcome (page_render i r) = inr tt ->
  drawn w (events (page_render i r)) = drawn w (events (page_gated i r w)).
Proof.
  intros H. rewrite (render_done i r H).
  change (drawn w (Ui progress_placeholder Cleared :: ?t)) with (drawn w t).
  rewrite !drawn_app.
  destruct w;
    try rewrite (drawn_gated_other i r Search) by reflexivity;
    try rewrite (drawn_gated_other i r Maps) by reflexivity;
    try rewrite (drawn_gated_other i r Images) by reflexivity;
    try rewrite (drawn_gated_other i r Videos) by reflexivity;
    try rewrite (drawn_gated_other i r Shopping) by reflexivity;
    now rewrite ?app_nil_r.
Qed.

Lemma block_heading v q r :
  exists t, events (page_block v q r) = Ui (container v) (Markdown (heading v) false) :: t.
Proof.
  destruct v; simpl;
    [unfold ai_answer | unfold maps_section | unfold images_section
    | unfold videos_section | unfold shopping_section];
    rewrite events_bind; simpl; eauto.
Qed.

Lemma main_events i :
  searching_for i ->
  events (page_main i)
  = preamble i ++ events (page_fetch i)
    ++ match outcome (page_fetch i) with
       | inr r => events (page_render i r)
       | inl _ => []
       end.
Proof.
  intros H. rewrite (main_eq i H), bind_done.
  cbn [events fst]. now rewrite events_bind.
Qed.

Lemma main_outcome i :
  searching_for i ->
  outcome (page_main i)
  = match outcome (page_fetch i) with
    | inr r => outcome (page_render i r)
    | inl e => inl e
    end.
Proof.
  intros H. rewrite (main_eq i H), bind_done.
  cbn [outcome snd]. now rewrite outcome_bind.
Qed.

Lemma main_drawn i v :
  searching_for i ->
  drawn v (events (page_main i))
  = match outcome (page_fetch i) with
    | inr r => drawn v (events (page_render i r))
    | inl _ => []
    end.
Proof.
  intros H. rewrite (main_events i H), !drawn_app, preamble_drawn.
  rewrite (searching_drawn v _ (fetch_searching i)).
  cbn [app]. now destruct (outcome (page_fetch i)).
Qed.

Lemma main_calls i v :
  searching_for i ->
  calls v (events (page_main i)) = calls v (events (page_fetch i)).
Proof.
  intros H. rewrite (main_events i H), !calls_app.
  rewrite (calls_none v (preamble i) (preamble_posts i)).
  destruct (outcome (page_fetch i)) as [e | r].
  - rewrite (calls_none v []); [lia | reflexivity].
  - rewrite (calls_none v (events (page_render i r))); [lia |].
    apply (allowed_posts i), render_allowed.
Qed.

Lemma main_drawn_done i v :
  searching_for i ->
  outcome (page_main i) = inr tt ->
  exists r,
    outcome (page_fetch i) = inr r
    /\ drawn v (events (page_main i))
       = if enabled i v
         then drawn v (events (page_block v (query i) (payload v r)))
         else [].
Proof.
  intros S Ok.
  rewrite (main_outcome i S) in Ok.
  rewrite (main_drawn i v S).
  destruct (outcome (page_fetch i)) as [e | r]; [discriminate |].
  exists r. split; [reflexivity |].
  rewrite (render_done_drawn i r v Ok).
  unfold gated. now destruct (enabled i v).
Qed.

Lemma gated_outcome i r u :
  outcome (page_gated i r u)
  = if enabled i u then outcome (page_block u (query i) (payload u r)) else inr tt.
Proof. unfold gated. now destruct (enabled i u). Qed.

Lemma gated_drawn i r u :
  drawn u (events (page_gated i r u))
  = if enabled i u then drawn u (events (page_block u (query i) (payload u r)))
    else [].
Proof. unfold gated. now destruct (enabled i u). Qed.

(** A search is made once every search before it returned. *)
Lemma fetch_calls_reached i v :
  enabled i v = true ->
  (forall u, Shape.rank u < Shape.rank v -> enabled i u = true ->
     exists x, outcome (search (query i) (search_type u)) = inr x) ->
  calls v (events (page_fetch i)) = 1.
Proof.
  intros E A.
  pose proof (A Search) as A0. pose proof (A Maps) as A1.
  pose proof (A Images) as A2. pose proof (A Videos) as A3. clear A.
  rewrite fetch_eq, calls_with_spinner.
  destruct i as [m im vd sh q b].
  cbn [show_maps show_images show_videos show_shopping query enabled search_type
       Shape.rank] in *.
  destruct v; cbn [Shape.rank enabled show_maps show_images show_videos show_shopping] in *;
    subst;
    repeat match goal with
           | H : ?n < ?k -> _ |- _ =>
               first [ assert (L : n < k) by lia; specialize (H L); clear L
                     | clear H ]
           end.
  all: try destruct m; try destruct im; try destruct vd; try destruct sh;
    try discriminate; cbn [search_if];
    repeat match goal with
           | H : true = true -> _ |- _ => specialize (H eq_refl); destruct H as [? H]
           | H : false = true -> _ |- _ => clear H
           end;
    repeat (rewrite ?calls_bind, ?outcome_bind, ?calls_search, ?events_ret, ?outcome_ret;
            try match goal with
                | H : outcome ?m = inr _ |- context [outcome ?m] => rewrite H
                | |- context [match outcome ?m with _ => _ end] =>
                    destruct (outcome m) as [? | ?]
                end);
    reflexivity.
Qed.

(** A search that raises is the last one: the searches after it are not
    made, and nothing is rendered. *)
Lemma fetch_calls_unreached i u e :
  enabled i u = true ->
  outcome (search (query i) (search_type u)) = inl e ->
  (exists e', outcome (page_fetch i) = inl e')
  /\ forall v, Shape.rank u < Shape.rank v -> calls v (events (page_fetch i)) = 0.
Proof.
  intros E R.
  rewrite fetch_eq, with_spinner_outcome.
  setoid_rewrite calls_with_spinner.
  destruct i as [m im vd sh q b].
  cbn [show_maps show_images show_videos show_shopping query enabled search_type] in *.
  destruct u; cbn [enabled show_maps show_images show_videos show_shopping
                   search_type] in *; subst.
  all: split; [| intros v L; destruct v; cbn [Shape.rank] in L; try lia].
  all: try destruct m; try destruct im; try destruct vd; try destruct sh;
    cbn [search_if];
    repeat (rewrite ?calls_bind, ?outcome_bind, ?calls_search, ?events_ret, ?outcome_ret,
              ?R;
            try match goal with
                | |- context [match outcome ?m with _ => _ end] =>
                    destruct (outcome m) as [? | ?]
                end);
    eauto.
Qed.

(** The section of [v] is drawn in full once no section above it raised,
    whatever the sections below it do. *)
Lemma render_drawn_reached i r v :
  (forall u, Shape.rank u < Shape.rank v -> enabled i u = true ->
     outcome (page_block u (query i) (payload u r)) = inr tt) ->
  drawn v (events (page_render i r)) = drawn v (events (page_gated i r v)).
Proof.
  intros A.
  assert (G : forall u, Shape.rank u < Shape.rank v ->
                outcome (page_gated i r u) = inr tt).
  { intros u L. rewrite gated_outcome.
    destruct (enabled i u) eqn:Eu; [now apply A | reflexivity]. }
  unfold render. rewrite drawn_bind. cbn [emit events outcome fst snd drawn].
  assert (P : in_section v progress_placeholder = false) by now destruct v.
  rewrite P. cbn [app].
  destruct v; cbn [Shape.rank] in G;
    repeat (rewrite ?drawn_bind, ?(G Search), ?(G Maps), ?(G Images), ?(G Videos)
              by (cbn [Shape.rank]; lia);
            try rewrite (drawn_gated_other i r Search) by reflexivity;
            try rewrite (drawn_gated_other i r Maps) by reflexivity;
            try rewrite (drawn_gated_other i r Images) by reflexivity;
            try rewrite (drawn_gated_other i r Videos) by reflexivity;
            try rewrite (drawn_gated_other i r Shopping) by reflexivity;
            cbn [app];
            try match goal with
                | |- context [match outcome ?m with _ => _ end] =>
                    destruct (outcome m) as [? | []]
                end);
    rewrite ?app_nil_r; reflexivity.
Qed.

(** The sections below one that raises are not drawn. *)
Lemma render_drawn_unreached i r u e v :
  enabled i u = true ->
  outcome (page_block u (query i) (payload u r)) = inl e ->
  Shape.rank u < Shape.rank v ->
  drawn v (events (page_render i r)) = [].
Proof.
  intros E R L.
  assert (G : outcome (page_gated i r u) = inl e) by now rewrite gated_outcome, E.
  unfold render. rewrite drawn_bind. cbn [emit events outcome fst snd drawn].
  assert (P : in_section v progress_placeholder = false) by now destruct v.
  rewrite P. cbn [app].
  destruct u, v; cbn [Shape.rank] in L; try lia;
    repeat (rewrite ?drawn_bind, ?G;
            try rewrite (drawn_gated_other i r Search) by reflexivity;
            try rewrite (drawn_gated_other i r Maps) by reflexivity;
            try rewrite (drawn_gated_other i r Images) by reflexivity;
            try rewrite (drawn_gated_other i r Videos) by reflexivity;
            try rewrite (drawn_gated_other i r Shopping) by reflexivity;
            cbn [app];
            try match goal with
                | |- context [match outcome ?m with _ => _ end] =>
                    destruct (outcome m) as [? | []]
                end);
    reflexivity.
Qed.

Lemma main_drawn_reached i r v :
  searching_for i ->
  outcome (page_fetch i) = inr r ->
  (forall u, Shape.rank u < Shape.rank v -> enabled i u = true ->
     outcome (page_block u (query i) (payload u r)) = inr tt) ->
  drawn v (events (page_main i))
  = if enabled i v then drawn v (events (page_block v (query i) (payload v r)))
    else [].
Proof.
  intros S O A. rewrite (main_drawn i v S), O.
  rewrite (render_drawn_reached i r v A). apply gated_drawn.
Qed.

Lemma block_drawn_heading v q r :
  exists rest,
    drawn v (events (page_block v q r))
    = (container v, Markdown (heading v) false) :: rest.
Proof.
  destruct (block_heading v q r) as [t ->]. simpl.
  assert (S : in_section v (container v) = true) by now destruct v.
  rewrite S. eauto.
Qed.

Lemma block_reads_key v q d :
  page_block v q (VDict d)
  = page_block v q (VDict (only (key v) d)).
Proof.
  destruct v; cbn [block key].
  - unfold ai_answer, format_search_content, top_organic.
    now rewrite (has_only "organic" d), (getitem_only "organic" d).
  - unfold maps_section, has_places.
    now rewrite (has_only "places" d), (getitem_only "places" d).
  - unfold images_section.
    now rewrite (has_only "images" d), (getitem_only "images" d).
  - unfold videos_section.
    now rewrite (has_only "videos" d), (getitem_only "videos" d).
  - unfold shopping_section.
    now rewrite (has_only "shopping" d), (getitem_only "shopping" d).
Qed.

Lemma block_without_key v q d :
  lookup (key v) d = None ->
  page_block v q (VDict d)
  = page_block v q VNone.
Proof.
  intros H. rewrite block_reads_key. unfold only. rewrite H.
  destruct v; reflexivity.
Qed.

Lemma block_none v q :
  v <> Search ->
  page_block v q VNone
  = ([Ui (container v) (Markdown (heading v) false);
      Ui (container v) (Info (empty_message v))], inr tt).
Proof. destruct v; [congruence | reflexivity ..]. Qed.

Lemma ai_answer_eq q sr :
  answer q sr
  = match content_of sr with
    | inl e => ([answer_heading], inl e)
    | inr c =>
        match assistant_run (prompt_of q c) with
        | inl e => ([answer_heading; Run (prompt_of q c)], inl e)
        | inr content =>
            (answer_heading :: Run (prompt_of q c)
               :: Ui text_container (Markdown content false)
               :: events (sources repr_other sr),
             outcome (sources repr_other sr))
        end
    end.
Proof.
  unfold ai_answer. fold (sources repr_other sr).
  destruct (content_of sr) as [e | c]; [reflexivity |].
  cbn [lift bind emit app]. destruct (assistant_run (prompt_of q c)) as [e | content];
    [reflexivity |].
  cbn [bind emit app]. now destruct (sources repr_other sr).
Qed.

Lemma sources_quiet sr : forallb quiet (events (sources repr_other sr)) = true.
Proof. unfold sources. confine. unfold source_entry. confine. Qed.

Lemma ai_answer_prompts q sr :
  prompts (events (answer q sr))
  = match content_of sr with
    | inl _ => []
    | inr c => [prompt_of q c]
    end.
Proof.
  rewrite ai_answer_eq. destruct (content_of sr) as [e | c]; [reflexivity |].
  destruct (assistant_run _); [reflexivity |].
  cbn [events fst prompts]. now rewrite (quiet_prompts _ (sources_quiet sr)).
Qed.

Lemma gated_prompts i r v :
  same v Search = false -> prompts (events (page_gated i r v)) = [].
Proof. intros. eapply confined_prompts; eauto using gated_confined. Qed.

Lemma render_prompts i r :
  prompts (events (page_render i r))
  = prompts (events (answer (query i) (search_results r))).
Proof.
  unfold render.
  rewrite prompts_bind. cbn [emit events fst outcome snd prompts app].
  rewrite prompts_bind.
  change (page_gated i r Search) with (answer (query i) (search_results r)).
  destruct (outcome (answer _ _)) as [e | []]; [now rewrite app_nil_r |].
  repeat (rewrite prompts_bind, gated_prompts by reflexivity;
          match goal with
          | |- context [match outcome ?m with _ => _ end] =>
              destruct (outcome m) as [? | []]
          end; cbn [app]; rewrite ?app_nil_r; try reflexivity).
  now rewrite gated_prompts, app_nil_r by reflexivity.
Qed.

Lemma main_prompts i :
  searching_for i ->
  prompts (events (page_main i))
  = match outcome (page_fetch i) with
    | inr r => prompts (events (answer (query i) (search_results r)))
    | inl _ => []
    end.
Proof.
  intros H. rewrite (main_events i H), !prompts_app, preamble_prompts.
  rewrite (searching_prompts _ (fetch_searching i)). cbn [app].
  destruct (outcome (page_fetch i)) as [e | r]; [reflexivity | apply render_prompts].
Qed.

Lemma idle_prompts i :
  search_button i && truthy (VStr (query i)) = false ->
  prompts (events (page_main i)) = [].
Proof. intros H. now rewrite (main_idle i H). Qed.

Lemma render_stops i r e :
  outcome (answer (query i) (search_results r)) = inl e ->
  page_render i r
  = (Ui progress_placeholder Cleared :: events (answer (query i) (search_results r)),
     inl e).
Proof.
  unfold render. change (gated assistant_run repr_other lib i r Search)
    with (answer (query i) (search_results r)).
  destruct (answer (query i) (search_results r)) as [t [e' | []]]; simpl;
    intros [= ->]. reflexivity.
Qed.

Lemma search_entry_dict d :
  entry (VDict d) = inr (entry_text repr_other (VDict d)).
Proof. reflexivity. Qed.



Lemma collect_dicts l :
  forallb is_dict l = true ->
  collect entry l = inr (map (entry_text repr_other) l).
Proof.
  induction l as [| v l IH]; simpl; [reflexivity |].
  intros H. apply andb_prop in H as [D H]. rewrite (IH H).
  destruct v; try discriminate. reflexivity.
Qed.


Lemma content_none : content_of VNone = inr "".
Proof. reflexivity. Qed.


Lemma content_top_five d l :
  lookup "organic" d = Some (VList l) ->
  forallb is_dict (firstn 5 l) = true ->
  content_of (VDict d)
  = inr (String.concat "" (map (entry_text repr_other) (firstn 5 l))).
Proof.
  intros H D. unfold format_search_content, top_organic, getitem.
  rewrite has_dict, H. cbn [rbind slice_to iter]. now rewrite (collect_dicts _ D).
Qed.









(** C1, as amended.  When a search is run, the web search is posted exactly
    once, and a vertical whose toggle is off is neither searched nor drawn,
    however the run ends.  A vertical whose toggle is on is searched exactly
    once when every search before it returned, and not at all when one of
    them raised; its section is drawn, as its block draws it and under its
    heading, when every search returned and no section above it raised, and
    not at all when a search or a section above it raised.  In a run that
    ends without an exception every vertical whose toggle is on is searched
    once and drawn. *)
Theorem toggles_gate_searches_and_sections i :
  searching_for i ->
  let t := events (page_main i) in
  calls Search t = 1
  /\ (forall v, enabled i v = false -> calls v t = 0 /\ drawn v t = [])
  /\ (forall v,
        enabled i v = true ->
        (forall u, Shape.rank u < Shape.rank v -> enabled i u = true ->
           exists x, outcome (search (query i) (search_type u)) = inr x) ->
        calls v t = 1)
  /\ (forall u e,
        enabled i u = true ->
        outcome (search (query i) (search_type u)) = inl e ->
        (forall v, Shape.rank u < Shape.rank v -> calls v t = 0)
        /\ (forall v, drawn v t = []))
  /\ (forall v r,
        enabled i v = true ->
        outcome (page_fetch i) = inr r ->
        (forall u, Shape.rank u < Shape.rank v -> enabled i u = true ->
           outcome (page_block u (query i) (payload u r)) = inr tt) ->
        drawn v t = drawn v (events (page_block v (query i) (payload v r)))
        /\ exists rest, drawn v t = (container v, Markdown (heading v) false) :: rest)
  /\ (forall u r e,
        enabled i u = true ->
        outcome (page_fetch i) = inr r ->
        outcome (page_block u (query i) (payload u r)) = inl e ->
        forall v, Shape.rank u < Shape.rank v -> drawn v t = [])
  /\ (outcome (page_main i) = inr tt ->
      forall v, enabled i v = true ->
        calls v t = 1
        /\ In (container v, Markdown (heading v) false) (drawn v t)).
Proof.
  intros H t. subst t. split; [| split; [| split; [| split; [| split; [| split]]]]].
  - rewrite (main_calls i Search H). apply (fetch_calls i Search).
  - intros v E. split.
    + rewrite (main_calls i v H).
      pose proof (fetch_calls i v) as [L _].
      rewrite E in L. lia.
    + rewrite (main_drawn i v H). destruct (outcome (page_fetch i)) as [e | r]; auto.
      apply (allowed_drawn i v _ (render_allowed i r) E).
  - intros v E A. rewrite (main_calls i v H). now apply fetch_calls_reached.
  - intros u e E R. destruct (fetch_calls_unreached i u e E R) as [[e' F] C]. split.
    + intros v L. rewrite (main_calls i v H). now apply C.
    + intros v. now rewrite (main_drawn i v H), F.
  - intros v r E F A. rewrite (main_drawn_reached i r v H F A), E.
    split; [reflexivity | apply block_drawn_heading].
  - intros u r e E F R v L. rewrite (main_drawn i v H), F.
    now apply (render_drawn_unreached i r u e v).
  - intros Ok v E. rewrite (main_outcome i H) in Ok.
    destruct (outcome (page_fetch i)) as [e | r] eqn:F; [discriminate |]. split.
    + rewrite (main_calls i v H).
      pose proof (fetch_calls i v) as [_ [_ L]].
      rewrite (L r F), E. reflexivity.
    + rewrite (main_drawn i v H), F, (render_done_drawn i r v Ok).
      unfold gated. rewrite E.
      destruct (block_heading v (query i) (payload v r)) as [t' ->].
      simpl. assert (S : in_section v (container v) = true) by now destruct v.
      rewrite S. now left.
Qed.

(** C8.  A search type other than [shopping], [videos], [images] and
    [maps] is searched as the web search is: the post goes to [SEARCH_URL],
    and no exception comes from the name. *)
Theorem unknown_search_type_is_web_search q st :
  st <> "shopping" -> st <> "videos" -> st <> "images" -> st <> "maps" ->
  endpoint st = SEARCH_URL
  /\ search q st = search q "search"
  /\ events (search q st) = [Post SEARCH_URL hdrs (body q)].
Proof.
  intros H1 H2 H3 H4. pose proof (endpoint_other st H1 H2 H3 H4) as E.
  split; [exact E|]. split.
  - unfold serper_search. now rewrite E.
  - now rewrite serper_search_events, E.
Qed.

(** C3, as amended.  On a status other than 200 [serper_search] returns
    [None] after its one post, and on 200 the parsed body; an optional
    section (maps, images, videos, products) whose search returned [None]
    shows its heading and its empty-state message whenever the rendering
    reaches it: every search returned and no section above it raised,
    whatever the sections below it do.  The answer has no such message: on
    [None] the agent is run on a prompt without results. *)
Theorem failed_search_gives_empty_section :
  (forall q st resp,
      requests_post (endpoint st) hdrs (body q) = inr resp ->
      status_code resp <> 200%Z ->
      search q st = ([Post (endpoint st) hdrs (body q)], inr VNone))
  /\ (forall q st resp,
        requests_post (endpoint st) hdrs (body q) = inr resp ->
        status_code resp = 200%Z ->
        search q st = ([Post (endpoint st) hdrs (body q)], json resp))
  /\ (forall v q,
        v <> Search ->
        page_block v q VNone
        = ([Ui (container v) (Markdown (heading v) false);
            Ui (container v) (Info (empty_message v))], inr tt))
  /\ (forall i v resp r,
        searching_for i ->
        v <> Search ->
        enabled i v = true ->
        requests_post (url v) hdrs (body (query i)) = inr resp ->
        status_code resp <> 200%Z ->
        outcome (page_fetch i) = inr r ->
        (forall u, Shape.rank u < Shape.rank v -> enabled i u = true ->
           outcome (page_block u (query i) (payload u r)) = inr tt) ->
        drawn v (events (page_main i))
        = [(container v, Markdown (heading v) false);
           (container v, Info (empty_message v))])
  /\ (forall i v resp,
        searching_for i ->
        v <> Search ->
        enabled i v = true ->
        requests_post (url v) hdrs (body (query i)) = inr resp ->
        status_code resp <> 200%Z ->
        outcome (page_main i) = inr tt ->
        drawn v (events (page_main i))
        = [(container v, Markdown (heading v) false);
           (container v, Info (empty_message v))])
  /\ (forall q,
        page_block Search q VNone
        = match assistant_run (prompt_of q "") with
          | inl e => ([answer_heading; Run (prompt_of q "")], inl e)
          | inr content =>
              ([answer_heading; Run (prompt_of q "");
                Ui text_container (Markdown content false)], inr tt)
          end).
Proof.
  split; [| split; [| split; [| split; [| split]]]].
  - intros q st resp P N. rewrite serper_search_run, P.
    apply Z.eqb_neq in N. now rewrite N.
  - intros q st resp P N. rewrite serper_search_run, P.
    apply Z.eqb_eq in N. now rewrite N.
  - apply block_none.
  - intros i v resp r S N E P St F A.
    rewrite (main_drawn_reached i r v S F A), E.
    pose proof (fetch_payload i v r F) as Pl.
    rewrite E, serper_search_outcome, endpoint_url, P in Pl.
    apply Z.eqb_neq in St. rewrite St in Pl. injection Pl as <-.
    rewrite (block_none v (query i) N). now destruct v.
  - intros i v resp S N E P St Ok.
    destruct (main_drawn_done i v S Ok) as [r [F ->]]. rewrite E.
    pose proof (fetch_payload i v r F) as Pl.
    rewrite E, serper_search_outcome, endpoint_url, P in Pl.
    apply Z.eqb_neq in St. rewrite St in Pl. injection Pl as <-.
    rewrite (block_none v (query i) N). now destruct v.
  - intros q. cbn [block]. rewrite ai_answer_eq, content_none.
    now destruct (assistant_run (prompt_of q "")).
Qed.


(** C7.  When the call of the agent raises, the exception is the outcome
    of [main]: the call is the last event of the run, and all that was drawn
    in a section before it is the heading of the answer; no empty-state
    message is shown. *)
Theorem agent_failure_aborts_page i p e :
  In (Run p) (events (page_main i)) ->
  assistant_run p = inl e ->
  outcome (page_main i) = inl e
  /\ exists t, events (page_main i) = t ++ [Run p]
  /\ infos t = [(progress_placeholder, "🔍 Searching for information...")]
  /\ forall v, drawn v t = if same v Search then [(text_container, Markdown (heading Search) false)] else [].
Proof.
  intros Hin Hraise. apply prompts_In in Hin.
  destruct (searching_or_idle i) as [S | I].
  2: { rewrite (idle_prompts i I) in Hin. contradiction. }
  rewrite (main_prompts i S) in Hin.
  destruct (outcome (page_fetch i)) as [e' | r] eqn:F; [contradiction |].
  rewrite ai_answer_prompts in Hin.
  destruct (content_of (search_results r)) as [e' | c] eqn:C; [contradiction |].
  destruct Hin as [<- | []].
  assert (A : answer (query i) (search_results r)
              = ([answer_heading; Run (prompt_of (query i) c)], inl e)).
  { rewrite ai_answer_eq, C, Hraise. reflexivity. }
  assert (R : page_render i r
              = ([Ui progress_placeholder Cleared; answer_heading;
                  Run (prompt_of (query i) c)], inl e)).
  { rewrite (render_stops i r e); now rewrite A. }
  split.
  - rewrite (main_outcome i S), F. now rewrite R.
  - exists (preamble i ++ events (page_fetch i)
            ++ [Ui progress_placeholder Cleared; answer_heading]).
    split; [| split].
    + rewrite (main_events i S), F, R. cbn [events fst].
      rewrite <- !app_assoc. reflexivity.
    + rewrite !infos_app, preamble_infos.
      now rewrite (searching_infos _ (fetch_searching i)).
    + intros v. rewrite !drawn_app, preamble_drawn.
      rewrite (searching_drawn v _ (fetch_searching i)).
      now destruct v.
Qed.

End Page.

(** ** Two runs that differ in one response *)

Section TwoRuns.

Variable SERPER_API_KEY : option string.
Variable json_dumps : value -> string.
Variable post1 post2 :
  string -> list (string * option string) -> string -> result response.
Variable assistant_run : string -> result string.
Variable repr_other : value -> string.
Variable lib : library.

Local Abbreviation main1 :=
  (main SERPER_API_KEY json_dumps post1 assistant_run repr_other lib).
Local Abbreviation main2 :=
  (main SERPER_API_KEY json_dumps post2 assistant_run repr_other lib).
Local Abbreviation fetch1 := (fetch SERPER_API_KEY json_dumps post1).
Local Abbreviation fetch2 := (fetch SERPER_API_KEY json_dumps post2).
Local Abbreviation search1 := (serper_search SERPER_API_KEY json_dumps post1).
Local Abbreviation search2 := (serper_search SERPER_API_KEY json_dumps post2).
Local Abbreviation page_render := (render assistant_run repr_other lib).
Local Abbreviation page_gated := (gated assistant_run repr_other lib).
Local Abbreviation page_block := (block assistant_run repr_other lib).

Lemma search_agree v w q :
  agree_except v post1 post2 -> w <> v ->
  search1 q (search_type w) = search2 q (search_type w).
Proof.
  intros A N. rewrite !serper_search_run, endpoint_url. now rewrite (A w N).
Qed.

Lemma payload_agree v w i r1 r2 :
  agree_except v post1 post2 -> w <> v ->
  outcome (fetch1 i) = inr r1 -> outcome (fetch2 i) = inr r2 ->
  payload w r1 = payload w r2.
Proof.
  intros A N F1 F2.
  pose proof (fetch_payload SERPER_API_KEY json_dumps post1 i w r1 F1) as P1.
  pose proof (fetch_payload SERPER_API_KEY json_dumps post2 i w r2 F2) as P2.
  destruct (enabled i w); [| congruence].
  rewrite (search_agree v w (query i) A N) in P1.
  rewrite P1 in P2. now injection P2.
Qed.

Lemma gated_payload i r r' u :
  payload u r = payload u r' -> page_gated i r u = page_gated i r' u.
Proof. unfold gated. now intros ->. Qed.

Ltac others i r :=
  try rewrite (drawn_gated_other assistant_run repr_other lib i r Search)
    by reflexivity;
  try rewrite (drawn_gated_other assistant_run repr_other lib i r Maps)
    by reflexivity;
  try rewrite (drawn_gated_other assistant_run repr_other lib i r Images)
    by reflexivity;
  try rewrite (drawn_gated_other assistant_run repr_other lib i r Videos)
    by reflexivity;
  try rewrite (drawn_gated_other assistant_run repr_other lib i r Shopping)
    by reflexivity.

Ltac same_payloads i r r' P :=
  try rewrite (gated_payload i r r' Search) by (apply P; discriminate);
  try rewrite (gated_payload i r r' Maps) by (apply P; discriminate);
  try rewrite (gated_payload i r r' Images) by (apply P; discriminate);
  try rewrite (gated_payload i r r' Videos) by (apply P; discriminate);
  try rewrite (gated_payload i r r' Shopping) by (apply P; discriminate).

(** The sections above the one of [v] do not read the results of [v]. *)
Lemma render_above i r r' v w :
  (forall u, u <> v -> payload u r = payload u r') ->
  Shape.rank w < Shape.rank v ->
  drawn w (events (page_render i r)) = drawn w (events (page_render i r')).
Proof.
  intros P L. unfold render.
  destruct v, w; cbn [Shape.rank] in L; try lia; same_payloads i r r' P;
    repeat (rewrite ?(drawn_bind _); others i r; others i r';
            match goal with
            | |- context [match outcome ?m with _ => _ end] =>
                destruct (outcome m) as [? | []]
            end);
    rewrite ?(drawn_bind _); others i r; others i r'; reflexivity.
Qed.

(** Nor do the sections below it, when its block ends the same way on
    both results. *)
Lemma render_alike i r r' v w :
  (forall u, u <> v -> payload u r = payload u r') ->
  (outcome (page_gated i r v) = inr tt <-> outcome (page_gated i r' v) = inr tt) ->
  w <> v ->
  drawn w (events (page_render i r)) = drawn w (events (page_render i r')).
Proof.
  intros P [A1 A2] N. unfold render.
  destruct (outcome (page_gated i r v)) as [e1 | []] eqn:O1;
    destruct (outcome (page_gated i r' v)) as [e2 | []] eqn:O2;
    try (now discriminate A1); try (now discriminate A2); clear A1 A2.
  all: destruct v, w; try (now elim N); same_payloads i r r' P;
    repeat (rewrite ?(drawn_bind _), ?O1, ?O2; others i r; others i r';
            match goal with
            | |- context [match outcome ?m with _ => _ end] =>
                destruct (outcome m) as [? | []]
            end);
    rewrite ?(drawn_bind _), ?O1, ?O2; others i r; others i r'; reflexivity.
Qed.

Lemma fetch_agree v i p1 p2 :
  agree_except v post1 post2 ->
  outcome (search1 (query i) (search_type v)) = inr p1 ->
  outcome (search2 (query i) (search_type v)) = inr p2 ->
  match outcome (fetch1 i), outcome (fetch2 i) with
  | inl _, inl _ => True
  | inr r1, inr r2 => forall u, u <> v -> payload u r1 = payload u r2
  | _, _ => False
  end.
Proof.
  intros A S1 S2.
  assert (E : forall w, w <> v ->
                search1 (query i) (search_type w) = search2 (query i) (search_type w)).
  { intros w N. now apply (search_agree v). }
  rewrite !fetch_outcome. unfold search_if.
  destruct v;
    try (pose proof (E Search ltac:(discriminate)) as E0);
    try (pose proof (E Maps ltac:(discriminate)) as E1);
    try (pose proof (E Images ltac:(discriminate)) as E2);
    try (pose proof (E Videos ltac:(discriminate)) as E3);
    try (pose proof (E Shopping ltac:(discriminate)) as E4);
    clear E; cbn [search_type] in *;
    rewrite ?E0, ?E1, ?E2, ?E3, ?E4;
    destruct (show_maps i), (show_images i), (show_videos i), (show_shopping i);
    rewrite ?S1, ?S2, ?outcome_ret; cbn [rbind];
    repeat match goal with
           | |- context [rbind (outcome ?m) _] => destruct (outcome m); cbn [rbind]
           end;
    first [ exact I | intros u N; destruct u; try reflexivity; congruence ].
Qed.

(** C4, as amended.  Two runs on search services that answer alike on
    every vertical but one, whose search returns in both.  The sections
    above the one of that vertical are drawn alike, however the runs end: so
    a difference in the shopping response shows in no other section.  When
    its block ends the same way on both responses, without exception on both
    or with one on both, every other section is drawn alike; so do two runs
    that both end without exception.  When its block raises on one response,
    no section below it is drawn in that run. *)
Theorem sections_independent_unless_aborted v i :
  searching_for i ->
  agree_except v post1 post2 ->
  (outcome (main1 i) = inr tt -> outcome (main2 i) = inr tt ->
   forall w, w <> v -> drawn w (events (main1 i)) = drawn w (events (main2 i)))
  /\ (forall p1 p2,
        outcome (search1 (query i) (search_type v)) = inr p1 ->
        outcome (search2 (query i) (search_type v)) = inr p2 ->
        (forall w, Shape.rank w < Shape.rank v ->
           drawn w (events (main1 i)) = drawn w (events (main2 i)))
        /\ ((enabled i v = true ->
             (outcome (page_block v (query i) p1) = inr tt
              <-> outcome (page_block v (query i) p2) = inr tt)) ->
            forall w, w <> v ->
              drawn w (events (main1 i)) = drawn w (events (main2 i)))
        /\ (forall e,
              enabled i v = true ->
              outcome (page_block v (query i) p2) = inl e ->
              forall w, Shape.rank v < Shape.rank w ->
                drawn w (events (main2 i)) = [])).
Proof.
  intros S A. split.
  - intros Ok1 Ok2 w N.
    destruct (main_drawn_done SERPER_API_KEY json_dumps post1 assistant_run
                repr_other lib i w S Ok1) as [r1 [F1 ->]].
    destruct (main_drawn_done SERPER_API_KEY json_dumps post2 assistant_run
                repr_other lib i w S Ok2) as [r2 [F2 ->]].
    now rewrite (payload_agree v w i r1 r2 A N F1 F2).
  - intros p1 p2 S1 S2.
    pose proof (fetch_agree v i p1 p2 A S1 S2) as F.
    split; [| split].
    + intros w L. rewrite !main_drawn by assumption.
      destruct (outcome (fetch1 i)) as [e1 | r1], (outcome (fetch2 i)) as [e2 | r2];
        try contradiction; [reflexivity |].
      now apply (render_above i r1 r2 v w).
    + intros B w N. rewrite !main_drawn by assumption.
      destruct (outcome (fetch1 i)) as [e1 | r1] eqn:F1,
               (outcome (fetch2 i)) as [e2 | r2] eqn:F2;
        try contradiction; [reflexivity |].
      apply (render_alike i r1 r2 v w F); [| exact N].
      rewrite !gated_outcome.
      pose proof (fetch_payload SERPER_API_KEY json_dumps post1 i v r1 F1) as P1.
      pose proof (fetch_payload SERPER_API_KEY json_dumps post2 i v r2 F2) as P2.
      destruct (enabled i v); [| tauto].
      rewrite S1 in P1. rewrite S2 in P2.
      injection P1 as <-. injection P2 as <-. now apply B.
    + intros e E R w L. rewrite main_drawn by assumption.
      destruct (outcome (fetch2 i)) as [e2 | r2] eqn:F2; [reflexivity |].
      pose proof (fetch_payload SERPER_API_KEY json_dumps post2 i v r2 F2) as P2.
      rewrite E, S2 in P2. injection P2 as P2.
      apply (render_drawn_unreached assistant_run repr_other lib i r2 v e w E);
        [| exact L].
      now rewrite <- P2.
Qed.

End TwoRuns.

(** ** Fields and their defaults *)

Section Fields.

Variable repr_other : value -> string.
Variable lib : library.

Ltac fall_back :=
  intros H; simpl in H;
  repeat (destruct H as [H | H]; [injection H as <- <- |]);
  try contradiction;
  intros d L; cbn [fst snd];
  repeat match goal with
         | |- context [get (VDict ?d') ?k' ?x'] =>
             change (get (VDict d') k' x')
               with (inr (A := exn) (field k' x' d'))
         end;
  unfold field; cbn [lookup String.eqb Ascii.eqb Bool.eqb];
  rewrite ?L; reflexivity.

Lemma search_entry_falls_back k x :
  In (k, x) search_entry_defaults -> falls_back (search_entry repr_other) k x.
Proof. unfold search_entry. fall_back. Qed.

Lemma source_entry_falls_back i k x :
  In (k, x) source_entry_defaults ->
  falls_back (fun result => source_entry repr_other (i, result)) k x.
Proof. unfold source_entry. fall_back. Qed.

Lemma map_center_falls_back k x :
  In (k, x) map_center_defaults -> falls_back map_center k x.
Proof. unfold map_center. fall_back. Qed.

Lemma place_marker_falls_back k x :
  In (k, x) place_marker_defaults -> falls_back (place_marker repr_other lib) k x.
Proof. unfold place_marker. fall_back. Qed.

Lemma place_card_falls_back k x :
  In (k, x) place_card_defaults -> falls_back (place_card repr_other) k x.
Proof. unfold place_card. fall_back. Qed.

Lemma image_entry_falls_back i k x :
  In (k, x) image_entry_defaults ->
  falls_back (fun img => image_entry lib (i, img)) k x.
Proof. unfold image_entry, image_caption. fall_back. Qed.

Lemma is_youtube_falls_back k x :
  In (k, x) is_youtube_defaults -> falls_back is_youtube k x.
Proof. unfold is_youtube. fall_back. Qed.

Lemma video_entry_falls_back idx k x :
  In (k, x) video_entry_defaults ->
  falls_back (fun video => video_entry repr_other (idx, video)) k x.
Proof. unfold video_entry. fall_back. Qed.

Lemma product_card_falls_back k x :
  In (k, x) product_card_defaults -> falls_back (product_card repr_other) k x.
Proof. unfold product_card. fall_back. Qed.

(** C6, as amended.  Every field read from an item falls back to a fixed
    default when the item lacks it.  The default is a string for the fields
    of the web results, of the sources, of the videos and of the products;
    it is the number 0 for the coordinates of the center of the map, [None]
    for the coordinates of a marker and for the title an image is tested on,
    and the empty dict for the opening hours. *)
Theorem fields_fall_back_to_fixed_defaults :
  (forall k x, In (k, x) search_entry_defaults ->
               falls_back (search_entry repr_other) k x)
  /\ (forall i k x, In (k, x) source_entry_defaults ->
        falls_back (fun result => source_entry repr_other (i, result)) k x)
  /\ (forall k x, In (k, x) map_center_defaults -> falls_back map_center k x)
  /\ (forall k x, In (k, x) place_marker_defaults ->
        falls_back (place_marker repr_other lib) k x)
  /\ (forall k x, In (k, x) place_card_defaults ->
        falls_back (place_card repr_other) k x)
  /\ (forall i k x, In (k, x) image_entry_defaults ->
        falls_back (fun img => image_entry lib (i, img)) k x)
  /\ (forall k x, In (k, x) is_youtube_defaults -> falls_back is_youtube k x)
  /\ (forall idx k x, In (k, x) video_entry_defaults ->
        falls_back (fun video => video_entry repr_other (idx, video)) k x)
  /\ (forall k x, In (k, x) product_card_defaults ->
        falls_back (product_card repr_other) k x)
  /\ all_strings
       (search_entry_defaults ++ source_entry_defaults ++ is_youtube_defaults
        ++ video_entry_defaults ++ product_card_defaults) = true
  /\ filter (fun kx => negb (is_string (snd kx)))
       (map_center_defaults ++ place_marker_defaults ++ place_card_defaults
        ++ image_entry_defaults)
     = [("latitude", VInt 0); ("longitude", VInt 0);
        ("latitude", VNone); ("longitude", VNone);
        ("openingHours", VDict []); ("title", VNone)].
Proof.
  repeat split.
  - apply search_entry_falls_back.
  - apply source_entry_falls_back.
  - apply map_center_falls_back.
  - apply place_marker_falls_back.
  - apply place_card_falls_back.
  - apply image_entry_falls_back.
  - apply is_youtube_falls_back.
  - apply video_entry_falls_back.
  - apply product_card_falls_back.
Qed.

End Fields.

(** ** The map section *)

Section MapSection.

Variable repr_other : value -> string.
Variable lib : library.

Local Abbreviation marker := (place_marker repr_other lib).
Local Abbreviation card := (place_card repr_other).
Local Abbreviation entry := (place_entry repr_other).
Local Abbreviation section_of := (maps_section repr_other lib).

(** The markers of some places, all taken by [folium.Marker]. *)
Local Abbreviation markers_taken l :=
  (Forall (fun m => folium_Marker lib m = inr tt)
     (somes (map (marker_of repr_other) l))).

Lemma place_marker_dict d :
  marker (VDict d)
  = match marker_of repr_other (VDict d) with
    | Some m =>
        match folium_Marker lib m with
        | inl e => inl e
        | inr _ => inr (Some m)
        end
    | None => inr None
    end.
Proof.
  unfold place_marker, marker_of, get, field. cbn [rbind].
  now destruct (truthy _ && truthy _).
Qed.

Lemma place_marker_taken d :
  markers_taken [VDict d] ->
  marker (VDict d) = inr (marker_of repr_other (VDict d)).
Proof.
  rewrite place_marker_dict. cbn [map somes].
  destruct (marker_of repr_other (VDict d)) as [m |]; [| reflexivity].
  intros T. inversion T as [| m' l' Tm Tl]. now rewrite Tm.
Qed.

Lemma map_center_dict d : map_center (VDict d) = inr (center_of (VDict d)).
Proof. reflexivity. Qed.

Lemma collect_markers l :
  forallb is_dict l = true ->
  markers_taken l ->
  collect marker l = inr (map (marker_of repr_other) l).
Proof.
  induction l as [| p l IH]; [reflexivity |].
  intros H T. cbn [forallb] in H. apply andb_prop in H as [D H].
  destruct p as [| | | | | | d]; try discriminate.
  cbn [collect map]. cbn [map somes] in T.
  destruct (marker_of repr_other (VDict d)) as [m |] eqn:M.
  - inversion T as [| m' l' Tm Tl]. subst.
    rewrite place_marker_dict, M, Tm, (IH H Tl). reflexivity.
  - rewrite place_marker_dict, M, (IH H T). reflexivity.
Qed.

Lemma place_entry_eq p :
  entry p
  = match card p with
    | inl e => ([], inl e)
    | inr c => ([Ui info_col (Markdown c true)], inr tt)
    end.
Proof. unfold place_entry. rewrite bind_lift. now destruct (card p). Qed.


Lemma cards_app t t' : cards (t ++ t') = cards t ++ cards t'.
Proof.
  induction t as [| [u h d | p | p w] t IH]; simpl; auto.
  destruct p, w; simpl; auto. now rewrite IH.
Qed.



Lemma has_places_list d l :
  lookup "places" d = Some (VList l) ->
  has_places (VDict d) = inr (match l with [] => false | _ => true end).
Proof.
  intros H. unfold has_places, getitem. rewrite has_dict, H. cbn [rbind len].
  now destruct l.
Qed.






End MapSection.

(** ** The video section *)

Section Splitting.

Lemma append_empty s : (s ++ "")%string = s.
Proof. induction s; simpl; congruence. Qed.

Lemma append_cons s c t :
  ((s ++ String c "") ++ t)%string = (s ++ String c t)%string.
Proof. induction s; simpl; congruence. Qed.

Lemma split_from_cons sep skip cur s :
  exists x l, split_from sep skip cur s = x :: l.
Proof.
  revert skip cur. induction s as [| c s IH]; intros skip cur;
    cbn [split_from]; eauto.
  destruct skip; [destruct (String.prefix sep (String c s)) |]; eauto.
Qed.

Lemma last_cons {X} (x : X) l d : l <> [] -> last (x :: l) d = last l d.
Proof. destruct l; [congruence | reflexivity]. Qed.

(** Cutting at the first [&]. *)
Lemma split_amp_hd cur s :
  hd "" (split_from "&" 0 cur s) = (cur ++ before_first "&" s)%string.
Proof.
  revert cur. induction s as [| c s IH]; intros cur.
  - simpl. now rewrite append_empty.
  - cbn [split_from before_first].
    destruct (String.prefix "&" (String c s)); simpl.
    + now rewrite append_empty.
    + now rewrite IH, append_cons.
Qed.

Lemma prefix_v_eq c s :
  String.prefix "v=" (String c s) = true ->
  exists r, c = "v"%char /\ s = String "=" r.
Proof.
  cbn [String.prefix].
  destruct (ascii_dec "v"%char c) as [<- |]; [| discriminate].
  destruct s as [| c' r]; [discriminate |]. cbn [String.prefix].
  destruct (ascii_dec "="%char c') as [<- |]; [| discriminate]. eauto.
Qed.

(** Cutting after the last [v=]. *)
Lemma split_v_last n : forall s cur,
  String.length s <= n ->
  last (split_from "v=" 0 cur s) ""
  = if substring_of "v=" s then after_last "v=" s else (cur ++ s)%string.
Proof.
  induction n as [| n IH]; intros s cur L.
  - destruct s; [| simpl in L; lia]. simpl. now rewrite append_empty.
  - destruct s as [| c s]; [simpl; now rewrite append_empty |].
    cbn [split_from].
    destruct (String.prefix "v=" (String c s)) eqn:P.
    + destruct (prefix_v_eq c s P) as [r [-> ->]].
      cbn [String.length Nat.sub split_from].
      destruct (split_from_cons "v=" 0 "" r) as [x [l X]].
      rewrite last_cons by (rewrite X; discriminate).
      rewrite IH by (simpl in L; lia).
      cbn [substring_of after_last]. rewrite P.
      change (String.prefix "v=" (String "=" r)) with false.
      cbn [orb drop String.length append].
      now destruct (substring_of "v=" r).
    + rewrite IH by (simpl in L; lia).
      cbn [substring_of after_last]. rewrite P. cbn [orb].
      destruct (substring_of "v=" s); [reflexivity |]. apply append_cons.
Qed.

(** The id of a video is what follows the last [v=] of its link, up to
    the first [&]. *)
Lemma video_id_spec link :
  video_id_of link = before_first "&" (after_last "v=" link).
Proof.
  unfold video_id_of, split. rewrite split_amp_hd. cbn [append].
  rewrite (split_v_last (String.length link)) by lia.
  destruct (substring_of "v=" link) eqn:S; [reflexivity |].
  cbn [append]. f_equal.
  clear - S. induction link as [| c s IH]; [reflexivity |].
  cbn [substring_of] in S. apply orb_false_iff in S as [P S].
  cbn [after_last]. now rewrite S, P.
Qed.

End Splitting.

Section VideoSection.

Variable repr_other : value -> string.

Local Abbreviation entry := (video_entry repr_other).
Local Abbreviation section_of := (videos_section repr_other).

Lemma is_youtube_dict d :
  is_youtube (VDict d)
  = match field "source" (VStr "") d with
    | VStr s => inr (String.eqb (lower (strip s)) "youtube")
    | _ => inl AttributeError
    end.
Proof.
  unfold is_youtube, get, field. cbn [rbind].
  now destruct (match lookup "source" d with Some x => x | None => VStr "" end).
Qed.

Lemma is_youtube_inr video b :
  is_youtube video = inr b -> is_dict video = true /\ source_is_youtube video = b.
Proof.
  destruct video as [| | | | | | d]; try discriminate.
  rewrite is_youtube_dict. unfold source_is_youtube.
  destruct (field "source" (VStr "") d); try discriminate.
  now intros [= <-].
Qed.

Lemma youtube_only_inr l ys :
  youtube_only l = inr ys ->
  ys = filter source_is_youtube l /\ forallb is_dict l = true.
Proof.
  revert ys. induction l as [| video l IH]; simpl; intros ys H.
  - injection H as <-. auto.
  - destruct (is_youtube video) as [e | b] eqn:Y; [discriminate |].
    destruct (youtube_only l) as [e | kept]; [discriminate |].
    cbn [rbind] in H. injection H as <-.
    destruct (is_youtube_inr _ _ Y) as [D ->].
    destruct (IH kept eq_refl) as [-> F]. now rewrite D, F.
Qed.

Lemma youtube_only_ok l :
  forallb video_ok l = true -> youtube_only l = inr (filter source_is_youtube l).
Proof.
  induction l as [| video l IH]; simpl; [reflexivity |].
  intros H. apply andb_prop in H as [V H]. rewrite (IH H).
  destruct video as [| | | | | | d]; try discriminate.
  rewrite is_youtube_dict. unfold source_is_youtube.
  cbn [video_ok] in V. apply andb_prop in V as [S _].
  unfold str_or_absent, field in *.
  destruct (lookup "source" d) as [[] |]; try discriminate; reflexivity.
Qed.

Lemma youtube_only_strs l ys : youtube_only (map VStr l) = inr ys -> ys = [].
Proof. destruct l; simpl; [now intros [= <-] | discriminate]. Qed.

Lemma filter_dicts (f : value -> bool) l :
  forallb is_dict l = true -> forallb is_dict (filter f l) = true.
Proof.
  induction l as [| x l IH]; simpl; [reflexivity |].
  intros H. apply andb_prop in H as [D H].
  destruct (f x); simpl; [rewrite D |]; auto.
Qed.

Lemma firstn_dicts n l :
  forallb is_dict l = true -> forallb is_dict (firstn n l) = true.
Proof.
  revert l. induction n as [| n IH]; intros [| x l]; simpl; auto.
  intros H. apply andb_prop in H as [D H]. rewrite D. simpl. auto.
Qed.

(** What the test of the link leaves of a video. *)
Lemma embed_url_of_link d :
  match embed_url_of (field "link" (VStr "#") d) with
  | inr (Some u) => exists s, watch_link (VDict d) = Some s /\ u = embed s
  | inr None => watch_link (VDict d) = None
  | inl _ => watch_link (VDict d) = None
  end.
Proof.
  unfold embed_url_of, watch_link.
  destruct (field "link" (VStr "#") d) as [| | | | s | l | d']; cbn [contains rbind];
    auto.
  - destruct (substring_of _ s); cbn [as_str rbind]; auto.
    exists s. split; [reflexivity |]. unfold embed. now rewrite video_id_spec.
  - now destruct (existsb _ l).
  - now destruct (lookup _ d').
Qed.

Lemma video_entry_eq idx d :
  entry (idx, VDict d)
  = match embed_url_of (field "link" (VStr "#") d) with
    | inl e => ([], inl e)
    | inr (Some u) =>
        ([Ui (video_cols (idx mod 3)) (Video u);
          Ui (video_cols (idx mod 3))
            (Markdown
               ("**" ++ fmt repr_other (field "title" (VStr "Unknown Video") d)
                ++ "**" ++ nl ++ nl ++ "📺 "
                ++ fmt repr_other (field "channel" (VStr "Unknown Channel") d)
                ++ " | ⏱️ "
                ++ fmt repr_other (field "duration" (VStr "Unknown duration") d))%string
               false)], inr tt)
    | inr None => ([], inr tt)
    end.
Proof.
  unfold video_entry, get. rewrite !bind_lift. fold (field "link" (VStr "#") d).
  destruct (embed_url_of (field "link" (VStr "#") d)) as [e | [u |]]; reflexivity.
Qed.

Lemma videos_app t t' : videos (t ++ t') = videos t ++ videos t'.
Proof.
  induction t as [| [u h d | p | p w] t IH]; simpl; auto.
  destruct w; simpl; auto. now rewrite IH.
Qed.

(** The loop shows the watch links of the videos it gets through. *)
Lemma video_entries ys : forall n,
  forallb is_dict ys = true ->
  exists j,
    videos (events (for_each (enumerate n ys) entry)) = embeds (firstn j ys)
    /\ (forallb video_ok ys = true ->
        j = List.length ys
        /\ outcome (for_each (enumerate n ys) entry) = inr tt).
Proof.
  induction ys as [| video ys IH]; intros n H.
  - exists 0. simpl. auto.
  - simpl in H. apply andb_prop in H as [D H].
    destruct video as [| | | | | | d]; try discriminate.
    destruct (IH (S n) H) as [j [E Ok]].
    cbn [enumerate for_each]. rewrite video_entry_eq.
    pose proof (embed_url_of_link d) as W.
    destruct (embed_url_of (field "link" (VStr "#") d)) as [e | [u |]] eqn:U.
    + exists 0. split; [reflexivity |]. intros V. exfalso.
      cbn [forallb video_ok] in V. apply andb_prop in V as [V _].
      apply andb_prop in V as [_ V]. clear - V U.
      unfold embed_url_of, str_or_absent, field in *.
      destruct (lookup "link" d) as [[] |]; try discriminate;
        cbn [contains rbind] in U;
        match type of U with
        | context [if ?b then _ else _] => destruct b; discriminate
        end.
    + destruct W as [s [W ->]]. exists (S j). split.
      * cbn [bind]. destruct (for_each _ _) as [t r]. cbn [events fst app videos] in *.
        cbn [firstn embeds flat_map]. rewrite W. cbn [app]. f_equal. exact E.
      * intros V. cbn [forallb] in V. apply andb_prop in V as [_ V].
        destruct (Ok V) as [-> O]. split; [reflexivity |].
        cbn [bind]. destruct (for_each _ _) as [t r]. exact O.
    + exists (S j). split.
      * cbn [bind]. destruct (for_each _ _) as [t r]. cbn [events fst app videos] in *.
        cbn [firstn embeds flat_map]. rewrite W. exact E.
      * intros V. cbn [forallb] in V. apply andb_prop in V as [_ V].
        destruct (Ok V) as [-> O]. split; [reflexivity |].
        cbn [bind]. destruct (for_each _ _) as [t r]. exact O.
Qed.



(** The loop over the first six YouTube videos. *)
Lemma shown_videos ys :
  forallb is_dict ys = true ->
  exists j,
    videos (events (for_each (enumerate 0 (firstn 6 ys)) entry))
    = embeds (firstn j (firstn 6 ys))
    /\ (forallb video_ok ys = true ->
        videos (events (for_each (enumerate 0 (firstn 6 ys)) entry))
        = embeds (firstn 6 ys)
        /\ outcome (for_each (enumerate 0 (firstn 6 ys)) entry) = inr tt).
Proof.
  intros D. destruct (video_entries (firstn 6 ys) 0 (firstn_dicts 6 ys D))
    as [j [E Ok]].
  exists j. split; [exact E |]. intros V.
  assert (V6 : forallb video_ok (firstn 6 ys) = true).
  { clear - V. revert V. generalize 6. induction ys as [| y ys IH];
      intros [| n] V; simpl in *; auto.
    apply andb_prop in V as [-> V]. simpl. auto. }
  destruct (Ok V6) as [-> O]. split; [| exact O].
  now rewrite E, firstn_all.
Qed.

(** The section on a list of videos. *)
Lemma videos_section_list d l :
  lookup "videos" d = Some (VList l) ->
  (exists j,
      videos (events (section_of (VDict d)))
      = embeds (firstn j (firstn 6 (filter source_is_youtube l))))
  /\ (forallb video_ok l = true ->
      videos (events (section_of (VDict d)))
      = embeds (firstn 6 (filter source_is_youtube l))
      /\ outcome (section_of (VDict d)) = inr tt).
Proof.
  intros H. unfold videos_section, getitem.
  rewrite bind_emit, bind_lift, has_dict, H. cbv beta iota.
  rewrite bind_lift. cbv beta iota. rewrite bind_lift. cbn [iter].
  rewrite bind_lift. cbn [events outcome fst snd videos].
  destruct (youtube_only l) as [e | ys] eqn:Y.
  - split; [exists 0; reflexivity |]. intros V.
    now rewrite (youtube_only_ok l V) in Y.
  - destruct (youtube_only_inr l ys Y) as [-> D].
    pose proof (filter_dicts source_is_youtube l D) as Dy.
    destruct (filter source_is_youtube l) as [| y ys] eqn:F.
    + split; [exists 0; reflexivity |]. intros _. split; reflexivity.
    + rewrite bind_emit. cbn [events outcome fst snd videos].
      destruct (shown_videos (y :: ys) Dy) as [j [E Ok]].
      split; [exists j; exact E |]. intros V. apply Ok.
      rewrite <- F. clear - V. induction l as [| x l IH]; simpl in *; auto.
      apply andb_prop in V as [Vx V].
      destruct (source_is_youtube x); simpl; [rewrite Vx |]; auto.
Qed.



End VideoSection.

(** ** The requests of a run, and its stages *)

Section Stages.
Import Shape.

Lemma requests_app t t' : requests (t ++ t') = requests t ++ requests t'.
Proof. apply filter_app. Qed.

Lemma posts_requests t : posts t = [] -> requests t = [].
Proof.
  induction t as [| [u h d | p | p w] t IH]; simpl; auto; discriminate.
Qed.

Lemma requests_bind {A B} (m : M A) (k : A -> M B) :
  requests (events (bind m k))
  = requests (events m)
    ++ match outcome m with inr a => requests (events (k a)) | inl _ => [] end.
Proof. rewrite events_bind, requests_app. now destruct (outcome m). Qed.

Lemma requests_with_spinner {A} (m : M A) :
  requests (events (with_spinner m)) = requests (events m).
Proof.
  rewrite with_spinner_events. unfold requests. simpl.
  rewrite filter_app. simpl. apply app_nil_r.
Qed.

Lemma confined_rendering v t :
  forallb (confined v) t = true -> forallb rendering t = true.
Proof.
  rewrite !forallb_forall. intros H e I. unfold rendering.
  apply existsb_exists. exists v. split; [destruct v; simpl; tauto | auto].
Qed.

End Stages.

Section Requests.
Import Shape.

Variable SERPER_API_KEY : option string.
Variable json_dumps : value -> string.
Variable requests_post :
  string -> list (string * option string) -> string -> result response.
Variable assistant_run : string -> result string.
Variable repr_other : value -> string.
Variable lib : library.

Local Abbreviation page_main :=
  (main SERPER_API_KEY json_dumps requests_post assistant_run repr_other lib).
Local Abbreviation page_fetch := (fetch SERPER_API_KEY json_dumps requests_post).
Local Abbreviation search := (serper_search SERPER_API_KEY json_dumps requests_post).
Local Abbreviation page_search_if :=
  (search_if SERPER_API_KEY json_dumps requests_post).
Local Abbreviation page_render := (render assistant_run repr_other lib).
Local Abbreviation page_gated := (gated assistant_run repr_other lib).
Local Abbreviation page_block := (block assistant_run repr_other lib).
Local Abbreviation answer := (ai_answer assistant_run repr_other).
Local Abbreviation content_of := (format_search_content repr_other).
Local Abbreviation hdrs := (headers SERPER_API_KEY).
Local Abbreviation body q := (json_dumps (VDict [("q", VStr q)])).

(** The requests of the verticals whose toggle is on, in the order of the
    page. *)
Local Abbreviation asked i :=
  (map (fun v => Post (url v) hdrs (body (query i))) (filter (enabled i) verticals)).

(** The searches of the spinner block, one after the other. *)
Local Abbreviation searches i :=
  (bind (search (query i) "search") (fun s =>
   bind (page_search_if (show_maps i) (query i) "maps") (fun m =>
   bind (page_search_if (show_images i) (query i) "images") (fun im =>
   bind (page_search_if (show_videos i) (query i) "videos") (fun v =>
   bind (page_search_if (show_shopping i) (query i) "shopping") (fun sh =>
   ret (Results s m im v sh))))))).

Lemma searches_posts i : forallb is_post (events (searches i)) = true.
Proof.
  repeat (apply all_bind; [| intros]);
    rewrite ?search_if_events, ?serper_search_events;
    repeat match goal with |- context [if ?b then _ else _] => destruct b end;
    reflexivity.
Qed.

Lemma fetch_events i :
  events (page_fetch i)
  = Ui page (Spinner true) :: events (searches i) ++ [Ui page (Spinner false)].
Proof. now rewrite fetch_eq, with_spinner_events. Qed.

Ltac returned H :=
  first [ destruct (H Search eq_refl) as [? ?]; cbn [search_type] in *; congruence
        | destruct (H Maps eq_refl) as [? ?]; cbn [search_type] in *; congruence
        | destruct (H Images eq_refl) as [? ?]; cbn [search_type] in *; congruence
        | destruct (H Videos eq_refl) as [? ?]; cbn [search_type] in *; congruence
        | destruct (H Shopping eq_refl) as [? ?]; cbn [search_type] in *; congruence ].

(** The requests of the spinner block: an initial part of the requests
    asked for, all of them when every search returns. *)
Lemma fetch_requests i :
  exists later,
    asked i = requests (events (page_fetch i)) ++ later
    /\ (forall r, outcome (page_fetch i) = inr r -> later = [])
    /\ ((forall v, enabled i v = true ->
           exists x, outcome (search (query i) (search_type v)) = inr x) ->
        exists r, outcome (page_fetch i) = inr r).
Proof.
  rewrite fetch_eq, requests_with_spinner, !with_spinner_outcome.
  destruct i as [[] [] [] [] q b];
    cbn [show_maps show_images show_videos show_shopping query enabled verticals
         filter map url search_if];
    repeat (rewrite ?requests_bind, ?outcome_bind, ?serper_search_events,
              ?outcome_ret, ?events_ret;
            cbv beta iota;
            try match goal with
                | |- context [match outcome ?m with _ => _ end] =>
                    destruct (outcome m) as [? | ?] eqn:?
                end);
    cbn [requests filter is_post app];
    eexists; (split; [reflexivity |]); split;
    try (intros r'; discriminate);
    try (intros; reflexivity);
    try (intros H; returned H);
    try (intros; eexists; reflexivity).
Qed.

Lemma main_requests i :
  searching_for i ->
  requests (events (page_main i)) = requests (events (page_fetch i)).
Proof.
  intros S. rewrite (main_events _ _ _ _ _ _ i S), !requests_app.
  rewrite (posts_requests _ (preamble_posts i)). cbn [app].
  destruct (outcome (page_fetch i)) as [e | r]; [apply app_nil_r |].
  rewrite (posts_requests (events (page_render i r))); [apply app_nil_r |].
  apply (allowed_posts i), render_allowed.
Qed.

(** The first of the enabled searches that raises ends the spinner
    block. *)
Lemma fetch_fails i v e :
  enabled i v = true ->
  outcome (search (query i) (search_type v)) = inl e ->
  exists w e',
    enabled i w = true
    /\ outcome (search (query i) (search_type w)) = inl e'
    /\ outcome (page_fetch i) = inl e'.
Proof.
  intros E F.
  destruct (outcome (page_fetch i)) as [e' | r] eqn:O.
  - revert O. rewrite fetch_eq, with_spinner_outcome.
    destruct i as [[] [] [] [] q b];
      cbn [show_maps show_images show_videos show_shopping query enabled
           search_if] in *;
      repeat (rewrite ?outcome_bind, ?outcome_ret; cbv beta iota;
              try match goal with
                  | |- context [match outcome ?m with _ => _ end] =>
                      destruct (outcome m) as [? | ?] eqn:?
                  end);
      try discriminate;
      intros [= <-];
      first [ exists Search; eexists; repeat split; eassumption
            | exists Maps; eexists; repeat split; eassumption
            | exists Images; eexists; repeat split; eassumption
            | exists Videos; eexists; repeat split; eassumption
            | exists Shopping; eexists; repeat split; eassumption ].
  - pose proof (fetch_payload _ _ _ i v r O) as P. rewrite E in P. congruence.
Qed.

(** The rendering, block after block: each block is there in full, or not
    at all. *)
Lemma render_events i r :
  exists ts : vertical -> list event,
    events (page_render i r)
    = Ui progress_placeholder Cleared
      :: ts Search ++ ts Maps ++ ts Images ++ ts Videos ++ ts Shopping
    /\ (forall v, ts v = events (page_gated i r v) \/ ts v = []).
Proof.
  pose (pick := fun (a b c d e : list event) (v : vertical) =>
                  match v with
                  | Search => a | Maps => b | Images => c | Videos => d
                  | Shopping => e
                  end).
  unfold render. rewrite bind_emit. cbn [events fst].
  repeat (rewrite events_bind;
          match goal with
          | |- context [match outcome ?m with _ => _ end] =>
              destruct (outcome m) as [? | []]
          end).
  - exists (pick (events (page_gated i r Search)) [] [] [] []).
    split; [now rewrite !app_nil_r | intros []; simpl; auto].
  - exists (pick (events (page_gated i r Search)) (events (page_gated i r Maps))
              [] [] []).
    split; [now rewrite !app_nil_r | intros []; simpl; auto].
  - exists (pick (events (page_gated i r Search)) (events (page_gated i r Maps))
              (events (page_gated i r Images)) [] []).
    split; [now rewrite !app_nil_r | intros []; simpl; auto].
  - exists (pick (events (page_gated i r Search)) (events (page_gated i r Maps))
              (events (page_gated i r Images)) (events (page_gated i r Videos)) []).
    split; [now rewrite !app_nil_r | intros []; simpl; auto].
  - exists (pick (events (page_gated i r Search)) (events (page_gated i r Maps))
              (events (page_gated i r Images)) (events (page_gated i r Videos))
              (events (page_gated i r Shopping))).
    split; [reflexivity | intros []; simpl; auto].
Qed.

Lemma render_rendering i r :
  exists t,
    events (page_render i r) = Ui progress_placeholder Cleared :: t
    /\ forallb rendering t = true.
Proof.
  destruct (render_events i r) as [ts [E T]].
  eexists. split; [exact E |].
  assert (C : forall v, forallb rendering (ts v) = true).
  { intros v. destruct (T v) as [-> | ->]; [| reflexivity].
    apply (confined_rendering v), gated_confined. }
  now rewrite !forallb_app, !C.
Qed.

(** X1.  [serper_search] raises what [requests.post] raises, and what
    [response.json()] raises on a response of status 200; nothing else. *)
Theorem search_raises_from_request_or_body q st e :
  outcome (search q st) = inl e
  <-> (requests_post (endpoint st) hdrs (body q) = inl e
       \/ exists resp,
            requests_post (endpoint st) hdrs (body q) = inr resp
            /\ status_code resp = 200%Z
            /\ json resp = inl e).
Proof.
  rewrite serper_search_outcome.
  destruct (requests_post (endpoint st) hdrs (body q)) as [e' | resp].
  - split; [intros [= ->]; now left |].
    intros [[= ->] | [resp [[=] _]]]. reflexivity.
  - destruct (Z.eqb (status_code resp) 200) eqn:S.
    + apply Z.eqb_eq in S. split.
      * intros J. right. exists resp. auto.
      * intros [[=] | [resp' [[= <-] [_ J]]]]. exact J.
    + apply Z.eqb_neq in S. split; [discriminate |].
      intros [[=] | [resp' [[= <-] [S' _]]]]. contradiction.
Qed.

(** X2.  When a search of a run raises, the run ends with the exception of a
    search: the agent is not called, nothing is drawn in any section, the
    progress message stays, and the spinner is taken down. *)
Theorem failed_search_aborts_page i v e :
  searching_for i ->
  enabled i v = true ->
  outcome (search (query i) (search_type v)) = inl e ->
  exists w e',
    enabled i w = true
    /\ outcome (search (query i) (search_type w)) = inl e'
    /\ outcome (page_main i) = inl e'
    /\ prompts (events (page_main i)) = []
    /\ (forall u, drawn u (events (page_main i)) = [])
    /\ ~ In (Ui progress_placeholder Cleared) (events (page_main i))
    /\ exists t, events (page_main i) = t ++ [Ui page (Spinner false)].
Proof.
  intros S E F. destruct (fetch_fails i v e E F) as [w [e' [Ew [Fw O]]]].
  exists w, e'. split; [exact Ew |]. split; [exact Fw |].
  split; [| split; [| split; [| split]]].
  - now rewrite (main_outcome _ _ _ _ _ _ i S), O.
  - now rewrite (main_prompts _ _ _ _ _ _ i S), O.
  - intros u. now rewrite (main_drawn _ _ _ _ _ _ i u S), O.
  - rewrite (main_events _ _ _ _ _ _ i S), O, app_nil_r. intros I.
    apply in_app_or in I as [I | I].
    + clear - I. destruct i as [[] [] [] [] q b]; simpl in I;
        repeat (destruct I as [I | I]; [discriminate |]); contradiction.
    + pose proof (fetch_searching SERPER_API_KEY json_dumps requests_post i) as A.
      rewrite forallb_forall in A. specialize (A _ I). discriminate.
  - rewrite (main_events _ _ _ _ _ _ i S), O, app_nil_r, fetch_events.
    exists (preamble i ++ Ui page (Spinner true) :: events (searches i)).
    now rewrite <- app_assoc.
Qed.

(** X3.  Without the button, or on an empty query, [main] draws the title, the
    sidebar and the search box and nothing else: no request, no call of the
    agent, no section.  Pressed on a query, it makes the web search. *)
Theorem idle_page_makes_no_request i :
  (search_button i = false \/ query i = "" ->
   page_main i = (events controls, inr tt)
   /\ requests (events (page_main i)) = []
   /\ prompts (events (page_main i)) = []
   /\ forall v, drawn v (events (page_main i)) = [])
  /\ (search_button i = true -> query i <> "" ->
      exists t,
        requests (events (page_main i))
        = Post SEARCH_URL hdrs (body (query i)) :: t).
Proof.
  split.
  - intros H.
    assert (I : search_button i && truthy (VStr (query i)) = false).
    { destruct H as [-> | ->]; [reflexivity | apply andb_false_r]. }
    rewrite (main_idle _ _ _ _ _ _ i I).
    repeat split.
  - intros B Q. assert (S : searching_for i) by (split; assumption).
    rewrite (main_requests i S), fetch_eq, requests_with_spinner, requests_bind.
    rewrite serper_search_events. simpl. eauto.
Qed.

(** X4.  The searches of a run are posted in the order of the page (web, maps,
    images, videos, products), for the verticals whose toggle is on, all with
    the same headers and the same body: the requests of a run are an initial
    part of that list, and the whole list when every search returns. *)
Theorem searches_posted_in_page_order i :
  searching_for i ->
  (exists later, asked i = requests (events (page_main i)) ++ later)
  /\ ((forall v, enabled i v = true ->
         exists x, outcome (search (query i) (search_type v)) = inr x) ->
      requests (events (page_main i)) = asked i).
Proof.
  intros S. rewrite (main_requests i S).
  destruct (fetch_requests i) as [later [E [L R]]]. split.
  - exists later. exact E.
  - intros H. destruct (R H) as [r O]. rewrite E, (L r O). now rewrite app_nil_r.
Qed.

(** X5.  A run goes by stages: what is drawn before the searches, with the
    progress message; the spinner, and under it the requests and nothing
    else; then, once every search has returned, the progress message is taken
    down and the sections are drawn, with no request any more.  When a
    search raises, nothing follows the spinner. *)
Theorem searches_precede_rendering i :
  searching_for i ->
  exists posted shown,
    events (page_main i)
    = preamble i
      ++ Ui page (Spinner true) :: posted ++ Ui page (Spinner false) :: shown
    /\ In (Ui progress_placeholder (Info "🔍 Searching for information..."))
         (preamble i)
    /\ forallb is_post posted = true
    /\ requests shown = []
    /\ match outcome (page_fetch i) with
       | inl _ => shown = []
       | inr _ =>
           exists t,
             shown = Ui progress_placeholder Cleared :: t
             /\ forallb rendering t = true
       end.
Proof.
  intros S.
  exists (events (searches i)),
    (match outcome (page_fetch i) with
     | inr r => events (page_render i r)
     | inl _ => []
     end).
  split; [| split; [| split; [| split]]].
  - rewrite (main_events _ _ _ _ _ _ i S), fetch_events.
    cbn [app]. now rewrite <- app_assoc.
  - unfold preamble. apply in_or_app. right. simpl. auto.
  - apply searches_posts.
  - destruct (outcome (page_fetch i)) as [e | r]; [reflexivity |].
    apply posts_requests, (allowed_posts i), render_allowed.
  - destruct (outcome (page_fetch i)) as [e | r]; [reflexivity |].
    apply render_rendering.
Qed.

(** X6.  The agent is called once in a run at most; and once, on the prompt
    made of the query and of the web results, when every search returns and
    the web results can be formatted. *)
Theorem agent_called_at_most_once i :
  List.length (prompts (events (page_main i))) <= 1
  /\ (forall r c,
        searching_for i ->
        outcome (page_fetch i) = inr r ->
        content_of (search_results r) = inr c ->
        prompts (events (page_main i)) = [prompt_of (query i) c]).
Proof.
  split.
  - destruct (searching_or_idle i) as [S | I].
    + rewrite (main_prompts _ _ _ _ _ _ i S).
      destruct (outcome (page_fetch i)) as [e | r]; [simpl; lia |].
      rewrite ai_answer_prompts.
      destruct (content_of (search_results r)); simpl; lia.
    + rewrite (idle_prompts _ _ _ _ _ _ i I). simpl. lia.
  - intros r c S O C.
    now rewrite (main_prompts _ _ _ _ _ _ i S), O, ai_answer_prompts, C.
Qed.

End Requests.

(** ** The sections, one after the other *)

Section Order.
Import Shape.

Lemma drawn_in_app t t' : drawn_in (t ++ t') = drawn_in t ++ drawn_in t'.
Proof.
  induction t as [| [u h d | p | p w] t IH]; simpl; auto.
  destruct (section p); simpl; now rewrite IH.
Qed.

Lemma searching_drawn_in t : forallb searching t = true -> drawn_in t = [].
Proof.
  induction t as [| [u h d | p | p x] t IH]; simpl; auto; try discriminate;
    intros H; apply andb_prop in H as [H1 H]; auto.
  destruct p; try discriminate. simpl. auto.
Qed.

Lemma preamble_drawn_in i : drawn_in (preamble i) = [].
Proof. destruct i as [[] [] [] [] q b]; reflexivity. Qed.

Lemma confined_drawn_in v t :
  forallb (confined v) t = true ->
  drawn_in t = repeat v (List.length (drawn_in t)).
Proof.
  induction t as [| [u h d | p | p w] t IH]; simpl; auto; try discriminate;
    intros H; apply andb_prop in H as [H1 H]; auto.
  unfold in_section in H1. destruct (section p) as [s |]; [| discriminate].
  apply same_eq in H1. subst s. simpl. f_equal. auto.
Qed.

Lemma has_falsy k r : truthy r = false -> has k r = inr false.
Proof. unfold has. now intros ->. Qed.

End Order.

Section Sections.
Import Shape.

Variable SERPER_API_KEY : option string.
Variable json_dumps : value -> string.
Variable requests_post :
  string -> list (string * option string) -> string -> result response.
Variable assistant_run : string -> result string.
Variable repr_other : value -> string.
Variable lib : library.

Local Abbreviation page_main :=
  (main SERPER_API_KEY json_dumps requests_post assistant_run repr_other lib).
Local Abbreviation page_fetch := (fetch SERPER_API_KEY json_dumps requests_post).
Local Abbreviation page_render := (render assistant_run repr_other lib).
Local Abbreviation page_gated := (gated assistant_run repr_other lib).
Local Abbreviation page_block := (block assistant_run repr_other lib).

Lemma render_drawn_in i r :
  exists n1 n2 n3 n4 n5,
    drawn_in (events (page_render i r))
    = repeat Search n1 ++ repeat Maps n2 ++ repeat Images n3
      ++ repeat Videos n4 ++ repeat Shopping n5.
Proof.
  destruct (render_events assistant_run repr_other lib i r) as [ts [E T]].
  assert (C : forall v, drawn_in (ts v) = repeat v (List.length (drawn_in (ts v)))).
  { intros v. apply confined_drawn_in.
    destruct (T v) as [-> | ->]; [apply gated_confined | reflexivity]. }
  rewrite E. cbn [drawn_in section]. rewrite !drawn_in_app.
  rewrite (C Search), (C Maps), (C Images), (C Videos), (C Shopping).
  eauto 6.
Qed.

(** X7.  The widgets of the sections are drawn section after section, in the
    order of the page: the answer, the map, the images, the videos, the
    products. *)
Theorem sections_drawn_in_page_order i :
  exists n1 n2 n3 n4 n5,
    drawn_in (events (page_main i))
    = repeat Search n1 ++ repeat Maps n2 ++ repeat Images n3
      ++ repeat Videos n4 ++ repeat Shopping n5.
Proof.
  destruct (searching_or_idle i) as [S | I].
  - rewrite (main_events _ _ _ _ _ _ i S), !drawn_in_app, preamble_drawn_in.
    rewrite (searching_drawn_in _ (fetch_searching _ _ _ i)). cbn [app].
    destruct (outcome (page_fetch i)) as [e | r].
    + exists 0, 0, 0, 0, 0. reflexivity.
    + apply render_drawn_in.
  - rewrite (main_idle _ _ _ _ _ _ i I). exists 0, 0, 0, 0, 0. reflexivity.
Qed.

Ltac others i r :=
  try rewrite (drawn_gated_other assistant_run repr_other lib i r Search) by reflexivity;
  try rewrite (drawn_gated_other assistant_run repr_other lib i r Maps) by reflexivity;
  try rewrite (drawn_gated_other assistant_run repr_other lib i r Images) by reflexivity;
  try rewrite (drawn_gated_other assistant_run repr_other lib i r Videos) by reflexivity;
  try rewrite (drawn_gated_other assistant_run repr_other lib i r Shopping) by reflexivity.

(** X8.  When the block of a section raises, the run ends with its exception:
    the sections above it are drawn in full, the section itself as far as it
    got, and the sections below it not at all. *)
Theorem failed_section_hides_sections_below i r v e :
  searching_for i ->
  outcome (page_fetch i) = inr r ->
  enabled i v = true ->
  outcome (page_block v (query i) (payload v r)) = inl e ->
  (forall u, rank u < rank v -> enabled i u = true ->
     outcome (page_block u (query i) (payload u r)) = inr tt) ->
  outcome (page_main i) = inl e
  /\ (forall w, rank v < rank w -> drawn w (events (page_main i)) = [])
  /\ (forall u, rank u <= rank v -> enabled i u = true ->
        drawn u (events (page_main i))
        = drawn u (events (page_block u (query i) (payload u r)))).
Proof.
  intros S O E F A.
  assert (G : forall u, rank u < rank v -> outcome (page_gated i r u) = inr tt).
  { intros u L. rewrite gated_outcome.
    destruct (enabled i u) eqn:Eu; [now apply A | reflexivity]. }
  assert (Gv : outcome (page_gated i r v) = inl e).
  { now rewrite gated_outcome, E. }
  split; [| split].
  - rewrite (main_outcome _ _ _ _ _ _ i S), O. unfold render. rewrite outcome_bind.
    cbn [emit outcome snd].
    destruct v; cbn [rank] in G;
      rewrite ?outcome_bind, ?(G Search), ?(G Maps), ?(G Images), ?(G Videos)
        by (cbn [rank]; lia);
      rewrite ?outcome_bind, ?Gv; reflexivity.
  - intros w L. rewrite (main_drawn _ _ _ _ _ _ i w S), O. unfold render.
    rewrite drawn_bind. cbn [emit events outcome fst snd drawn].
    assert (P : in_section w progress_placeholder = false) by now destruct w.
    rewrite P. cbn [app].
    destruct v, w; cbn [rank] in L, G; try lia;
      repeat (rewrite ?drawn_bind, ?(G Search), ?(G Maps), ?(G Images),
                ?(G Videos), ?Gv by (cbn [rank]; lia);
              others i r; cbn [app]);
      reflexivity.
  - intros u L Eu. rewrite (main_drawn _ _ _ _ _ _ i u S), O. unfold render.
    rewrite drawn_bind. cbn [emit events outcome fst snd drawn].
    assert (P : in_section u progress_placeholder = false) by now destruct u.
    rewrite P. cbn [app].
    assert (X : drawn u (events (page_gated i r u))
                = drawn u (events (page_block u (query i) (payload u r)))).
    { now rewrite gated_drawn, Eu. }
    rewrite <- X.
    destruct v, u; cbn [rank] in L, G; try lia;
      repeat (rewrite ?drawn_bind, ?(G Search), ?(G Maps), ?(G Images),
                ?(G Videos), ?Gv by (cbn [rank]; lia);
              others i r; cbn [app]);
      rewrite ?app_nil_r; reflexivity.
Qed.

(** X9.  A response that is no object.  A number or [True], a text that holds
    the key of the vertical, a list that holds it: the block raises
    [TypeError] under its heading.  Any other ([None], [False], 0, a text or
    a list without the key) is read as no data. *)
Theorem response_that_is_no_object v q r :
  is_dict r = false ->
  page_block v q r
  = if misread (key v) r
    then ([Ui (container v) (Markdown (heading v) false)], inl TypeError)
    else page_block v q VNone.
Proof.
  intros D. destruct r as [| b | z | f | s | l | d]; try discriminate D;
    cbn [misread].
  - reflexivity.
  - destruct b, v; reflexivity.
  - destruct (Z.eqb z 0) eqn:Z0; destruct v;
      cbn [block negb key];
      unfold ai_answer, maps_section, images_section, videos_section,
        shopping_section, format_search_content, has_places, has, truthy;
      rewrite Z0; reflexivity.
  - destruct (PrimFloat.eqb f 0) eqn:F0; destruct v;
      cbn [block negb key];
      unfold ai_answer, maps_section, images_section, videos_section,
        shopping_section, format_search_content, has_places, has, truthy;
      rewrite F0; reflexivity.
  - destruct s as [| c s]; [destruct v; reflexivity |].
    destruct v; cbn [block key];
      unfold ai_answer, maps_section, images_section, videos_section,
        shopping_section, format_search_content, has_places, top_organic, has;
      cbn [truthy String.eqb negb contains];
      match goal with
      | |- context [substring_of ?k ?s] => destruct (substring_of k s)
      end; reflexivity.
  - destruct l as [| x l]; [destruct v; reflexivity |].
    destruct v; cbn [block key];
      unfold ai_answer, maps_section, images_section, videos_section,
        shopping_section, format_search_content, has_places, top_organic, has;
      cbn [truthy contains];
      match goal with
      | |- context [existsb ?k ?s] => destruct (existsb k s)
      end; reflexivity.
Qed.

Lemma firstn_twice {X} n (l : list X) : firstn n (firstn n l) = firstn n l.
Proof. rewrite firstn_firstn. now rewrite Nat.min_id. Qed.

(** X10.  The block of a vertical reads its array up to its limit: the first
    five web results, the first ten images, the first ten products; what
    comes after them may be anything.  The map and the videos are read to
    the end. *)
Theorem block_reads_up_to_its_limit v q d l :
  lookup (key v) d = Some (VList l) ->
  page_block v q (VDict d)
  = page_block v q (VDict [(key v, VList (read_part v l))]).
Proof.
  intros H. rewrite block_reads_key. unfold only. rewrite H.
  destruct v; cbn [read_part limit key]; try reflexivity; cbn [block].
  - unfold ai_answer, format_search_content, top_organic.
    rewrite !has_dict. cbn [lookup String.eqb Ascii.eqb Bool.eqb getitem rbind slice_to].
    now rewrite firstn_twice.
  - unfold images_section.
    rewrite !has_dict. cbn [lookup String.eqb Ascii.eqb Bool.eqb getitem rbind slice_to].
    rewrite !bind_emit, !bind_lift. cbn [slice_to].
    now rewrite firstn_twice.
  - unfold shopping_section.
    rewrite !has_dict. cbn [lookup String.eqb Ascii.eqb Bool.eqb getitem rbind slice_to].
    rewrite !bind_emit, !bind_lift. cbn [slice_to].
    rewrite !bind_emit, !bind_lift. cbn [slice_to].
    now rewrite firstn_twice.
Qed.

End Sections.

(** ** The answer and its sources; fields written as text *)

Section Answer.
Import Shape.

Variable assistant_run : string -> result string.
Variable repr_other : value -> string.

Local Abbreviation answer := (ai_answer assistant_run repr_other).
Local Abbreviation content_of := (format_search_content repr_other).
Local Abbreviation entry := (source_entry repr_other).
Local Abbreviation lines := (source_lines repr_other).

Lemma listed_app t t' : listed (t ++ t') = listed t ++ listed t'.
Proof.
  induction t as [| [u h d | p | p w] t IH]; simpl; auto.
  destruct p; simpl; auto. now rewrite IH.
Qed.

Lemma listed_map ws : listed (map (Ui sources_expander) ws) = ws.
Proof. induction ws; simpl; congruence. Qed.

Lemma source_entry_dict n d :
  entry (n, VDict d) = (map (Ui sources_expander) (lines (n, VDict d)), inr tt).
Proof. reflexivity. Qed.

Lemma source_entries l : forall n,
  forallb is_dict l = true ->
  for_each (enumerate n l) entry
  = (map (Ui sources_expander) (flat_map lines (enumerate n l)), inr tt).
Proof.
  induction l as [| x l IH]; intros n D; [reflexivity |].
  simpl in D. apply andb_prop in D as [Dx D].
  destruct x as [| | | | | | d]; try discriminate.
  cbn [enumerate for_each flat_map]. rewrite source_entry_dict, bind_done.
  rewrite (IH (S n) D). cbn [events outcome fst snd]. now rewrite map_app.
Qed.

Lemma source_entries_bound l : forall n,
  List.length (listed (events (for_each (enumerate n l) entry)))
  <= 3 * List.length l.
Proof.
  induction l as [| x l IH]; intros n; [simpl; lia |].
  cbn [enumerate for_each]. rewrite events_bind, listed_app, length_app.
  destruct x as [| | | | | | d]; try (cbn; lia).
  rewrite source_entry_dict. cbn [outcome snd events fst].
  rewrite listed_map. specialize (IH (S n)). cbn [lines List.length] in *. lia.
Qed.

Lemma source_entries_strs l n :
  listed (events (for_each (enumerate n (map VStr l)) entry)) = [].
Proof. destruct l; reflexivity. Qed.

Lemma sources_list d l :
  lookup "organic" d = Some (VList l) ->
  forallb is_dict (firstn 5 l) = true ->
  sources repr_other (VDict d)
  = (Ui text_container (Expander "📚 Sources")
       :: map (Ui sources_expander) (flat_map lines (enumerate 1 (firstn 5 l))),
     inr tt).
Proof.
  intros H D. unfold sources, top_organic, getitem.
  rewrite has_dict, H. rewrite bind_lift. cbv beta iota.
  rewrite bind_emit. cbn [rbind slice_to iter]. rewrite bind_lift.
  now rewrite (source_entries _ 1 D).
Qed.

Lemma sources_bound sr :
  List.length (listed (events (sources repr_other sr))) <= 15.
Proof.
  unfold sources. rewrite bind_lift.
  destruct (has "organic" sr) as [e | []]; try (cbn; lia).
  rewrite bind_emit. cbn [events fst listed]. rewrite bind_lift.
  unfold top_organic.
  destruct (getitem sr "organic") as [e | organic]; [cbn; lia |].
  cbn [rbind].
  destruct organic as [| b | z | f | s | l | d']; try (cbn; lia);
    cbn [slice_to rbind iter].
  - rewrite source_entries_strs. cbn. lia.
  - etransitivity; [apply source_entries_bound |].
    pose proof (firstn_le_length 5 l) as L. rewrite length_firstn in *. lia.
Qed.

Lemma sources_expander_shown q sr :
  In (Ui text_container (Expander "📚 Sources")) (events (answer q sr)) ->
  exists d x, sr = VDict d /\ lookup "organic" d = Some x.
Proof.
  rewrite ai_answer_eq.
  destruct (content_of sr) as [e | c] eqn:C.
  { intros [I | []]. discriminate I. }
  destruct (assistant_run (prompt_of q c)) as [e | content].
  { intros [I | [I | []]]; discriminate I. }
  cbn [events fst]. intros [I | [I | [I | I]]]; try discriminate I.
  unfold sources in I. rewrite bind_lift in I.
  destruct (has "organic" sr) as [e | []] eqn:Hh; try (now cbn in I).
  destruct (has_found _ _ Hh) as [T | X]; [| exact X].
  exfalso. unfold format_search_content, top_organic in C.
  rewrite Hh, T in C. discriminate C.
Qed.

(** X11.  The list of sources.  On a web response whose first five results are
    objects, the answer is followed by the expander of the sources and, for
    each of the first five results, numbered from 1, its three lines: title
    and link, snippet, divider.  Whatever the response, no more than fifteen
    lines are written; and the expander is there only when the response is an
    object with the key [organic] (an empty array gives an empty list). *)
Theorem sources_numbered_up_to_five q :
  (forall d l content,
      lookup "organic" d = Some (VList l) ->
      forallb is_dict (firstn 5 l) = true ->
      assistant_run
        (prompt_of q (String.concat "" (map (entry_text repr_other) (firstn 5 l))))
      = inr content ->
      answer q (VDict d)
      = (answer_heading
           :: Run (prompt_of q
                     (String.concat "" (map (entry_text repr_other) (firstn 5 l))))
           :: Ui text_container (Markdown content false)
           :: Ui text_container (Expander "📚 Sources")
           :: map (Ui sources_expander)
                (flat_map lines (enumerate 1 (firstn 5 l))),
         inr tt))
  /\ (forall sr, List.length (listed (events (answer q sr))) <= 15)
  /\ (forall sr,
        In (Ui text_container (Expander "📚 Sources")) (events (answer q sr)) ->
        exists d x, sr = VDict d /\ lookup "organic" d = Some x).
Proof.
  split; [| split].
  - intros d l content H D A.
    rewrite ai_answer_eq, (content_top_five repr_other d l H D), A.
    now rewrite (sources_list d l H D).
  - intros sr. rewrite ai_answer_eq.
    destruct (content_of sr) as [e | c]; [cbn; lia |].
    destruct (assistant_run (prompt_of q c)); [cbn; lia |].
    cbn [events fst listed]. apply sources_bound.
  - intros sr. apply sources_expander_shown.
Qed.

Lemma search_entry_other x :
  is_dict x = false -> search_entry repr_other x = inl AttributeError.
Proof. destruct x; try reflexivity. discriminate. Qed.

Lemma collect_entries_fail l :
  forallb is_dict l = false ->
  collect (search_entry repr_other) l = inl AttributeError.
Proof.
  induction l as [| x l IH]; [discriminate |].
  cbn [forallb collect]. destruct (is_dict x) eqn:D.
  - destruct x; try discriminate. rewrite search_entry_dict. cbn [andb].
    intros H. now rewrite (IH H).
  - intros _. now rewrite (search_entry_other x D).
Qed.

(** X12.  A web result that is no object, among the first five, ends the run
    before the agent is called: the block raises [AttributeError] under its
    heading, where the prompt is made.  Past the fifth it is not read. *)
Theorem malformed_web_result_aborts_before_agent q d l :
  lookup "organic" d = Some (VList l) ->
  forallb is_dict (firstn 5 l) = false ->
  answer q (VDict d) = ([answer_heading], inl AttributeError)
  /\ prompts (events (answer q (VDict d))) = [].
Proof.
  intros H D.
  assert (C : content_of (VDict d) = inl AttributeError).
  { unfold format_search_content, top_organic, getitem.
    rewrite has_dict, H. cbn [rbind slice_to iter].
    now rewrite (collect_entries_fail _ D). }
  rewrite ai_answer_eq, C. split; reflexivity.
Qed.

End Answer.

Section Texts.
Import Shape.

Variable repr_other : value -> string.

Ltac as_text :=
  intros H; simpl in H;
  repeat (destruct H as [<- | H]);
  try contradiction;
  intros d x L;
  repeat match goal with
         | |- context [get (VDict ?d') ?k' ?x'] =>
             change (get (VDict d') k' x')
               with (inr (A := exn) (field k' x' d'))
         end;
  unfold field; cbn [lookup String.eqb Ascii.eqb Bool.eqb];
  rewrite ?L; reflexivity.

Lemma search_entry_text k :
  In k entry_texts -> reads_text repr_other (search_entry repr_other) k.
Proof. unfold search_entry. as_text. Qed.

Lemma source_entry_text n k :
  In k entry_texts ->
  reads_text repr_other (fun result => source_entry repr_other (n, result)) k.
Proof. unfold source_entry. as_text. Qed.

Lemma place_card_text k :
  In k place_card_texts -> reads_text repr_other (place_card repr_other) k.
Proof. unfold place_card. as_text. Qed.

Lemma video_entry_text idx k :
  In k video_entry_texts ->
  reads_text repr_other (fun video => video_entry repr_other (idx, video)) k.
Proof. unfold video_entry. as_text. Qed.

Lemma product_card_text k :
  In k product_card_texts -> reads_text repr_other (product_card repr_other) k.
Proof. unfold product_card. as_text. Qed.

(** X13.  The fields that are written into a text are read through [str()]
    alone: a field that is there is written as Python prints it, whatever it
    holds, and its default is not used; so a field that is [null] is written
    [None], and [true] is written [True]. *)
Theorem present_fields_are_written_as_text :
  (forall k, In k entry_texts ->
             reads_text repr_other (search_entry repr_other) k)
  /\ (forall n k, In k entry_texts ->
        reads_text repr_other (fun result => source_entry repr_other (n, result)) k)
  /\ (forall k, In k place_card_texts ->
        reads_text repr_other (place_card repr_other) k)
  /\ (forall idx k, In k video_entry_texts ->
        reads_text repr_other (fun video => video_entry repr_other (idx, video)) k)
  /\ (forall k, In k product_card_texts ->
        reads_text repr_other (product_card repr_other) k)
  /\ fmt repr_other VNone = "None"
  /\ fmt repr_other (VBool true) = "True"
  /\ fmt repr_other (VBool false) = "False".
Proof.
  repeat split.
  - apply search_entry_text.
  - apply source_entry_text.
  - apply place_card_text.
  - apply video_entry_text.
  - apply product_card_text.
Qed.

End Texts.

(** ** Opening hours; arrays that are empty *)

Section Hours.
Import Shape.

Variable repr_other : value -> string.
Variable lib : library.

Local Abbreviation card := (place_card repr_other).
Local Abbreviation entry := (place_entry repr_other).
Local Abbreviation section_of := (maps_section repr_other lib).
Local Abbreviation hours_text := (hours_text_of repr_other).

Lemma hours_text_falsy h : truthy h = false -> hours_text h = inr "Hours not available".
Proof. unfold hours_text_of. now intros ->. Qed.

Lemma hours_text_other h :
  truthy h = true -> is_dict h = false -> hours_text h = inl AttributeError.
Proof. unfold hours_text_of. intros ->. now destruct h. Qed.

Lemma place_card_falsy_hours d h :
  lookup "openingHours" d = Some h -> truthy h = false ->
  card (VDict d) = card (VDict (("openingHours", VDict []) :: d)).
Proof.
  intros L T. unfold place_card, get.
  cbn [lookup String.eqb Ascii.eqb Bool.eqb rbind].
  now rewrite L, (hours_text_falsy h T).
Qed.

Lemma place_card_other_hours d h :
  lookup "openingHours" d = Some h -> truthy h = true -> is_dict h = false ->
  card (VDict d) = inl AttributeError.
Proof.
  intros L T D. unfold place_card, get. cbn [rbind].
  now rewrite L, (hours_text_other h T D).
Qed.

(** The card of a place that is an object: written, or [AttributeError]
    from its opening hours. *)
Lemma place_card_dict d :
  if place_ok (VDict d)
  then exists c, card (VDict d) = inr c
  else card (VDict d) = inl AttributeError.
Proof.
  unfold place_ok, falsy_or.
  destruct (lookup "openingHours" d) as [h |] eqn:L.
  - destruct (truthy h) eqn:T; cbn [negb orb].
    + destruct (is_dict h) eqn:D; [| now apply (place_card_other_hours d h)].
      unfold place_card, get. cbn [rbind]. rewrite L. unfold hours_text_of.
      rewrite T. destruct h; try discriminate. cbn [items rbind]. eauto.
    + rewrite (place_card_falsy_hours d h L T). unfold place_card, get.
      cbn [lookup String.eqb Ascii.eqb Bool.eqb rbind hours_text_of truthy]. eauto.
  - unfold place_card, get. cbn [rbind]. rewrite L.
    cbn [hours_text_of truthy rbind]. eauto.
Qed.

Lemma place_entries_outcome l :
  forallb is_dict l = true ->
  outcome (for_each l entry)
  = if forallb place_ok l then inr tt else inl AttributeError.
Proof.
  induction l as [| p l IH]; [reflexivity |].
  intros D. simpl in D. apply andb_prop in D as [Dp D].
  destruct p as [| | | | | | d]; try discriminate.
  cbn [for_each forallb]. rewrite outcome_bind, place_entry_eq.
  pose proof (place_card_dict d) as C.
  destruct (place_ok (VDict d)).
  - destruct C as [c ->]. cbn [outcome snd andb]. auto.
  - now rewrite C.
Qed.

(** The section on a list of places that are objects, up to the cards. *)
Lemma maps_section_run d p ps :
  lookup "places" d = Some (VList (p :: ps)) ->
  forallb is_dict (p :: ps) = true ->
  folium_Map lib (center_of p) 14 = inr tt ->
  Forall (fun m => folium_Marker lib m = inr tt)
    (somes (map (marker_of repr_other) (p :: ps))) ->
  section_of (VDict d)
  = (Ui maps_container (Markdown "### 🗺️ Map Results" false)
       :: Ui maps_container (Columns (VList [VInt 3; VInt 2]))
       :: Ui map_col
            (FoliumStatic
               (Map (center_of p) 14 (somes (map (marker_of repr_other) (p :: ps))))
               600)
       :: events (for_each (firstn 5 (p :: ps)) entry),
     outcome (for_each (firstn 5 (p :: ps)) entry)).
Proof.
  intros H D Fm T. unfold maps_section.
  rewrite bind_emit, bind_lift, (has_places_list d _ H).
  unfold getitem. rewrite bind_lift, H. cbn [first]. rewrite bind_lift.
  assert (Dp : is_dict p = true) by (simpl in D; now apply andb_prop in D).
  destruct p as [| | | | | | dp]; try discriminate.
  rewrite bind_lift, map_center_dict, bind_emit, bind_lift, Fm, bind_lift.
  cbn [iter].
  rewrite bind_lift, (collect_markers _ _ _ D T), bind_emit, bind_lift.
  cbn [slice_to]. rewrite bind_lift. cbn [iter events outcome fst snd].
  reflexivity.
Qed.

Lemma place_entries_maps l : maps (events (for_each l entry)) = [].
Proof.
  induction l as [| p l IH]; [reflexivity |].
  cbn [for_each]. rewrite events_bind, place_entry_eq.
  destruct (card p) as [e | c]; [reflexivity |].
  cbn [events outcome fst snd app maps]. exact IH.
Qed.

(** X14.  The opening hours of a place.  Hours that are there but falsy ([null],
    an empty object, an empty text) are read as absent hours are: [Hours not
    available].  Hours that are truthy and no object (a text, a list) have no
    [items()]: the card raises [AttributeError].  So on places that are
    objects, with a center and markers that folium takes, the section ends
    well exactly when the opening hours of the first five can be listed, and
    the map is drawn either way: the cards come after it. *)
Theorem opening_hours_of_a_place :
  (forall h, truthy h = false -> hours_text h = inr "Hours not available")
  /\ (forall d h,
        lookup "openingHours" d = Some h -> truthy h = false ->
        card (VDict d) = card (VDict (("openingHours", VDict []) :: d)))
  /\ (forall d h,
        lookup "openingHours" d = Some h -> truthy h = true ->
        is_dict h = false ->
        card (VDict d) = inl AttributeError)
  /\ (forall d p ps,
        lookup "places" d = Some (VList (p :: ps)) ->
        forallb is_dict (p :: ps) = true ->
        folium_Map lib (center_of p) 14 = inr tt ->
        Forall (fun m => folium_Marker lib m = inr tt)
          (somes (map (marker_of repr_other) (p :: ps))) ->
        outcome (section_of (VDict d))
        = (if forallb place_ok (firstn 5 (p :: ps)) then inr tt
           else inl AttributeError)
        /\ maps (events (section_of (VDict d)))
           = [Map (center_of p) 14 (somes (map (marker_of repr_other) (p :: ps)))]).
Proof.
  split; [| split; [| split]].
  - apply hours_text_falsy.
  - apply place_card_falsy_hours.
  - apply place_card_other_hours.
  - intros d p ps H D Fm T. rewrite (maps_section_run d p ps H D Fm T).
    cbn [outcome snd events fst maps]. split.
    + apply place_entries_outcome, firstn_dicts, D.
    + now rewrite place_entries_maps.
Qed.





End Hours.

Section EmptyArrays.
Import Shape.

Variable assistant_run : string -> result string.
Variable repr_other : value -> string.
Variable lib : library.

Local Abbreviation page_block := (block assistant_run repr_other lib).

(** X16.  An array that is there and empty is not read as an absent one.  The
    map section shows its no-data message; the videos a message of their own;
    the images and the products an empty grid and no message; the answer is
    made on a prompt without results, and followed by an empty list of
    sources. *)
Theorem empty_array_is_not_absent v q d :
  lookup (key v) d = Some (VList []) ->
  page_block v q (VDict d)
  = match v with
    | Search =>
        match assistant_run (prompt_of q "") with
        | inl e => ([answer_heading; Run (prompt_of q "")], inl e)
        | inr content =>
            ([answer_heading; Run (prompt_of q "");
              Ui text_container (Markdown content false);
              Ui text_container (Expander "📚 Sources")], inr tt)
        end
    | Maps =>
        ([Ui maps_container (Markdown (heading Maps) false);
          Ui maps_container (Info "No map results available for this query.")],
         inr tt)
    | Videos =>
        ([Ui video_container (Markdown (heading Videos) false);
          Ui video_container (Info "No relevant videos found for this query.")],
         inr tt)
    | Images | Shopping =>
        ([Ui (container v) (Markdown (heading v) false);
          Ui (container v) (Columns (VInt 5))], inr tt)
    end.
Proof.
  intros H. rewrite block_reads_key. unfold only. rewrite H.
  destruct v; try reflexivity.
  cbn [block key]. rewrite ai_answer_eq.
  change (format_search_content repr_other (VDict [("organic", VList [])]))
    with (inr (A := exn) "").
  cbv beta iota. destruct (assistant_run (prompt_of q "")); reflexivity.
Qed.

(** X17.  A key that is there with [null] for its array is not read as an
    absent key either: the test [key in r] passes, and the block raises
    [TypeError] on the array, under its heading (for the products, under the
    empty grid). *)
Theorem null_array_raises_type_error v q d :
  lookup (key v) d = Some VNone ->
  page_block v q (VDict d)
  = (Ui (container v) (Markdown (heading v) false)
       :: match v with
          | Shopping => [Ui shopping_container (Columns (VInt 5))]
          | _ => []
          end,
     inl TypeError).
Proof.
  intros H. rewrite block_reads_key. unfold only. rewrite H.
  destruct v; reflexivity.
Qed.

End EmptyArrays.

(** ** The images *)

Section Cutting.
Import Shape.

(** Cutting at the first separator. *)
Lemma split_hd sep cur s :
  hd "" (split_from sep 0 cur s) = (cur ++ before_first sep s)%string.
Proof.
  revert cur. induction s as [| c s IH]; intros cur.
  - cbn [split_from before_first hd].
    destruct (String.prefix sep ""); now rewrite append_empty.
  - cbn [split_from before_first].
    destruct (String.prefix sep (String c s)); simpl.
    + now rewrite append_empty.
    + now rewrite IH, append_cons.
Qed.

Lemma prefix_trans a : forall b c,
  String.prefix a b = true -> String.prefix b c = true -> String.prefix a c = true.
Proof.
  induction a as [| x a IH]; intros b c; [now destruct c |].
  destruct b as [| y b]; [discriminate |].
  destruct c as [| z c]; [intros _ H; discriminate H |].
  cbn [String.prefix].
  destruct (ascii_dec x y) as [<- |]; [| discriminate].
  destruct (ascii_dec x z) as [<- |]; [apply IH | discriminate].
Qed.

Lemma before_first_prefix sep s : String.prefix (before_first sep s) s = true.
Proof.
  induction s as [| c s IH]; cbn [before_first];
    destruct (String.prefix sep _); try reflexivity.
  cbn [String.prefix]. destruct (ascii_dec c c); [exact IH | congruence].
Qed.

Lemma prefix_empty sep : sep <> "" -> String.prefix sep "" = false.
Proof. destruct sep; [congruence | reflexivity]. Qed.

(** What comes before the first separator holds no separator. *)
Lemma before_first_free sep s :
  sep <> "" -> substring_of sep (before_first sep s) = false.
Proof.
  intros N. induction s as [| c s IH]; cbn [before_first].
  - destruct (String.prefix sep ""); cbn [substring_of];
      now rewrite (prefix_empty sep N).
  - destruct (String.prefix sep (String c s)) eqn:P.
    + cbn [substring_of]. now rewrite (prefix_empty sep N).
    + cbn [substring_of]. rewrite IH, orb_false_r.
      destruct (String.prefix sep (String c (before_first sep s))) eqn:Q;
        [| reflexivity].
      rewrite <- P. symmetry. apply (prefix_trans _ _ _ Q).
      cbn [String.prefix]. destruct (ascii_dec c c); [| congruence].
      apply before_first_prefix.
Qed.

Lemma before_first_none sep s :
  substring_of sep s = false -> before_first sep s = s.
Proof.
  induction s as [| c s IH]; cbn [before_first substring_of]; intros H.
  - now destruct (String.prefix sep "").
  - apply orb_false_iff in H as [P H]. rewrite P. f_equal. auto.
Qed.

Lemma nth_error_enumerate {X} (l : list X) : forall n k,
  nth_error (enumerate n l) k = option_map (pair (n + k)) (nth_error l k).
Proof.
  induction l as [| x l IH]; intros n [| k]; simpl; auto.
  - now rewrite Nat.add_0_r.
  - rewrite IH. now rewrite Nat.add_succ_r.
Qed.

End Cutting.

Section ImageSection.
Import Shape.

Variable lib : library.

Local Abbreviation entry := (image_entry lib).
Local Abbreviation section_of := (images_section lib).

(** An image that [st.image] takes, under its caption. *)
Local Abbreviation taken :=
  (fun img => st_image lib (image_url img) true (caption_of img) = inr tt).

Lemma image_caption_ok d :
  image_ok (VDict d) = true -> image_caption (VDict d) = inr (caption_of (VDict d)).
Proof.
  unfold image_ok, falsy_or, image_caption, caption_of, get. cbn [rbind].
  destruct (lookup "title" d) as [x |]; [| reflexivity].
  destruct (truthy x) eqn:T; cbn [negb orb].
  - destruct x; try discriminate. intros _. cbn [as_str rbind].
    unfold split. now rewrite split_hd.
  - intros _. destruct x as [| | | | s | |]; try reflexivity.
    destruct s; [reflexivity | discriminate T].
Qed.

Lemma image_caption_other d x :
  lookup "title" d = Some x -> truthy x = true -> is_string x = false ->
  image_caption (VDict d) = inl AttributeError.
Proof.
  intros L T S. unfold image_caption, get. cbn [rbind]. rewrite L, T.
  now destruct x.
Qed.

Lemma image_entry_dict i d :
  entry (i, VDict d)
  = match image_caption (VDict d) with
    | inl e => ([], inl e)
    | inr c =>
        match st_image lib (image_url (VDict d)) true c with
        | inl e => ([], inl e)
        | inr _ =>
            ([Ui (image_cols (i mod 5)) (Image (image_url (VDict d)) true c)],
             inr tt)
        end
    end.
Proof.
  unfold image_entry, get. rewrite !bind_lift.
  destruct (image_caption (VDict d)) as [e | c]; [reflexivity |].
  rewrite bind_lift. cbn [image_url field].
  now destruct (st_image lib _ true c).
Qed.

Lemma images_app t t' : images (t ++ t') = images t ++ images t'.
Proof.
  induction t as [| [u h d | p | p w] t IH]; simpl; auto.
  destruct w; simpl; auto. now rewrite IH.
Qed.

Lemma image_entries l : forall n,
  forallb image_ok l = true ->
  Forall taken l ->
  images (events (for_each (enumerate n l) entry))
  = map shown_image (enumerate n l)
  /\ outcome (for_each (enumerate n l) entry) = inr tt.
Proof.
  induction l as [| img l IH]; intros n H T; [split; reflexivity |].
  simpl in H. apply andb_prop in H as [I H].
  destruct img as [| | | | | | d]; try discriminate.
  inversion T as [| img' l' Ti Tl]. subst.
  destruct (IH (S n) H Tl) as [E O].
  cbn [enumerate for_each map]. rewrite events_bind, outcome_bind, images_app.
  rewrite image_entry_dict, (image_caption_ok d I), Ti.
  cbn [events outcome fst snd images app shown_image]. now rewrite E, O.
Qed.

Lemma image_caption_not_ok d :
  image_ok (VDict d) = false -> image_caption (VDict d) = inl AttributeError.
Proof.
  unfold image_ok, falsy_or.
  destruct (lookup "title" d) as [x |] eqn:L; [| discriminate].
  intros H. apply orb_false_iff in H as [T S].
  apply negb_false_iff in T. now apply (image_caption_other d x).
Qed.

(** The loop ends well on images that can be shown only. *)
Lemma image_entries_done l : forall n,
  outcome (for_each (enumerate n l) entry) = inr tt ->
  forallb image_ok l = true /\ Forall taken l.
Proof.
  induction l as [| img l IH]; intros n; [now split |].
  cbn [enumerate for_each forallb]. rewrite outcome_bind.
  destruct img as [| | | | | | d]; try discriminate.
  rewrite image_entry_dict.
  destruct (image_ok (VDict d)) eqn:I.
  - rewrite (image_caption_ok d I).
    destruct (st_image lib (image_url (VDict d)) true (caption_of (VDict d)))
      as [e | []] eqn:Ti; [discriminate |].
    cbn [outcome snd andb]. intros O. destruct (IH (S n) O) as [H T].
    split; [exact H | constructor; [exact Ti | exact T]].
  - rewrite (image_caption_not_ok d I). discriminate.
Qed.

Lemma image_entries_fail l : forall n,
  forallb image_ok l = false ->
  Forall taken l ->
  outcome (for_each (enumerate n l) entry) = inl AttributeError.
Proof.
  induction l as [| img l IH]; intros n H T; [discriminate |].
  cbn [enumerate for_each forallb] in *. rewrite outcome_bind.
  destruct img as [| | | | | | d]; try reflexivity.
  rewrite image_entry_dict.
  inversion T as [| img' l' Ti Tl]. subst.
  destruct (image_ok (VDict d)) eqn:I.
  - rewrite (image_caption_ok d I), Ti. cbn [outcome snd]. now apply IH.
  - now rewrite (image_caption_not_ok d I).
Qed.

Lemma image_entries_bound l : forall n,
  List.length (images (events (for_each (enumerate n l) entry)))
  <= List.length l.
Proof.
  induction l as [| img l IH]; intros n; [simpl; lia |].
  cbn [enumerate for_each]. rewrite events_bind, images_app, length_app.
  specialize (IH (S n)).
  destruct img as [| | | | | | d]; try (cbn; lia).
  rewrite image_entry_dict.
  destruct (image_caption (VDict d)) as [e | c];
    [| destruct (st_image lib (image_url (VDict d)) true c) as [e | []]];
    cbn [events outcome fst snd images List.length]; lia.
Qed.

Lemma image_entries_strs l n :
  images (events (for_each (enumerate n (map VStr l)) entry)) = [].
Proof. destruct l; reflexivity. Qed.

Lemma images_section_list d l :
  lookup "images" d = Some (VList l) ->
  section_of (VDict d)
  = (Ui image_container (Markdown "### 🖼️ Image Results" false)
       :: Ui image_container (Columns (VInt 5))
       :: events (for_each (enumerate 0 (firstn 10 l)) entry),
     outcome (for_each (enumerate 0 (firstn 10 l)) entry)).
Proof.
  intros H. unfold images_section, getitem.
  rewrite bind_emit, bind_lift, has_dict, H. cbv beta iota.
  rewrite bind_lift. cbv beta iota. cbn [slice_to]. rewrite bind_lift.
  rewrite bind_emit, bind_lift. cbn [iter events outcome fst snd].
  reflexivity.
Qed.

Lemma images_bound r : List.length (images (events (section_of r))) <= 10.
Proof.
  unfold images_section. rewrite bind_emit, bind_lift.
  destruct (has "images" r) as [e | []]; try (cbn; lia).
  rewrite bind_lift.
  destruct (getitem r "images") as [e | all_images]; [cbn; lia |].
  destruct all_images as [| b | z | f | s | l | d']; try (cbn; lia);
    cbn [slice_to]; rewrite bind_lift, bind_emit, bind_lift;
    cbn [iter events fst images].
  - rewrite image_entries_strs. cbn. lia.
  - etransitivity; [apply image_entries_bound |].
    pose proof (firstn_le_length 10 l) as L. rewrite length_firstn in *. lia.
Qed.

(** X18.  The caption of an image is its title up to the first ["..."]: it
    holds no ["..."], it is the whole title when the title holds none, and it
    is empty when the title is absent or falsy.  A title that is truthy and
    no text (a number) has no [split]: [AttributeError]. *)
Theorem caption_is_title_up_to_ellipsis :
  (forall d, image_ok (VDict d) = true ->
             image_caption (VDict d) = inr (caption_of (VDict d)))
  /\ (forall img, substring_of "..." (caption_of img) = false)
  /\ (forall d s,
        lookup "title" d = Some (VStr s) -> substring_of "..." s = false ->
        image_caption (VDict d) = inr s)
  /\ (forall d x,
        lookup "title" d = Some x -> truthy x = true -> is_string x = false ->
        image_caption (VDict d) = inl AttributeError).
Proof.
  split; [| split; [| split]].
  - apply image_caption_ok.
  - intros img. unfold caption_of.
    destruct img as [| | | | | | d]; try reflexivity.
    destruct (lookup "title" d) as [[| | | | s | |] |]; try reflexivity.
    apply before_first_free. discriminate.
  - intros d s L N. rewrite image_caption_ok.
    + unfold caption_of. now rewrite L, (before_first_none _ _ N).
    + unfold image_ok, falsy_or. rewrite L. apply orb_true_r.
  - apply image_caption_other.
Qed.

(** X19.  The grid of images.  Ten images are shown at most, whatever the
    response.  On a response with a list of images the section ends well
    exactly when the first ten are objects with a title that can be cut,
    each taken by [st.image] under its caption; then they are shown in
    order, the image number [k] (from 0) in the column [k mod 5], each under
    its caption.  When [st.image] takes the first ten and one of them has no
    title that can be cut, the section raises [AttributeError]. *)
Theorem images_shown_in_five_columns :
  (forall r, List.length (images (events (section_of r))) <= 10)
  /\ (forall d l,
        lookup "images" d = Some (VList l) ->
        (outcome (section_of (VDict d)) = inr tt
         <-> forallb image_ok (firstn 10 l) = true
             /\ Forall
                  (fun img =>
                     st_image lib (image_url img) true (caption_of img) = inr tt)
                  (firstn 10 l))
        /\ (forallb image_ok (firstn 10 l) = false ->
            Forall
              (fun img =>
                 st_image lib (image_url img) true (caption_of img) = inr tt)
              (firstn 10 l) ->
            outcome (section_of (VDict d)) = inl AttributeError)
        /\ (outcome (section_of (VDict d)) = inr tt ->
            images (events (section_of (VDict d)))
            = map shown_image (enumerate 0 (firstn 10 l))
            /\ forall k img,
                 k < 10 -> nth_error l k = Some img ->
                 nth_error (images (events (section_of (VDict d)))) k
                 = Some (image_cols (k mod 5), image_url img, caption_of img))).
Proof.
  split; [apply images_bound |].
  intros d l H. rewrite (images_section_list d l H).
  cbn [events outcome fst snd images].
  split; [| split].
  - split; [apply image_entries_done |].
    intros [I T]. apply (image_entries _ 0 I T).
  - apply image_entries_fail.
  - intros O. destruct (image_entries_done _ 0 O) as [I T].
    destruct (image_entries _ 0 I T) as [E _]. rewrite E.
    split; [reflexivity |].
    intros k img K N. rewrite nth_error_map, nth_error_enumerate.
    rewrite nth_error_firstn.
    destruct (Nat.ltb k 10) eqn:L; [| apply Nat.ltb_ge in L; lia].
    now rewrite N.
Qed.

End ImageSection.

(** ** The grid of videos, and the links *)

Section Links.
Import Shape.

Lemma prefix_app a x : String.prefix a (a ++ x)%string = true.
Proof.
  induction a as [| c a IH]; [now destruct x |].
  cbn [append String.prefix]. destruct (ascii_dec c c); [exact IH | congruence].
Qed.

Lemma substring_of_prefix sub s :
  String.prefix sub s = true -> substring_of sub s = true.
Proof. destruct s; cbn [substring_of]; now intros ->. Qed.

Lemma substring_of_skip sub p s :
  substring_of sub s = true -> substring_of sub (p ++ s)%string = true.
Proof.
  intros H. induction p as [| c p IH]; [exact H |].
  cbn [append substring_of]. rewrite IH. apply orb_true_r.
Qed.

Lemma prefix_char c0 c s :
  String.prefix (String c0 "") (String c s) = if ascii_dec c0 c then true else false.
Proof. cbn [String.prefix]. destruct (ascii_dec c0 c); [now destruct s | reflexivity]. Qed.

(** What follows the last [v=]. *)
Lemma after_last_v p x :
  substring_of "v=" x = false -> after_last "v=" (p ++ "v=" ++ x)%string = x.
Proof.
  intros H. induction p as [| c p IH].
  - cbn [append after_last substring_of]. rewrite H.
    cbn [String.prefix]. cbn. now destruct x.
  - cbn [append after_last]. rewrite substring_of_skip; [exact IH |].
    apply substring_of_prefix. exact (prefix_app "v=" x).
Qed.

(** What comes before the first [&]. *)
Lemma before_first_amp a t :
  substring_of "&" a = false ->
  before_first "&" (a ++ t)%string = (a ++ before_first "&" t)%string.
Proof.
  induction a as [| c a IH]; [reflexivity |].
  cbn [substring_of]. intros H. apply orb_false_iff in H as [P H].
  cbn [append before_first]. rewrite prefix_char in *.
  destruct (ascii_dec "&" c); [discriminate |]. now rewrite IH.
Qed.

Lemma no_v_app a b :
  substring_of "v=" a = false -> substring_of "v=" b = false ->
  substring_of "v=" (a ++ "&" ++ b)%string = false.
Proof.
  intros Ha Hb. induction a as [| c a IH].
  - cbn [append substring_of]. rewrite Hb. reflexivity.
  - cbn [substring_of] in Ha. apply orb_false_iff in Ha as [P Ha].
    specialize (IH Ha). cbn [append substring_of] in IH |- *.
    rewrite IH, orb_false_r.
    cbn [String.prefix] in *. destruct (ascii_dec "v" c); [| reflexivity].
    destruct a as [| c' a]; [reflexivity |].
    cbn [append]. rewrite prefix_char in *.
    now destruct (ascii_dec "=" c').
Qed.

(** The id of a watch link that ends with it, or goes on with other
    parameters. *)
Lemma video_id_of_watch p id tail :
  substring_of "v=" id = false -> substring_of "&" id = false ->
  tail = "" \/ (exists rest, tail = ("&" ++ rest)%string
                             /\ substring_of "v=" rest = false) ->
  video_id_of (p ++ "v=" ++ id ++ tail) = id.
Proof.
  intros V A T. rewrite video_id_spec, after_last_v.
  - rewrite (before_first_amp id tail A).
    destruct T as [-> | [rest [-> _]]].
    + cbn [before_first String.prefix]. apply append_empty.
    + cbn [append before_first]. rewrite prefix_char. cbn. apply append_empty.
  - destruct T as [-> | [rest [-> R]]]; [now rewrite append_empty |].
    now apply no_v_app.
Qed.

End Links.

Section Clips.
Import Shape.

Variable repr_other : value -> string.

Local Abbreviation entry := (video_entry repr_other).
Local Abbreviation section_of := (videos_section repr_other).

Lemma forallb_firstn {X} (f : X -> bool) n : forall l,
  forallb f l = true -> forallb f (firstn n l) = true.
Proof.
  induction n as [| n IH]; intros [| x l]; simpl; auto.
  intros H. apply andb_prop in H as [-> H]. simpl. auto.
Qed.

Lemma forallb_filter {X} (f g : X -> bool) l :
  forallb f l = true -> forallb f (filter g l) = true.
Proof.
  induction l as [| x l IH]; simpl; [reflexivity |].
  intros H. apply andb_prop in H as [Fx H].
  destruct (g x); simpl; [rewrite Fx |]; auto.
Qed.

Lemma clips_app t t' : clips (t ++ t') = clips t ++ clips t'.
Proof.
  induction t as [| [u h d | p | p w] t IH]; simpl; auto.
  destruct p, w; simpl; auto. now rewrite IH.
Qed.

Lemma video_ok_link d e :
  video_ok (VDict d) = true ->
  embed_url_of (field "link" (VStr "#") d) <> inl e.
Proof.
  intros V U. cbn [video_ok] in V. apply andb_prop in V as [_ V].
  unfold embed_url_of, str_or_absent, field in *.
  destruct (lookup "link" d) as [[] |]; try discriminate;
    cbn [contains rbind] in U;
    match type of U with
    | context [if ?b then _ else _] => destruct b; discriminate
    end.
Qed.

(** The loop on well-formed videos: each has its slot, filled when its
    link is a watch link. *)
Lemma clip_entries ys : forall n,
  forallb video_ok ys = true ->
  clips (events (for_each (enumerate n ys) entry))
  = flat_map shown_clip (enumerate n ys)
  /\ infos (events (for_each (enumerate n ys) entry)) = []
  /\ outcome (for_each (enumerate n ys) entry) = inr tt.
Proof.
  induction ys as [| video ys IH]; intros n H; [repeat split |].
  simpl in H. apply andb_prop in H as [V H].
  destruct video as [| | | | | | d]; try discriminate.
  destruct (IH (S n) H) as [C [I O]].
  cbn [enumerate for_each flat_map].
  rewrite events_bind, outcome_bind, clips_app, infos_app, video_entry_eq.
  pose proof (embed_url_of_link d) as W.
  pose proof (video_ok_link d) as N.
  destruct (embed_url_of (field "link" (VStr "#") d)) as [e | [u |]].
  - now elim (N e V).
  - destruct W as [s [W ->]].
    cbn [events outcome fst snd clips infos app shown_clip]. rewrite W.
    now rewrite C, I, O.
  - cbn [events outcome fst snd clips infos app shown_clip]. rewrite W.
    now rewrite C, I, O.
Qed.

Lemma videos_section_test d l :
  lookup "videos" d = Some (VList l) ->
  section_of (VDict d)
  = match youtube_only l with
    | inl e => ([Ui video_container (Markdown "### 📹 Related Videos" false)], inl e)
    | inr [] =>
        ([Ui video_container (Markdown "### 📹 Related Videos" false);
          Ui video_container (Info "No relevant videos found for this query.")],
         inr tt)
    | inr ys =>
        (Ui video_container (Markdown "### 📹 Related Videos" false)
           :: Ui video_container (Columns (VInt 3))
           :: events (for_each (enumerate 0 (firstn 6 ys)) entry),
         outcome (for_each (enumerate 0 (firstn 6 ys)) entry))
    end.
Proof.
  intros H. unfold videos_section, getitem.
  rewrite bind_emit, bind_lift, has_dict, H. cbv beta iota.
  rewrite bind_lift. cbv beta iota. rewrite bind_lift. cbn [iter].
  rewrite bind_lift.
  destruct (youtube_only l) as [e | [| y ys]]; try reflexivity.
  rewrite bind_emit. reflexivity.
Qed.

Lemma is_youtube_source video :
  is_youtube video
  = if source_ok video then inr (source_is_youtube video) else inl AttributeError.
Proof.
  destruct video as [| | | | | | d]; try reflexivity.
  rewrite is_youtube_dict. unfold source_ok, source_is_youtube, str_or_absent, field.
  destruct (lookup "source" d) as [[] |]; reflexivity.
Qed.

Lemma youtube_only_source l :
  youtube_only l
  = if forallb source_ok l then inr (filter source_is_youtube l)
    else inl AttributeError.
Proof.
  induction l as [| video l IH]; [reflexivity |].
  cbn [youtube_only forallb filter]. rewrite is_youtube_source, IH.
  destruct (source_ok video); [| reflexivity]. cbn [rbind andb].
  destruct (forallb source_ok l); [| reflexivity]. cbn [rbind].
  now destruct (source_is_youtube video).
Qed.

(** X20.  The grid of videos, on a response whose videos are objects with a
    text for source and link.  The YouTube videos are numbered from 0, the
    first six of them have a slot, the video number [idx] in the column
    [idx mod 3]; a video whose link is no watch link keeps its slot and
    leaves it empty.  The message [No relevant videos found] is shown when no
    video is from YouTube, and only then: not when every YouTube video was
    passed over. *)
Theorem videos_keep_their_slot d l :
  lookup "videos" d = Some (VList l) ->
  forallb video_ok l = true ->
  clips (events (section_of (VDict d)))
  = flat_map shown_clip (enumerate 0 (firstn 6 (filter source_is_youtube l)))
  /\ infos (events (section_of (VDict d)))
     = match filter source_is_youtube l with
       | [] => [(video_container, "No relevant videos found for this query.")]
       | _ :: _ => []
       end
  /\ outcome (section_of (VDict d)) = inr tt.
Proof.
  intros H V. rewrite (videos_section_test d l H), (youtube_only_ok l V).
  pose proof (forallb_filter video_ok source_is_youtube l V) as Vy.
  destruct (filter source_is_youtube l) as [| y ys]; [repeat split |].
  destruct (clip_entries _ 0 (forallb_firstn video_ok 6 _ Vy)) as [C [I O]].
  cbn [events outcome fst snd clips infos]. now rewrite C, I, O.
Qed.

(** X21.  The test of the sources goes through every video before any is shown:
    one video that is no object, or whose source is no text ([null], a
    number), at any place of the array, and the section raises
    [AttributeError] under its heading; without one, the test is passed and
    the section goes on. *)
Theorem untestable_video_aborts_section d l :
  lookup "videos" d = Some (VList l) ->
  (forallb source_ok l = false ->
   section_of (VDict d)
   = ([Ui video_container (Markdown "### 📹 Related Videos" false)],
      inl AttributeError))
  /\ (forallb source_ok l = true ->
      youtube_only l = inr (filter source_is_youtube l)
      /\ exists t,
           events (section_of (VDict d))
           = Ui video_container (Markdown "### 📹 Related Videos" false)
             :: Ui video_container
                  (match filter source_is_youtube l with
                   | [] => Info "No relevant videos found for this query."
                   | _ :: _ => Columns (VInt 3)
                   end)
             :: t).
Proof.
  intros H. rewrite (videos_section_test d l H), youtube_only_source. split.
  - now intros ->.
  - intros ->. split; [reflexivity |].
    destruct (filter source_is_youtube l); cbn [events fst]; eauto.
Qed.

(** X22.  A watch link gives back the id it was made of: the link that ends
    with the id, and the link that goes on with other parameters after an
    [&], are both embedded under the id, whatever comes before
    [youtube.com/watch?v=]. *)
Theorem watch_link_gives_back_its_id p id rest :
  substring_of "v=" id = false ->
  substring_of "&" id = false ->
  substring_of "v=" rest = false ->
  embed_url_of (VStr (p ++ "youtube.com/watch?v=" ++ id))
  = inr (Some ("https://www.youtube.com/embed/" ++ id))%string
  /\ embed_url_of (VStr (p ++ "youtube.com/watch?v=" ++ id ++ "&" ++ rest))
     = inr (Some ("https://www.youtube.com/embed/" ++ id))%string.
Proof.
  intros V A R.
  assert (W : forall tail,
             contains "youtube.com/watch?v="
               (VStr (p ++ "youtube.com/watch?v=" ++ id ++ tail))
             = inr true).
  { intros tail. cbn [contains]. f_equal.
    apply substring_of_skip, substring_of_prefix, prefix_app. }
  assert (I : forall tail,
             tail = "" \/ (exists rest', tail = ("&" ++ rest')%string
                                         /\ substring_of "v=" rest' = false) ->
             video_id_of (p ++ "youtube.com/watch?v=" ++ id ++ tail) = id).
  { intros tail T.
    change (p ++ "youtube.com/watch?v=" ++ id ++ tail)%string
      with (p ++ "youtube.com/watch?" ++ "v=" ++ id ++ tail)%string.
    rewrite <- append_assoc. now apply video_id_of_watch. }
  split.
  - pose proof (W "") as W0. pose proof (I "" (or_introl eq_refl)) as I0.
    rewrite append_empty in W0, I0.
    unfold embed_url_of. rewrite W0. cbn [rbind as_str]. now rewrite I0.
  - unfold embed_url_of. rewrite (W ("&" ++ rest)%string). cbn [rbind as_str].
    rewrite (I ("&" ++ rest)%string); [reflexivity |]. right. eauto.
Qed.

End Clips.

(** ** The grid of products *)

Section Products.
Import Shape.

Variable repr_other : value -> string.

Local Abbreviation card := (product_card repr_other).
Local Abbreviation entry := (product_entry repr_other).
Local Abbreviation section_of := (shopping_section repr_other).

Lemma product_card_dict d : exists c, card (VDict d) = inr c.
Proof. unfold product_card, get. cbn [rbind]. eauto. Qed.

Lemma product_card_other x : is_dict x = false -> card x = inl AttributeError.
Proof. destruct x; try reflexivity. discriminate. Qed.

Lemma product_entry_eq idx p :
  entry (idx, p)
  = match card p with
    | inl e => ([], inl e)
    | inr c => ([Ui (shopping_cols (idx mod 5)) (Markdown c true)], inr tt)
    end.
Proof. unfold product_entry. rewrite bind_lift. now destruct (card p). Qed.

Lemma products_app t t' : products (t ++ t') = products t ++ products t'.
Proof.
  induction t as [| [u h d | p | p w] t IH]; simpl; auto.
  destruct p, w; simpl; auto. now rewrite IH.
Qed.

Lemma product_entries l : forall n cs,
  collect card l = inr cs ->
  products (events (for_each (enumerate n l) entry))
  = map (fun ic => (fst ic mod 5, snd ic)) (enumerate n cs).
Proof.
  induction l as [| p l IH]; intros n cs H.
  - simpl in H. now injection H as <-.
  - cbn [collect] in H.
    destruct (card p) as [e | c] eqn:C; [discriminate |].
    destruct (collect card l) as [e | cs'] eqn:Cs; [discriminate |].
    injection H as <-.
    cbn [enumerate for_each map fst snd].
    rewrite events_bind, products_app, product_entry_eq, C.
    cbn [events outcome fst snd products app]. now rewrite (IH (S n) cs' eq_refl).
Qed.

Lemma product_entries_outcome l : forall n,
  outcome (for_each (enumerate n l) entry)
  = if forallb is_dict l then inr tt else inl AttributeError.
Proof.
  induction l as [| p l IH]; intros n; [reflexivity |].
  cbn [enumerate for_each forallb]. rewrite outcome_bind, product_entry_eq.
  destruct (is_dict p) eqn:D.
  - destruct p; try discriminate.
    match goal with |- context [card (VDict ?d)] =>
      destruct (product_card_dict d) as [c ->] end.
    cbn [outcome snd andb]. apply IH.
  - now rewrite (product_card_other p D).
Qed.

Lemma collect_cards l :
  forallb is_dict l = true -> exists cs, collect card l = inr cs.
Proof.
  induction l as [| p l IH]; [now exists [] |].
  intros H. simpl in H. apply andb_prop in H as [D H].
  destruct p; try discriminate. destruct (IH H) as [cs C].
  match goal with |- context [VDict ?d] =>
    destruct (product_card_dict d) as [c E] end.
  exists (c :: cs). cbn [collect]. now rewrite E, C.
Qed.

Lemma product_entries_bound l : forall n,
  List.length (products (events (for_each (enumerate n l) entry)))
  <= List.length l.
Proof.
  induction l as [| p l IH]; intros n; [simpl; lia |].
  cbn [enumerate for_each]. rewrite events_bind, products_app, length_app.
  specialize (IH (S n)). rewrite product_entry_eq.
  destruct (card p); cbn [events outcome fst snd products List.length]; lia.
Qed.

Lemma product_entries_strs l n :
  products (events (for_each (enumerate n (map VStr l)) entry)) = [].
Proof. destruct l; reflexivity. Qed.

Lemma shopping_section_list d l :
  lookup "shopping" d = Some (VList l) ->
  section_of (VDict d)
  = (Ui shopping_container (Markdown "### 🛒 Related Products" false)
       :: Ui shopping_container (Columns (VInt 5))
       :: events (for_each (enumerate 0 (firstn 10 l)) entry),
     outcome (for_each (enumerate 0 (firstn 10 l)) entry)).
Proof.
  intros H. unfold shopping_section, getitem.
  rewrite bind_emit, bind_lift, has_dict, H. cbv beta iota.
  rewrite bind_lift. cbv beta iota. rewrite bind_emit. cbn [slice_to].
  rewrite bind_lift, bind_lift. cbn [iter events outcome fst snd].
  reflexivity.
Qed.

Lemma products_bound r : List.length (products (events (section_of r))) <= 10.
Proof.
  unfold shopping_section. rewrite bind_emit, bind_lift.
  destruct (has "shopping" r) as [e | []]; try (cbn; lia).
  rewrite bind_lift.
  destruct (getitem r "shopping") as [e | all_products]; [cbn; lia |].
  rewrite bind_emit.
  destruct all_products as [| b | z | f | s | l | d']; try (cbn; lia);
    cbn [slice_to]; rewrite bind_lift, bind_lift;
    cbn [iter events fst products].
  - rewrite product_entries_strs. cbn. lia.
  - etransitivity; [apply product_entries_bound |].
    pose proof (firstn_le_length 10 l) as L. rewrite length_firstn in *. lia.
Qed.

(** X23.  The grid of products.  Ten cards are written at most, whatever the
    response.  A product that is an object always has a card, whatever its
    fields hold.  So on a response with a list of products the section ends
    well exactly when the first ten are objects: then their cards are written
    in order, the card number [idx] (from 0) in the column [idx mod 5]; with
    another item among them, the section raises [AttributeError]. *)
Theorem products_shown_in_five_columns :
  (forall r, List.length (products (events (section_of r))) <= 10)
  /\ (forall d, exists c, card (VDict d) = inr c)
  /\ (forall d l,
        lookup "shopping" d = Some (VList l) ->
        outcome (section_of (VDict d))
        = (if forallb is_dict (firstn 10 l) then inr tt else inl AttributeError)
        /\ (forallb is_dict (firstn 10 l) = true ->
            exists cs,
              collect card (firstn 10 l) = inr cs
              /\ products (events (section_of (VDict d)))
                 = map (fun ic => (fst ic mod 5, snd ic)) (enumerate 0 cs))).
Proof.
  split; [apply products_bound |]. split; [apply product_card_dict |].
  intros d l H. rewrite (shopping_section_list d l H).
  cbn [events outcome fst snd products]. split.
  - apply product_entries_outcome.
  - intros D. destruct (collect_cards _ D) as [cs C]. exists cs.
    split; [exact C |]. now apply product_entries.
Qed.

End Products.

(** ** Runs that end well *)

Section Answered.
Import Shape.

Variable assistant_run : string -> result string.
Variable repr_other : value -> string.
Variable lib : library.

Local Abbreviation page_render := (render assistant_run repr_other lib).
Local Abbreviation page_gated := (gated assistant_run repr_other lib).
Local Abbreviation page_block := (block assistant_run repr_other lib).
Local Abbreviation takes := (library_takes lib repr_other).

(** The agent answers every prompt. *)
Hypothesis answered : forall p, exists content, assistant_run p = inr content.

Lemma block_falsy v q r :
  truthy r = false -> page_block v q r = page_block v q VNone.
Proof.
  intros T. destruct v; cbn [block];
    unfold ai_answer, maps_section, images_section, videos_section,
      shopping_section, format_search_content, has_places;
    now rewrite !(has_falsy _ r T).
Qed.

Lemma block_none_outcome v q : outcome (page_block v q VNone) = inr tt.
Proof.
  destruct v; try reflexivity.
  cbn [block]. rewrite ai_answer_eq, content_none.
  destruct (answered (prompt_of q "")) as [content ->]. reflexivity.
Qed.

Lemma block_list_outcome v q d l :
  lookup (key v) d = Some (VList l) ->
  items_ok v l = true ->
  takes v (VDict d) ->
  outcome (page_block v q (VDict d)) = inr tt.
Proof.
  intros H I T. destruct v; cbn [block key items_ok library_takes] in *.
  - rewrite ai_answer_eq, (content_top_five repr_other d l H I).
    match goal with |- context [assistant_run ?p] =>
      destruct (answered p) as [content ->] end.
    now rewrite (sources_list repr_other d l H I).
  - apply andb_prop in I as [D P]. destruct l as [| p ps].
    + unfold maps_section. now rewrite bind_emit, bind_lift, (has_places_list d _ H).
    + rewrite H in T. destruct T as [Fm Tm].
      rewrite (maps_section_run repr_other lib d p ps H D Fm Tm). cbn [outcome snd].
      rewrite place_entries_outcome by now apply firstn_dicts.
      now rewrite P.
  - rewrite H in T. rewrite (images_section_list lib d l H). cbn [outcome snd].
    apply (image_entries lib _ 0 I T).
  - apply (videos_section_list repr_other d l H), I.
  - rewrite (shopping_section_list repr_other d l H). cbn [outcome snd].
    now rewrite product_entries_outcome, I.
Qed.

Lemma block_well_formed v q r :
  well_formed v r = true -> takes v r -> outcome (page_block v q r) = inr tt.
Proof.
  unfold well_formed.
  destruct r as [| b | z | f | s | l | d];
    try (intros T _; apply negb_true_iff in T;
         try rewrite (block_falsy v q _ T); apply block_none_outcome).
  destruct (lookup (key v) d) as [x |] eqn:L.
  - destruct x; try discriminate. now apply block_list_outcome.
  - intros _ _. rewrite (block_without_key assistant_run repr_other lib v q d L).
    apply block_none_outcome.
Qed.

Lemma render_ends_well i r :
  (forall v, outcome (page_gated i r v) = inr tt) ->
  outcome (page_render i r) = inr tt.
Proof.
  intros G. unfold render. rewrite outcome_bind. cbn [emit outcome snd].
  now rewrite !outcome_bind, !G.
Qed.

End Answered.

Section Complete.
Import Shape.

Variable SERPER_API_KEY : option string.
Variable json_dumps : value -> string.
Variable requests_post :
  string -> list (string * option string) -> string -> result response.
Variable assistant_run : string -> result string.
Variable repr_other : value -> string.
Variable lib : library.

Local Abbreviation page_main :=
  (main SERPER_API_KEY json_dumps requests_post assistant_run repr_other lib).
Local Abbreviation page_fetch := (fetch SERPER_API_KEY json_dumps requests_post).
Local Abbreviation search := (serper_search SERPER_API_KEY json_dumps requests_post).

(** X24.  A run on well-formed responses ends well.  When every search whose
    toggle is on returns a response its block can read (nothing, an object
    without the key of the vertical, or with an array of items of the shape
    the block reads), folium and [st.image] take what the blocks of the map
    and of the images give them, and the agent answers, [main] raises no
    exception, and every search whose toggle is on was made once. *)
Theorem well_formed_responses_render i :
  searching_for i ->
  (forall v, enabled i v = true ->
     exists x,
       outcome (search (query i) (search_type v)) = inr x
       /\ well_formed v x = true
       /\ library_takes lib repr_other v x) ->
  (forall p, exists content, assistant_run p = inr content) ->
  outcome (page_main i) = inr tt
  /\ forall v, calls v (events (page_main i)) = if enabled i v then 1 else 0.
Proof.
  intros S W A.
  destruct (fetch_requests SERPER_API_KEY json_dumps requests_post i)
    as [later [_ [_ R]]].
  destruct R as [r O].
  { intros v E. destruct (W v E) as [x [X _]]. eauto. }
  split.
  - rewrite (main_outcome _ _ _ _ _ _ i S), O. apply (render_ends_well _ _ _ i r).
    intros v. unfold gated. destruct (enabled i v) eqn:E; [| reflexivity].
    destruct (W v E) as [x [X [Wx Tx]]].
    pose proof (fetch_payload _ _ _ i v r O) as P. rewrite E, X in P.
    injection P as <-.
    exact (block_well_formed assistant_run repr_other lib A v (query i) _ Wx Tx).
  - intros v. rewrite (main_calls _ _ _ _ _ _ i v S).
    destruct (fetch_calls SERPER_API_KEY json_dumps requests_post i v)
      as [_ [_ C]].
    exact (C r O).
Qed.

End Complete.

(** ** The API key *)

Section Key.
Import Shape.

Variable key1 key2 : option string.
Variable json_dumps : value -> string.
Variable post1 post2 :
  string -> list (string * option string) -> string -> result response.
Variable assistant_run : string -> result string.
Variable repr_other : value -> string.
Variable lib : library.

Local Abbreviation main1 :=
  (main key1 json_dumps post1 assistant_run repr_other lib).
Local Abbreviation main2 :=
  (main key2 json_dumps post2 assistant_run repr_other lib).
Local Abbreviation fetch1 := (fetch key1 json_dumps post1).
Local Abbreviation fetch2 := (fetch key2 json_dumps post2).
Local Abbreviation search1 := (serper_search key1 json_dumps post1).
Local Abbreviation search2 := (serper_search key2 json_dumps post2).

(** The search service answers alike under the two keys. *)
Hypothesis alike :
  forall url data, post1 url (headers key1) data = post2 url (headers key2) data.

Lemma visible_app t t' : visible (t ++ t') = visible t ++ visible t'.
Proof. apply filter_app. Qed.

Lemma visible_posts t : forallb is_post t = true -> visible t = [].
Proof.
  induction t as [| e t IH]; [reflexivity |].
  simpl. intros H. apply andb_prop in H as [-> H]. simpl. auto.
Qed.

Lemma search_alike q st : outcome (search1 q st) = outcome (search2 q st).
Proof. now rewrite !serper_search_outcome, alike. Qed.

Lemma search_if_alike b q st :
  outcome (search_if key1 json_dumps post1 b q st)
  = outcome (search_if key2 json_dumps post2 b q st).
Proof. rewrite !search_if_outcome. destruct b; [apply search_alike | reflexivity]. Qed.

Lemma fetch_alike i :
  outcome (fetch1 i) = outcome (fetch2 i)
  /\ visible (events (fetch1 i)) = visible (events (fetch2 i)).
Proof.
  split.
  - rewrite !fetch_eq, !with_spinner_outcome.
    rewrite !outcome_bind, search_alike.
    destruct (outcome (search2 (query i) "search")); [reflexivity |].
    rewrite !outcome_bind, search_if_alike.
    destruct (outcome (search_if key2 json_dumps post2 _ _ "maps")); [reflexivity |].
    rewrite !outcome_bind, search_if_alike.
    destruct (outcome (search_if key2 json_dumps post2 _ _ "images")); [reflexivity |].
    rewrite !outcome_bind, search_if_alike.
    destruct (outcome (search_if key2 json_dumps post2 _ _ "videos")); [reflexivity |].
    rewrite !outcome_bind, search_if_alike.
    destruct (outcome (search_if key2 json_dumps post2 _ _ "shopping")); reflexivity.
  - rewrite !fetch_events.
    change (Ui page (Spinner true) :: ?t ++ [Ui page (Spinner false)])
      with ([Ui page (Spinner true)] ++ t ++ [Ui page (Spinner false)]).
    rewrite !visible_app.
    now rewrite !(visible_posts _ (searches_posts _ _ _ i)).
Qed.

End Key.

Section KeyRuns.
Import Shape.

Variable key1 key2 : option string.
Variable json_dumps : value -> string.
Variable post1 post2 :
  string -> list (string * option string) -> string -> result response.
Variable assistant_run : string -> result string.
Variable repr_other : value -> string.
Variable lib : library.

Local Abbreviation main1 :=
  (main key1 json_dumps post1 assistant_run repr_other lib).
Local Abbreviation main2 :=
  (main key2 json_dumps post2 assistant_run repr_other lib).

(** X25.  The API key goes into the headers of the requests and nowhere else.
    Two runs under two keys, on a search service that answers alike under
    both, show the same widgets in the same order, call the agent on the same
    prompt and end alike: what the key does to a run, it does through the
    responses of the service. *)
Theorem api_key_goes_to_requests_only i :
  (forall url data, post1 url (headers key1) data = post2 url (headers key2) data) ->
  visible (events (main1 i)) = visible (events (main2 i))
  /\ outcome (main1 i) = outcome (main2 i)
  /\ prompts (events (main1 i)) = prompts (events (main2 i)).
Proof.
  intros H.
  destruct (fetch_alike key1 key2 json_dumps post1 post2 H i) as [O V].
  destruct (searching_or_idle i) as [S | I].
  - rewrite !(main_prompts _ _ _ _ _ _ i S), !(main_outcome _ _ _ _ _ _ i S),
      !(main_events _ _ _ _ _ _ i S), !visible_app, V, O.
    repeat split.
  - rewrite !(main_idle _ _ _ _ _ _ i I). repeat split.
Qed.

End KeyRuns.

(** ** The properties on sample runs *)

Section Samples.
Import Sample Cases.

Lemma searching_for_sample i :
  search_button i = true -> query i = "rocq" -> searching_for i.
Proof. intros B Q. split; [exact B | rewrite Q; discriminate]. Defined.

(** C1: a vertical whose toggle is on is not searched in the run whose
    maps search cannot connect, and not drawn in the run whose videos
    raise. *)
Lemma enabled_vertical_lost_in_aborted_run :
  enabled everything Images = true
  /\ outcome (run_unreachable everything) = inl (External "ConnectTimeout")
  /\ calls Images (events (run_unreachable everything)) = 0
  /\ drawn Images (events (run_unreachable everything)) = []
  /\ enabled videos_and_shopping Shopping = true
  /\ outcome (run_null_source videos_and_shopping) = inl AttributeError
  /\ calls Shopping (events (run_null_source videos_and_shopping)) = 1
  /\ drawn Shopping (events (run_null_source videos_and_shopping)) = []
  /\ ~ (enabled everything Images = true ->
        calls Images (events (run_unreachable everything)) = 1).
Proof.
  repeat split. intros H. specialize (H eq_refl). discriminate H.
Qed.

(** C1, as amended, on the run with the videos and the products switched on
    whose videos raise: the products are searched, and not drawn. *)
Lemma toggles_gate_searches_and_sections_witness :
  calls Search (events (run_null_source videos_and_shopping)) = 1
  /\ (calls Maps (events (run_null_source videos_and_shopping)) = 0
      /\ drawn Maps (events (run_null_source videos_and_shopping)) = [])
  /\ calls Shopping (events (run_null_source videos_and_shopping)) = 1
  /\ drawn Videos (events (run_null_source videos_and_shopping))
     = [(video_container, Markdown "### 📹 Related Videos" false)]
  /\ drawn Shopping (events (run_null_source videos_and_shopping)) = [].
Proof.
  destruct (toggles_gate_searches_and_sections api_key dumps service_null_source
              agent repr checks videos_and_shopping
              (searching_for_sample videos_and_shopping eq_refl eq_refl))
    as [A [B [C [_ [D [E _]]]]]].
  split; [exact A |]. split; [exact (B Maps eq_refl) |]. split; [| split].
  - apply (C Shopping eq_refl). intros u _ Eu.
    destruct u; try discriminate Eu; eexists; reflexivity.
  - destruct (D Videos results_null_source eq_refl eq_refl) as [Dv _].
    + intros u L Eu. destruct u; try discriminate Eu; try reflexivity;
        simpl in L; lia.
    + exact Dv.
  - apply (E Videos results_null_source AttributeError eq_refl eq_refl eq_refl).
    simpl. lia.
Defined.


(** C3: a failed web search leaves no message; the answer is shown. *)
Lemma failed_web_search_shows_no_message :
  outcome (serper_search api_key dumps service_down "rocq" "search") = inr VNone
  /\ outcome (run_down answer_only) = inr tt
  /\ drawn Search (events (run_down answer_only))
     = [(text_container, Markdown "### 📝 AI Answer" false);
        (text_container, Markdown "An answer." false)]
  /\ infos (events (run_down answer_only))
     = [(progress_placeholder, "🔍 Searching for information...")]
  /\ ~ (exists p s, In (p, Info s) (drawn Search (events (run_down answer_only)))).
Proof.
  repeat split. intros [p [s H]]. simpl in H.
  destruct H as [H | [H | []]]; discriminate.
Qed.

(** C3, as amended, on a search service that is down. *)
Lemma failed_search_gives_empty_section_witness :
  serper_search api_key dumps service_down "rocq" "maps"
  = ([Post MAPS_SEARCH_URL (headers api_key) (dumps (VDict [("q", VStr "rocq")]))],
     inr VNone)
  /\ drawn Maps (events (run_down everything))
     = [(maps_container, Markdown "### 🗺️ Map Results" false);
        (maps_container, Info "No map results available for this query.")].
Proof.
  destruct (failed_search_gives_empty_section api_key dumps service_down agent repr
              checks)
    as [A [_ [_ [D _]]]].
  split.
  - apply (A "rocq" "maps" (Response 500 (inl (External "JSONDecodeError"))) eq_refl).
    discriminate.
  - apply (D everything Maps (Response 500 (inl (External "JSONDecodeError")))
             (Results VNone VNone VNone VNone VNone)
             (searching_for_sample everything eq_refl eq_refl));
      try reflexivity; try discriminate.
    intros u L Eu. destruct u; try reflexivity; simpl in L; lia.
Defined.

Lemma agree_except_videos : agree_except Videos service service_null_source.
Proof. intros w N h d. destruct w; try reflexivity. now elim N. Defined.

Lemma agree_except_shopping : agree_except Shopping service service_no_shopping.
Proof. intros w N h d. destruct w; try reflexivity. now elim N. Defined.

(** C4: two runs that differ in the video response alone, one with a
    video whose [source] is [null]: it takes the products away. *)
Lemma null_source_hides_products :
  agree_except Videos service service_null_source
  /\ outcome (serper_search api_key dumps service "rocq" "videos")
     = inr video_response
  /\ outcome (serper_search api_key dumps service_null_source "rocq" "videos")
     = inr video_response_null_source
  /\ drawn Shopping (events (run videos_and_shopping))
     = [(shopping_container, Markdown "### 🛒 Related Products" false);
        (shopping_container, Columns (VInt 5))]
  /\ drawn Shopping (events (run_null_source videos_and_shopping)) = []
  /\ outcome (run_null_source videos_and_shopping) = inl AttributeError
  /\ drawn Shopping (events (run videos_and_shopping))
     <> drawn Shopping (events (run_null_source videos_and_shopping)).
Proof. split; [exact agree_except_videos | repeat split]. discriminate. Qed.

(** C4, as amended, on a shopping response without its key. *)
Lemma sections_independent_unless_aborted_witness :
  drawn Videos (events (run everything))
  = drawn Videos (events (run_no_shopping everything)).
Proof.
  destruct (sections_independent_unless_aborted api_key dumps service service_no_shopping
              agent repr checks Shopping everything
              (searching_for_sample everything eq_refl eq_refl)
              agree_except_shopping) as [_ B].
  destruct (B (VDict [("shopping", VList [])]) (VDict [("credits", VInt 1)])
              eq_refl eq_refl) as [A _].
  apply (A Videos). simpl. lia.
Defined.


(** C6: the latitude of the center of the map falls back to a number. *)
Lemma map_center_default_is_a_number :
  lookup "latitude" [("title", VStr "Cafe")] = None
  /\ map_center (VDict [("title", VStr "Cafe")]) = inr (VInt 0, VInt 0)
  /\ ~ (exists s lng,
          map_center (VDict [("title", VStr "Cafe")]) = inr (VStr s, lng)).
Proof. repeat split. intros [s [lng H]]. discriminate. Qed.

(** C6, as amended, on a place without a phone number. *)
Lemma fields_fall_back_to_fixed_defaults_witness :
  place_card repr (VDict [("title", VStr "Cafe")])
  = place_card repr
      (VDict [("phoneNumber", VStr "Not available"); ("title", VStr "Cafe")]).
Proof.
  destruct (fields_fall_back_to_fixed_defaults repr checks) as [_ [_ [_ [_ [A _]]]]].
  apply (A "phoneNumber" (VStr "Not available")); [| reflexivity].
  simpl. tauto.
Defined.

(** C7 on an agent whose call raises. *)
Lemma agent_failure_aborts_page_witness :
  outcome (run_agent_down everything) = inl (External "ResourceExhausted").
Proof.
  apply (agent_failure_aborts_page api_key dumps service agent_down repr checks
           everything
           prompt (External "ResourceExhausted")); [| reflexivity].
  apply prompts_In. left. reflexivity.
Defined.

(** C8 on a vertical the API does not have. *)
Lemma unknown_search_type_is_web_search_witness :
  endpoint "news" = SEARCH_URL
  /\ serper_search api_key dumps service "rocq" "news"
     = serper_search api_key dumps service "rocq" "search".
Proof.
  destruct (unknown_search_type_is_web_search api_key dumps service "rocq" "news")
    as [A [B _]]; try discriminate.
  split; [exact A | exact B].
Defined.




End Samples.

(** ** More properties on sample runs *)

Section MoreSamples.
Import Sample Cases Shape.

(** X1: a response of status 200 whose body is no JSON. *)
Lemma search_raises_from_request_or_body_witness :
  outcome
    (serper_search api_key dumps
       (fun _ _ _ => inr (Response 200 (inl (External "JSONDecodeError"))))
       "rocq" "search")
  = inl (External "JSONDecodeError").
Proof.
  apply (search_raises_from_request_or_body api_key dumps
           (fun _ _ _ => inr (Response 200 (inl (External "JSONDecodeError"))))
           "rocq" "search" (External "JSONDecodeError")).
  right. eexists. repeat split.
Defined.

(** X2: a maps search that cannot connect ends the run with everything
    switched on. *)
Lemma failed_search_aborts_page_witness :
  outcome (run_unreachable everything) = inl (External "ConnectTimeout")
  /\ prompts (events (run_unreachable everything)) = []
  /\ drawn Search (events (run_unreachable everything)) = [].
Proof.
  destruct (failed_search_aborts_page api_key dumps service_unreachable agent repr checks
              everything Maps (External "ConnectTimeout")
              (searching_for_sample everything eq_refl eq_refl) eq_refl eq_refl)
    as [w [e [_ [_ [O [P [D _]]]]]]].
  split; [reflexivity |]. split; [exact P | exact (D Search)].
Defined.

(** X3: the page before the button is pressed. *)
Lemma idle_page_makes_no_request_witness :
  run not_pressed = (events controls, inr tt)
  /\ requests (events (run not_pressed)) = [].
Proof.
  destruct (idle_page_makes_no_request api_key dumps service agent repr checks not_pressed)
    as [A _].
  destruct (A (or_introl eq_refl)) as [B [C _]]. split; [exact B | exact C].
Defined.

(** X4: the requests of the run with the videos and the products. *)
Lemma searches_posted_in_page_order_witness :
  requests (events (run videos_and_shopping))
  = [Post SEARCH_URL (headers api_key) (dumps (VDict [("q", VStr "rocq")]));
     Post VIDEO_SEARCH_URL (headers api_key) (dumps (VDict [("q", VStr "rocq")]));
     Post SHOPPING_SEARCH_URL (headers api_key) (dumps (VDict [("q", VStr "rocq")]))].
Proof.
  destruct (searches_posted_in_page_order api_key dumps service agent repr checks
              videos_and_shopping
              (searching_for_sample videos_and_shopping eq_refl eq_refl))
    as [_ A].
  apply A. intros v E. destruct v; try discriminate E; eexists; reflexivity.
Defined.

(** X5: the stages of the run that only answers. *)
Lemma searches_precede_rendering_witness :
  exists posted shown,
    events (run answer_only)
    = preamble answer_only
      ++ Ui page (Spinner true) :: posted ++ Ui page (Spinner false) :: shown
    /\ forallb is_post posted = true
    /\ requests shown = [].
Proof.
  destruct (searches_precede_rendering api_key dumps service agent repr checks answer_only
              (searching_for_sample answer_only eq_refl eq_refl))
    as [posted [shown [E [_ [P [R _]]]]]].
  exists posted, shown. split; [exact E |]. split; [exact P | exact R].
Defined.

(** X6: one call of the agent in the sample run. *)
Lemma agent_called_at_most_once_witness :
  prompts (events (run everything)) = [prompt].
Proof.
  destruct (agent_called_at_most_once api_key dumps service agent repr checks everything)
    as [_ A].
  apply (A (Results web_response maps_response (VDict []) video_response
              (VDict [("shopping", VList [])]))
           (String.concat "" (map (entry_text repr)
                                (firstn 5 (organic_entries web_response))))
           (searching_for_sample everything eq_refl eq_refl));
    reflexivity.
Defined.

(** X7: the sections of the sample run, in the order of the page. *)
Lemma sections_drawn_in_page_order_witness :
  exists n1 n2 n3 n4 n5,
    drawn_in (events (run everything))
    = repeat Search n1 ++ repeat Maps n2 ++ repeat Images n3
      ++ repeat Videos n4 ++ repeat Shopping n5.
Proof.
  exact (sections_drawn_in_page_order api_key dumps service agent repr checks everything).
Defined.

(** X8: the video with the null source: the answer is drawn, the products are
    not. *)
Lemma failed_section_hides_sections_below_witness :
  outcome (run_null_source videos_and_shopping) = inl AttributeError
  /\ drawn Shopping (events (run_null_source videos_and_shopping)) = []
  /\ drawn Search (events (run_null_source videos_and_shopping))
     = drawn Search (events (block agent repr checks Search "rocq" web_response)).
Proof.
  destruct (failed_section_hides_sections_below api_key dumps service_null_source agent repr checks videos_and_shopping results_null_source Videos
              AttributeError
              (searching_for_sample videos_and_shopping eq_refl eq_refl)
              eq_refl eq_refl eq_refl)
    as [A [B C]].
  - intros u L E. destruct u; try discriminate E; try reflexivity;
      simpl in L; lia.
  - split; [exact A |]. split.
    + apply (B Shopping). simpl. lia.
    + apply (C Search); [simpl; lia | reflexivity].
Defined.

(** X9: a response that is a number. *)
Lemma response_that_is_no_object_witness :
  block agent repr checks Images "rocq" (VInt 7)
  = ([Ui image_container (Markdown "### 🖼️ Image Results" false)], inl TypeError).
Proof.
  exact (response_that_is_no_object agent repr checks Images "rocq" (VInt 7) eq_refl).
Defined.

(** X10: the web results past the fifth are not read. *)
Lemma block_reads_up_to_its_limit_witness :
  block agent repr checks Search "rocq"
    (VDict [("organic",
             VList [VDict []; VDict []; VDict []; VDict []; VDict []; VInt 6])])
  = block agent repr checks Search "rocq"
      (VDict [("organic", VList [VDict []; VDict []; VDict []; VDict []; VDict []])]).
Proof.
  exact (block_reads_up_to_its_limit agent repr checks Search "rocq"
           [("organic",
             VList [VDict []; VDict []; VDict []; VDict []; VDict []; VInt 6])]
           [VDict []; VDict []; VDict []; VDict []; VDict []; VInt 6] eq_refl).
Defined.

(** X11: the sources of the sample web response. *)
Lemma sources_numbered_up_to_five_witness :
  listed (events (ai_answer agent repr "rocq" web_response))
  = [Markdown "**1. [Rocq](https://rocq-prover.org)**" false;
     Markdown "_A proof assistant_" false; Divider;
     Markdown "**2. [Untitled](#)**" false;
     Markdown "_No snippet_" false; Divider].
Proof.
  destruct (sources_numbered_up_to_five agent repr "rocq") as [A _].
  unfold web_response.
  match goal with
  | |- context [VDict [(_, VList ?l)]] =>
      rewrite (A [("organic", VList l)] l "An answer." eq_refl eq_refl eq_refl)
  end.
  reflexivity.
Defined.

(** X12: a web result that is a text, in the second place. *)
Lemma malformed_web_result_aborts_before_agent_witness :
  ai_answer agent repr "rocq"
    (VDict [("organic", VList [VDict [("title", VStr "Rocq")]; VStr "Rocq"])])
  = ([answer_heading], inl AttributeError).
Proof.
  destruct (malformed_web_result_aborts_before_agent agent repr "rocq"
              [("organic", VList [VDict [("title", VStr "Rocq")]; VStr "Rocq"])]
              [VDict [("title", VStr "Rocq")]; VStr "Rocq"] eq_refl eq_refl)
    as [A _].
  exact A.
Defined.

(** X13: a rating that is [null] is written [None]. *)
Lemma present_fields_are_written_as_text_witness :
  product_card repr (VDict [("title", VStr "Mug"); ("rating", VNone)])
  = product_card repr
      (VDict [("rating", VStr "None"); ("title", VStr "Mug"); ("rating", VNone)]).
Proof.
  destruct (present_fields_are_written_as_text repr) as [_ [_ [_ [_ [A _]]]]].
  refine (A "rating" _ [("title", VStr "Mug"); ("rating", VNone)] VNone eq_refl).
  simpl. tauto.
Defined.

(** X14: opening hours that are a text, and opening hours that are [null]. *)
Lemma opening_hours_of_a_place_witness :
  place_card repr (VDict always_open) = inl AttributeError
  /\ place_card repr (VDict hours_unknown)
     = place_card repr (VDict (("openingHours", VDict []) :: hours_unknown))
  /\ outcome (maps_section repr checks (VDict [("places", VList [VDict always_open])]))
     = inl AttributeError
  /\ maps
       (events
          (maps_section repr checks (VDict [("places", VList [VDict always_open])])))
     = [Map (VInt 0, VInt 0) 14 []].
Proof.
  destruct (opening_hours_of_a_place repr checks) as [_ [A [B C]]].
  destruct (C [("places", VList [VDict always_open])] (VDict always_open) []
              eq_refl eq_refl eq_refl (Forall_nil _)) as [Co Cm].
  split; [| split; [| split]].
  - apply (B always_open (VStr "Open 24 hours")); reflexivity.
  - apply (A hours_unknown VNone); reflexivity.
  - exact Co.
  - exact Cm.
Defined.


(** X16: a list of products that is empty. *)
Lemma empty_array_is_not_absent_witness :
  block agent repr checks Shopping "rocq" (VDict [("shopping", VList [])])
  = ([Ui shopping_container (Markdown "### 🛒 Related Products" false);
      Ui shopping_container (Columns (VInt 5))], inr tt).
Proof.
  exact (empty_array_is_not_absent agent repr checks Shopping "rocq"
           [("shopping", VList [])] eq_refl).
Defined.

(** X17: a list of images that is [null]. *)
Lemma null_array_raises_type_error_witness :
  block agent repr checks Images "rocq" (VDict [("images", VNone)])
  = ([Ui image_container (Markdown "### 🖼️ Image Results" false)], inl TypeError).
Proof.
  exact (null_array_raises_type_error agent repr checks Images "rocq" [("images", VNone)]
           eq_refl).
Defined.

(** X18: the captions of the sample images. *)
Lemma caption_is_title_up_to_ellipsis_witness :
  image_caption
    (VDict [("imageUrl", VStr "https://img.example/0.png");
            ("title", VStr "Rocq logo ... the rooster")])
  = inr "Rocq logo "
  /\ image_caption (VDict [("title", VStr "One")]) = inr "One"
  /\ image_caption (VDict [("title", VInt 7)]) = inl AttributeError.
Proof.
  destruct caption_is_title_up_to_ellipsis as [A [_ [B C]]].
  split; [| split].
  - apply (A [("imageUrl", VStr "https://img.example/0.png");
              ("title", VStr "Rocq logo ... the rooster")]). reflexivity.
  - apply (B [("title", VStr "One")] "One"); reflexivity.
  - apply (C [("title", VInt 7)] (VInt 7)); reflexivity.
Defined.

(** X19: the seven sample images: the last one is in the second column.
    An image without its URL is not taken. *)
Lemma images_shown_in_five_columns_witness :
  outcome (images_section checks image_response) = inr tt
  /\ List.length (images (events (images_section checks image_response))) = 7
  /\ nth_error (images (events (images_section checks image_response))) 6
     = Some (image_cols 1, VStr "https://img.example/6.png", "Six")
  /\ outcome (images_section checks image_response_no_url) <> inr tt.
Proof.
  destruct (images_shown_in_five_columns checks) as [_ A].
  destruct (A [("images", VList image_list)] image_list eq_refl) as [[_ O] [_ B]].
  assert (Ok : outcome (images_section checks image_response) = inr tt).
  { apply O. split; [reflexivity | repeat constructor]. }
  destruct (B Ok) as [E N].
  split; [exact Ok |]. split; [| split].
  - unfold image_response. rewrite E. reflexivity.
  - exact (N 6 _ ltac:(lia) eq_refl).
  - destruct (A [("images", VList [VDict [("title", VStr "One")]])]
                [VDict [("title", VStr "One")]] eq_refl) as [[I _] _].
    intros R. destruct (I R) as [_ T]. inversion T as [| x l Tx Tl].
    discriminate Tx.
Defined.

(** X20: the sample videos: the third YouTube video is in the third column,
    the slot of the second is empty. *)
Lemma videos_keep_their_slot_witness :
  clips (events (videos_section repr video_slots))
  = [(0, "https://www.youtube.com/embed/abc123");
     (2, "https://www.youtube.com/embed/xyz789")]
  /\ infos (events (videos_section repr video_slots)) = [].
Proof.
  destruct (videos_keep_their_slot repr [("videos", VList video_list)] video_list
              eq_refl eq_refl) as [A [B _]].
  split; [exact A | exact B].
Defined.

(** X21: the video with the null source. *)
Lemma untestable_video_aborts_section_witness :
  videos_section repr video_response_null_source
  = ([Ui video_container (Markdown "### 📹 Related Videos" false)],
     inl AttributeError).
Proof.
  unfold video_response_null_source.
  match goal with
  | |- context [VDict [(_, VList ?l)]] =>
      destruct (untestable_video_aborts_section repr [("videos", VList l)] l eq_refl)
        as [A _]
  end.
  exact (A eq_refl).
Defined.

(** X22: the sample watch link. *)
Lemma watch_link_gives_back_its_id_witness :
  embed_url_of (VStr "https://www.youtube.com/watch?v=abc123&t=42")
  = inr (Some "https://www.youtube.com/embed/abc123").
Proof.
  destruct (watch_link_gives_back_its_id "https://www." "abc123" "t=42"
              eq_refl eq_refl eq_refl) as [_ A].
  exact A.
Defined.

(** X23: the six sample products: the last one is in the first column. *)
Lemma products_shown_in_five_columns_witness :
  map fst (products (events (shopping_section repr shopping_response)))
  = [0; 1; 2; 3; 4; 0]
  /\ outcome (shopping_section repr shopping_response) = inr tt.
Proof.
  destruct (products_shown_in_five_columns repr) as [_ [_ A]].
  destruct (A [("shopping", VList product_list)] product_list eq_refl) as [O _].
  split; [reflexivity | exact O].
Defined.

(** X24: the sample run with everything switched on ends well. *)
Lemma well_formed_responses_render_witness :
  outcome (run everything) = inr tt
  /\ calls Images (events (run everything)) = 1.
Proof.
  destruct (well_formed_responses_render api_key dumps service agent repr checks everything
              (searching_for_sample everything eq_refl eq_refl)) as [A B].
  - intros v _. destruct v; eexists; (split; [reflexivity | split; [reflexivity |]]);
      try exact I; cbn; auto.
  - intros p. exists "An answer.". reflexivity.
  - split; [exact A | exact (B Images)].
Defined.

(** X25: the sample run with and without a key, on the sample service, which
    does not look at it. *)
Lemma api_key_goes_to_requests_only_witness :
  visible (events (run everything))
  = visible (events (main None dumps service agent repr checks everything))
  /\ outcome (run everything)
     = outcome (main None dumps service agent repr checks everything).
Proof.
  destruct (api_key_goes_to_requests_only api_key None dumps service service agent
              repr checks everything (fun _ _ => eq_refl)) as [A [B _]].
  split; [exact A | exact B].
Defined.

End MoreSamples.
